(** * P037: suboptimal-choice task with a reject key

    A shallow embedding of [P037_ExpProgram_2023-06-09.py] (class
    [MainScreen]) and the properties of its trial sequencer, outcome
    sampler, trial state machine and event logger.

    Conventions of the embedding:
    - Python [int] is [Z]; Python [float] (probabilities, clock readings)
      is [Q], with [int()] and [round()] written out on rationals;
    - Python [str] is [string]; lists are [list]; the colour dictionary
      is an association list in insertion order (the code looks a key up
      by the position of its value);
    - an attribute that the code may read before assigning it is an
      [option] field, and reading it unset raises [AttributeError];
    - a method is a state transformer in the monad [M]: an exception keeps
      every assignment made before it, as in Python;
    - [random], the wall clock, the settings file and the font metrics
      are oracles carried in the state; Tk is a canvas of tagged items,
      tag bindings and pending [after] timers;
    - [operant_box_version] is [True], as line 85 sets it. *)

From Stdlib Require Import ZArith QArith Qround List String Ascii Bool Lia
  Permutation PeanoNat DecimalString.
Import ListNotations.
Local Open Scope string_scope.
Local Open Scope list_scope.
Local Open Scope Z_scope.

(** ** Python built-ins used by the program *)

Module Py.

Definition newline : string := String (ascii_of_nat 10) EmptyString.

(** [s.lower()] on ASCII letters. *)
Definition lower_ascii (c : ascii) : ascii :=
  let n := nat_of_ascii c in
  if ((65 <=? n) && (n <=? 90))%nat then ascii_of_nat (n + 32) else c.

Fixpoint lower (s : string) : string :=
  match s with
  | EmptyString => EmptyString
  | String c s' => String (lower_ascii c) (lower s')
  end.

(** [sub in s] for strings. *)
Fixpoint contains (sub s : string) : bool :=
  prefix sub s ||
  match s with
  | EmptyString => false
  | String _ s' => contains sub s'
  end.

(** [s.split("_")[0]]. *)
Fixpoint split_underscore_0 (s : string) : string :=
  match s with
  | EmptyString => EmptyString
  | String c s' =>
      if Ascii.eqb c "_" then EmptyString else String c (split_underscore_0 s')
  end.

(** [s[:-5]]. *)
Definition drop_last_5 (s : string) : string :=
  substring 0 (String.length s - 5) s.

(** [int(s)] for a string of ASCII characters: optional surrounding
    white space (the characters 9-13, 28-31 and 32), an optional sign,
    decimal digits with single underscores between them. [None] stands
    for [ValueError]. Characters outside ASCII (the decimal digits and
    the spaces of other scripts, which [int] also reads) are not part
    of [string] and are left out. *)
Definition is_space (c : ascii) : bool :=
  let n := nat_of_ascii c in
  ((n =? 32) || ((9 <=? n) && (n <=? 13)) || ((28 <=? n) && (n <=? 31)))%nat.

Definition digit_value (c : ascii) : option Z :=
  let n := nat_of_ascii c in
  if ((48 <=? n) && (n <=? 57))%nat then Some (Z.of_nat (n - 48)) else None.

Fixpoint lstrip (s : string) : string :=
  match s with
  | String c s' => if is_space c then lstrip s' else s
  | EmptyString => EmptyString
  end.

Fixpoint all_space (s : string) : bool :=
  match s with
  | EmptyString => true
  | String c s' => is_space c && all_space s'
  end.

(** Digits after the first one: [acc] is the value read so far,
    [after_digit] tells whether the previous character was a digit. *)
Fixpoint parse_digits (s : string) (acc : Z) (after_digit : bool) : option Z :=
  match s with
  | EmptyString => if after_digit then Some acc else None
  | String c s' =>
      match digit_value c with
      | Some d => parse_digits s' (10 * acc + d) true
      | None =>
          if Ascii.eqb c "_" then
            if after_digit then parse_digits s' acc false else None
          else if after_digit && all_space s then Some acc
          else None
      end
  end.

Definition int_of_string (s : string) : option Z :=
  match lstrip s with
  | String "-" s' =>
      match s' with
      | String c _ =>
          match digit_value c with
          | Some _ => option_map Z.opp (parse_digits s' 0 false)
          | None => None
          end
      | EmptyString => None
      end
  | String "+" s' =>
      match s' with
      | String c _ =>
          match digit_value c with
          | Some _ => parse_digits s' 0 false
          | None => None
          end
      | EmptyString => None
      end
  | String c _ as s' =>
      match digit_value c with
      | Some _ => parse_digits s' 0 false
      | None => None
      end
  | EmptyString => None
  end.

(** [str(n)] for an integer, as an f-string prints it. *)
Definition str_of_int (z : Z) : string := NilZero.string_of_int (Z.to_int z).

(** [int(x)] for a float: truncation toward zero. *)
Definition int_of_float (x : Q) : Z := Z.quot (Qnum x) (Z.pos (Qden x)).

(** [round(x)] and [round(x, 5)] for a float: to the nearest, ties to
    even. *)
Definition round_half_even (x : Q) : Z :=
  let f := Qfloor x in
  let r := (x - inject_Z f)%Q in
  match (r ?= 1 # 2)%Q with
  | Lt => f
  | Gt => f + 1
  | Eq => if Z.even f then f else f + 1
  end.

Definition round_5 (x : Q) : Q :=
  round_half_even (x * inject_Z 100000)%Q # 100000.

(** [l * n] for a list and an integer. *)
Definition list_mul {A} (l : list A) (n : Z) : list A :=
  List.concat (repeat l (Z.to_nat n)).

(** [l.remove(x)]: drops the first element equal to [x]; [None] stands
    for [ValueError]. *)
Fixpoint list_remove (x : string) (l : list string) : option (list string) :=
  match l with
  | [] => None
  | y :: l' =>
      if String.eqb y x then Some l'
      else option_map (cons y) (list_remove x l')
  end.

(** [l.index(x)]: position of the first element equal to [x]; [None]
    stands for [ValueError]. *)
Fixpoint list_index (x : string) (l : list string) : option nat :=
  match l with
  | [] => None
  | y :: l' => if String.eqb y x then Some 0%nat else option_map S (list_index x l')
  end.

(** [d[k]] for a dictionary kept in insertion order; [None] stands for
    [KeyError]. *)
Fixpoint dict_get {A} (k : string) (d : list (string * A)) : option A :=
  match d with
  | [] => None
  | (k', v) :: d' => if String.eqb k' k then Some v else dict_get k d'
  end.

(** [x in l] for a list of strings. *)
Definition list_in (x : string) (l : list string) : bool :=
  existsb (String.eqb x) l.

(** [random.choice(l)] given the generator's draw [r]: the element at
    position [r mod len(l)]; [None] stands for [IndexError] on the empty
    list. *)
Definition choice (r : nat) (l : list string) : option string :=
  match l with
  | [] => None
  | _ => nth_error l (r mod List.length l)
  end.

End Py.

(** ** Trial sequencer ([first_ITI], lines 474-530) *)

(** The two option lists. *)
Definition pretraining_option_list : list string :=
  Py.list_mul
    ["rejection_key"; "left_choice_key"; "right_choice_key";
     "ll_feedback_key"; "lr_feedback_key"; "rl_feedback_key";
     "rr_feedback_key"] 8.

Definition training_option_list : list string :=
  Py.list_mul ["forced_choice-informative"; "forced_choice-noninformative"] 10
  ++ Py.list_mul ["rejection-informative"; "rejection-noninformative"] 10
  ++ Py.list_mul ["free_choice"] 10.

(** The inner [while c < len(trial_option_list) and approved] loop: one
    unit of [fuel] per iteration. *)
Fixpoint approval_loop (fuel : nat) (l : list string) (c : nat) (approved : bool)
  : bool :=
  match fuel with
  | O => approved
  | S fuel' =>
      if (c <? List.length l)%nat && approved then
        let approved' :=
          if (3 <? c)%nat then
            let a := nth c l "" in
            if String.eqb a (nth (c - 1) l "")
               && String.eqb a (nth (c - 2) l "")
               && String.eqb a (nth (c - 3) l "")
            then false else approved
          else approved in
        approval_loop fuel' l (c + 1) approved'
      else approved
  end.

(** The loop runs at most [len(l)] times. *)
Definition approved (l : list string) : bool :=
  approval_loop (List.length l) l 0 true.

(** The outer [while len(self.trial_order_list) != self.trials_per_session]
    loop. Every call of [shuffle] takes the next arrangement from [tape];
    [None] means that the loop is still running when the tape ends. The
    result carries the unread part of the tape. *)
Fixpoint fill_trial_order (tape : list (list string)) (trials_per_session : Z)
  (trial_order_list : list string) : option (list string * list (list string)) :=
  if Z.of_nat (List.length trial_order_list) =? trials_per_session
  then Some (trial_order_list, tape)
  else
    match tape with
    | [] => None
    | shuffled :: tape' =>
        fill_trial_order tape' trials_per_session
          (if approved shuffled then trial_order_list ++ shuffled
           else trial_order_list)
    end.

(** What [shuffle] promises: each arrangement permutes the list it was
    given, which is the previous arrangement. *)
Inductive shuffles_of : list string -> list (list string) -> Prop :=
| shuffles_nil : forall l, shuffles_of l []
| shuffles_cons : forall l s tape,
    Permutation l s -> shuffles_of s tape -> shuffles_of l (s :: tape).

(** Entries [i .. i+3] of [l] exist and carry one tag. *)
Definition run4_at (l : list string) (i : nat) : Prop :=
  exists a, nth_error l i = Some a /\ nth_error l (i + 1) = Some a
            /\ nth_error l (i + 2) = Some a /\ nth_error l (i + 3) = Some a.

Definition count (tag : string) (l : list string) : nat :=
  count_occ string_dec l tag.

(** The test of line 525 at position [c]. *)
Definition same_as_three_before (l : list string) (c : nat) : bool :=
  String.eqb (nth c l "") (nth (c - 1) l "")
  && String.eqb (nth c l "") (nth (c - 2) l "")
  && String.eqb (nth c l "") (nth (c - 3) l "").

(** The tags of the two phases. *)
Definition pretraining_tags : list string :=
  ["rejection_key"; "left_choice_key"; "right_choice_key"; "ll_feedback_key";
   "lr_feedback_key"; "rl_feedback_key"; "rr_feedback_key"].

Definition training_tags : list string :=
  ["forced_choice-informative"; "forced_choice-noninformative";
   "rejection-informative"; "rejection-noninformative"; "free_choice"].


(** ** The object, Tk and the environment *)

(** Exceptions the program can meet. [ShuffleTapeEnded] is not a Python
    exception: it marks a run whose shuffle loop is still going when the
    oracle's arrangements are used up. *)
Inductive exn : Type :=
| AttributeError | TypeError | ValueError | KeyError | IndexError
| UnboundLocalError | ShuffleTapeEnded.

(** What [root.after] can be asked to call. *)
Inductive Callback : Type := CbITI | CbInitialLinksStage | CbProvideFood.

(** What [tag_bind] can attach to a canvas tag:
    [lambda event: self.write_data(event, event_type)] or
    [lambda event: self.key_press(event, key_string)]. *)
Inductive Handler : Type :=
| HWriteData (event_type : string)
| HKeyPress (key_string : string).

(** A canvas item: its tag and its bounding box [x1, y1, x2, y2]. An
    item created without a tag (the texts of lines 553, 603 and 974)
    carries the empty tag, which nothing binds. A click belongs to the
    topmost item whose box holds the point: the box stands for the
    shape of the item, so that for an oval it holds every point Tk
    gives to the oval and the corners beside it. *)
Record Item : Type := mkItem {
  item_tag : string;
  item_x1 : Z; item_y1 : Z; item_x2 : Z; item_y2 : Z
}.

(** A cell of the data frame, by the Python type of the value stored. *)
Inductive Cell : Type :=
| CStr (s : string)
| CInt (z : Z)
| CFloat (q : Q)
| CBool (b : bool)
| CTimedelta (seconds : Q)
| CDate (d : string).

Definition Row : Type := list Cell.

(** The data file of a session: directory, subject, start time and phase
    make up its path. *)
Record FileName : Type := mkFileName {
  fn_directory : string;
  fn_subject : string;
  fn_start : Q;
  fn_phase : Z
}.

Record MainScreen : Type := mkMainScreen {
  training_phase : Z;
  subject_ID : string;
  record_data : bool;
  data_folder_directory : string;
  preTraining_FR : option Z;
  start_time : option Q;
  trial_start : option Q;
  ITI_duration : Z;
  feedback_duration : Z;
  current_trial_counter : Z;
  reinforcers_provided : Z;
  rejected_trial : bool;
  informative_prob : Q;
  noninformative_prob : Q;
  rejection_FI_duration : Z;
  session_data_frame : list Row;
  hopper_duration : option Z;
  informative_side : option string;
  informative_Splus_color : option string;
  informative_Sminus_color : option string;
  noninformative_side : option string;
  noninformative_Splus_color : option string;
  noninformative_Sminus_color : option string;
  key_color_dict : option (list (string * string));
  trials_per_session : option Z;
  forced_I_choice_outcome_list : option (list string);
  forced_NI_choice_outcome_list : option (list string);
  forced_NI_choice_feedback_list : option (list string);
  trial_order_list : option (list string);
  choice : option string;
  choice_key_FR : option Z;
  trial_type : option string;
  trial_stage : option Z;
  feedback_stimulus : option string;
  canvas : list Item;
  tag_binds : list (string * Handler);
  space_bound : bool;
  timers : list (Z * Callback);
  destroyed : bool;
  hopper_on : bool;
  stdout : list string;
  tracebacks : list exn;
  files : list (FileName * list Row);
  settings_csv : option (list (list (string * string)));
  today : string;
  clock : nat -> Q;
  clock_reads : nat;
  uniform_draws : nat -> Q;
  uniform_reads : nat;
  choice_draws : nat -> nat;
  choice_reads : nat;
  shuffle_tape : list (list string);
  text_bbox : Z -> Z -> string -> Z * Z * Z * Z
}.

(** Attribute assignment, one function per attribute the code assigns. *)
Definition set_start_time (v : option Q) (s : MainScreen) : MainScreen :=
  {| training_phase := training_phase s; subject_ID := subject_ID s;
     record_data := record_data s; data_folder_directory :=
     data_folder_directory s; preTraining_FR := preTraining_FR s; start_time
     := v; trial_start := trial_start s; ITI_duration := ITI_duration s;
     feedback_duration := feedback_duration s; current_trial_counter :=
     current_trial_counter s; reinforcers_provided := reinforcers_provided
     s; rejected_trial := rejected_trial s; informative_prob :=
     informative_prob s; noninformative_prob := noninformative_prob s;
     rejection_FI_duration := rejection_FI_duration s; session_data_frame :=
     session_data_frame s; hopper_duration := hopper_duration s;
     informative_side := informative_side s; informative_Splus_color :=
     informative_Splus_color s; informative_Sminus_color :=
     informative_Sminus_color s; noninformative_side := noninformative_side
     s; noninformative_Splus_color := noninformative_Splus_color s;
     noninformative_Sminus_color := noninformative_Sminus_color s;
     key_color_dict := key_color_dict s; trials_per_session :=
     trials_per_session s; forced_I_choice_outcome_list :=
     forced_I_choice_outcome_list s; forced_NI_choice_outcome_list :=
     forced_NI_choice_outcome_list s; forced_NI_choice_feedback_list :=
     forced_NI_choice_feedback_list s; trial_order_list := trial_order_list
     s; choice := choice s; choice_key_FR := choice_key_FR s; trial_type :=
     trial_type s; trial_stage := trial_stage s; feedback_stimulus :=
     feedback_stimulus s; canvas := canvas s; tag_binds := tag_binds s;
     space_bound := space_bound s; timers := timers s; destroyed :=
     destroyed s; hopper_on := hopper_on s; stdout := stdout s; tracebacks
     := tracebacks s; files := files s; settings_csv := settings_csv s;
     today := today s; clock := clock s; clock_reads := clock_reads s;
     uniform_draws := uniform_draws s; uniform_reads := uniform_reads s;
     choice_draws := choice_draws s; choice_reads := choice_reads s;
     shuffle_tape := shuffle_tape s;
     text_bbox := text_bbox s |}.

Definition set_trial_start (v : option Q) (s : MainScreen) : MainScreen :=
  {| training_phase := training_phase s; subject_ID := subject_ID s;
     record_data := record_data s; data_folder_directory :=
     data_folder_directory s; preTraining_FR := preTraining_FR s; start_time
     := start_time s; trial_start := v; ITI_duration := ITI_duration s;
     feedback_duration := feedback_duration s; current_trial_counter :=
     current_trial_counter s; reinforcers_provided := reinforcers_provided
     s; rejected_trial := rejected_trial s; informative_prob :=
     informative_prob s; noninformative_prob := noninformative_prob s;
     rejection_FI_duration := rejection_FI_duration s; session_data_frame :=
     session_data_frame s; hopper_duration := hopper_duration s;
     informative_side := informative_side s; informative_Splus_color :=
     informative_Splus_color s; informative_Sminus_color :=
     informative_Sminus_color s; noninformative_side := noninformative_side
     s; noninformative_Splus_color := noninformative_Splus_color s;
     noninformative_Sminus_color := noninformative_Sminus_color s;
     key_color_dict := key_color_dict s; trials_per_session :=
     trials_per_session s; forced_I_choice_outcome_list :=
     forced_I_choice_outcome_list s; forced_NI_choice_outcome_list :=
     forced_NI_choice_outcome_list s; forced_NI_choice_feedback_list :=
     forced_NI_choice_feedback_list s; trial_order_list := trial_order_list
     s; choice := choice s; choice_key_FR := choice_key_FR s; trial_type :=
     trial_type s; trial_stage := trial_stage s; feedback_stimulus :=
     feedback_stimulus s; canvas := canvas s; tag_binds := tag_binds s;
     space_bound := space_bound s; timers := timers s; destroyed :=
     destroyed s; hopper_on := hopper_on s; stdout := stdout s; tracebacks
     := tracebacks s; files := files s; settings_csv := settings_csv s;
     today := today s; clock := clock s; clock_reads := clock_reads s;
     uniform_draws := uniform_draws s; uniform_reads := uniform_reads s;
     choice_draws := choice_draws s; choice_reads := choice_reads s;
     shuffle_tape := shuffle_tape s;
     text_bbox := text_bbox s |}.

Definition set_ITI_duration (v : Z) (s : MainScreen) : MainScreen :=
  {| training_phase := training_phase s; subject_ID := subject_ID s;
     record_data := record_data s; data_folder_directory :=
     data_folder_directory s; preTraining_FR := preTraining_FR s; start_time
     := start_time s; trial_start := trial_start s; ITI_duration := v;
     feedback_duration := feedback_duration s; current_trial_counter :=
     current_trial_counter s; reinforcers_provided := reinforcers_provided
     s; rejected_trial := rejected_trial s; informative_prob :=
     informative_prob s; noninformative_prob := noninformative_prob s;
     rejection_FI_duration := rejection_FI_duration s; session_data_frame :=
     session_data_frame s; hopper_duration := hopper_duration s;
     informative_side := informative_side s; informative_Splus_color :=
     informative_Splus_color s; informative_Sminus_color :=
     informative_Sminus_color s; noninformative_side := noninformative_side
     s; noninformative_Splus_color := noninformative_Splus_color s;
     noninformative_Sminus_color := noninformative_Sminus_color s;
     key_color_dict := key_color_dict s; trials_per_session :=
     trials_per_session s; forced_I_choice_outcome_list :=
     forced_I_choice_outcome_list s; forced_NI_choice_outcome_list :=
     forced_NI_choice_outcome_list s; forced_NI_choice_feedback_list :=
     forced_NI_choice_feedback_list s; trial_order_list := trial_order_list
     s; choice := choice s; choice_key_FR := choice_key_FR s; trial_type :=
     trial_type s; trial_stage := trial_stage s; feedback_stimulus :=
     feedback_stimulus s; canvas := canvas s; tag_binds := tag_binds s;
     space_bound := space_bound s; timers := timers s; destroyed :=
     destroyed s; hopper_on := hopper_on s; stdout := stdout s; tracebacks
     := tracebacks s; files := files s; settings_csv := settings_csv s;
     today := today s; clock := clock s; clock_reads := clock_reads s;
     uniform_draws := uniform_draws s; uniform_reads := uniform_reads s;
     choice_draws := choice_draws s; choice_reads := choice_reads s;
     shuffle_tape := shuffle_tape s;
     text_bbox := text_bbox s |}.

Definition set_current_trial_counter (v : Z) (s : MainScreen) : MainScreen :=
  {| training_phase := training_phase s; subject_ID := subject_ID s;
     record_data := record_data s; data_folder_directory :=
     data_folder_directory s; preTraining_FR := preTraining_FR s; start_time
     := start_time s; trial_start := trial_start s; ITI_duration :=
     ITI_duration s; feedback_duration := feedback_duration s;
     current_trial_counter := v; reinforcers_provided :=
     reinforcers_provided s; rejected_trial := rejected_trial s;
     informative_prob := informative_prob s; noninformative_prob :=
     noninformative_prob s; rejection_FI_duration := rejection_FI_duration
     s; session_data_frame := session_data_frame s; hopper_duration :=
     hopper_duration s; informative_side := informative_side s;
     informative_Splus_color := informative_Splus_color s;
     informative_Sminus_color := informative_Sminus_color s;
     noninformative_side := noninformative_side s;
     noninformative_Splus_color := noninformative_Splus_color s;
     noninformative_Sminus_color := noninformative_Sminus_color s;
     key_color_dict := key_color_dict s; trials_per_session :=
     trials_per_session s; forced_I_choice_outcome_list :=
     forced_I_choice_outcome_list s; forced_NI_choice_outcome_list :=
     forced_NI_choice_outcome_list s; forced_NI_choice_feedback_list :=
     forced_NI_choice_feedback_list s; trial_order_list := trial_order_list
     s; choice := choice s; choice_key_FR := choice_key_FR s; trial_type :=
     trial_type s; trial_stage := trial_stage s; feedback_stimulus :=
     feedback_stimulus s; canvas := canvas s; tag_binds := tag_binds s;
     space_bound := space_bound s; timers := timers s; destroyed :=
     destroyed s; hopper_on := hopper_on s; stdout := stdout s; tracebacks
     := tracebacks s; files := files s; settings_csv := settings_csv s;
     today := today s; clock := clock s; clock_reads := clock_reads s;
     uniform_draws := uniform_draws s; uniform_reads := uniform_reads s;
     choice_draws := choice_draws s; choice_reads := choice_reads s;
     shuffle_tape := shuffle_tape s;
     text_bbox := text_bbox s |}.

Definition set_reinforcers_provided (v : Z) (s : MainScreen) : MainScreen :=
  {| training_phase := training_phase s; subject_ID := subject_ID s;
     record_data := record_data s; data_folder_directory :=
     data_folder_directory s; preTraining_FR := preTraining_FR s; start_time
     := start_time s; trial_start := trial_start s; ITI_duration :=
     ITI_duration s; feedback_duration := feedback_duration s;
     current_trial_counter := current_trial_counter s; reinforcers_provided
     := v; rejected_trial := rejected_trial s; informative_prob :=
     informative_prob s; noninformative_prob := noninformative_prob s;
     rejection_FI_duration := rejection_FI_duration s; session_data_frame :=
     session_data_frame s; hopper_duration := hopper_duration s;
     informative_side := informative_side s; informative_Splus_color :=
     informative_Splus_color s; informative_Sminus_color :=
     informative_Sminus_color s; noninformative_side := noninformative_side
     s; noninformative_Splus_color := noninformative_Splus_color s;
     noninformative_Sminus_color := noninformative_Sminus_color s;
     key_color_dict := key_color_dict s; trials_per_session :=
     trials_per_session s; forced_I_choice_outcome_list :=
     forced_I_choice_outcome_list s; forced_NI_choice_outcome_list :=
     forced_NI_choice_outcome_list s; forced_NI_choice_feedback_list :=
     forced_NI_choice_feedback_list s; trial_order_list := trial_order_list
     s; choice := choice s; choice_key_FR := choice_key_FR s; trial_type :=
     trial_type s; trial_stage := trial_stage s; feedback_stimulus :=
     feedback_stimulus s; canvas := canvas s; tag_binds := tag_binds s;
     space_bound := space_bound s; timers := timers s; destroyed :=
     destroyed s; hopper_on := hopper_on s; stdout := stdout s; tracebacks
     := tracebacks s; files := files s; settings_csv := settings_csv s;
     today := today s; clock := clock s; clock_reads := clock_reads s;
     uniform_draws := uniform_draws s; uniform_reads := uniform_reads s;
     choice_draws := choice_draws s; choice_reads := choice_reads s;
     shuffle_tape := shuffle_tape s;
     text_bbox := text_bbox s |}.

Definition set_rejected_trial (v : bool) (s : MainScreen) : MainScreen :=
  {| training_phase := training_phase s; subject_ID := subject_ID s;
     record_data := record_data s; data_folder_directory :=
     data_folder_directory s; preTraining_FR := preTraining_FR s; start_time
     := start_time s; trial_start := trial_start s; ITI_duration :=
     ITI_duration s; feedback_duration := feedback_duration s;
     current_trial_counter := current_trial_counter s; reinforcers_provided
     := reinforcers_provided s; rejected_trial := v; informative_prob :=
     informative_prob s; noninformative_prob := noninformative_prob s;
     rejection_FI_duration := rejection_FI_duration s; session_data_frame :=
     session_data_frame s; hopper_duration := hopper_duration s;
     informative_side := informative_side s; informative_Splus_color :=
     informative_Splus_color s; informative_Sminus_color :=
     informative_Sminus_color s; noninformative_side := noninformative_side
     s; noninformative_Splus_color := noninformative_Splus_color s;
     noninformative_Sminus_color := noninformative_Sminus_color s;
     key_color_dict := key_color_dict s; trials_per_session :=
     trials_per_session s; forced_I_choice_outcome_list :=
     forced_I_choice_outcome_list s; forced_NI_choice_outcome_list :=
     forced_NI_choice_outcome_list s; forced_NI_choice_feedback_list :=
     forced_NI_choice_feedback_list s; trial_order_list := trial_order_list
     s; choice := choice s; choice_key_FR := choice_key_FR s; trial_type :=
     trial_type s; trial_stage := trial_stage s; feedback_stimulus :=
     feedback_stimulus s; canvas := canvas s; tag_binds := tag_binds s;
     space_bound := space_bound s; timers := timers s; destroyed :=
     destroyed s; hopper_on := hopper_on s; stdout := stdout s; tracebacks
     := tracebacks s; files := files s; settings_csv := settings_csv s;
     today := today s; clock := clock s; clock_reads := clock_reads s;
     uniform_draws := uniform_draws s; uniform_reads := uniform_reads s;
     choice_draws := choice_draws s; choice_reads := choice_reads s;
     shuffle_tape := shuffle_tape s;
     text_bbox := text_bbox s |}.

Definition set_rejection_FI_duration (v : Z) (s : MainScreen) : MainScreen :=
  {| training_phase := training_phase s; subject_ID := subject_ID s;
     record_data := record_data s; data_folder_directory :=
     data_folder_directory s; preTraining_FR := preTraining_FR s; start_time
     := start_time s; trial_start := trial_start s; ITI_duration :=
     ITI_duration s; feedback_duration := feedback_duration s;
     current_trial_counter := current_trial_counter s; reinforcers_provided
     := reinforcers_provided s; rejected_trial := rejected_trial s;
     informative_prob := informative_prob s; noninformative_prob :=
     noninformative_prob s; rejection_FI_duration := v; session_data_frame
     := session_data_frame s; hopper_duration := hopper_duration s;
     informative_side := informative_side s; informative_Splus_color :=
     informative_Splus_color s; informative_Sminus_color :=
     informative_Sminus_color s; noninformative_side := noninformative_side
     s; noninformative_Splus_color := noninformative_Splus_color s;
     noninformative_Sminus_color := noninformative_Sminus_color s;
     key_color_dict := key_color_dict s; trials_per_session :=
     trials_per_session s; forced_I_choice_outcome_list :=
     forced_I_choice_outcome_list s; forced_NI_choice_outcome_list :=
     forced_NI_choice_outcome_list s; forced_NI_choice_feedback_list :=
     forced_NI_choice_feedback_list s; trial_order_list := trial_order_list
     s; choice := choice s; choice_key_FR := choice_key_FR s; trial_type :=
     trial_type s; trial_stage := trial_stage s; feedback_stimulus :=
     feedback_stimulus s; canvas := canvas s; tag_binds := tag_binds s;
     space_bound := space_bound s; timers := timers s; destroyed :=
     destroyed s; hopper_on := hopper_on s; stdout := stdout s; tracebacks
     := tracebacks s; files := files s; settings_csv := settings_csv s;
     today := today s; clock := clock s; clock_reads := clock_reads s;
     uniform_draws := uniform_draws s; uniform_reads := uniform_reads s;
     choice_draws := choice_draws s; choice_reads := choice_reads s;
     shuffle_tape := shuffle_tape s;
     text_bbox := text_bbox s |}.

Definition set_session_data_frame (v : list Row) (s : MainScreen) : MainScreen :=
  {| training_phase := training_phase s; subject_ID := subject_ID s;
     record_data := record_data s; data_folder_directory :=
     data_folder_directory s; preTraining_FR := preTraining_FR s; start_time
     := start_time s; trial_start := trial_start s; ITI_duration :=
     ITI_duration s; feedback_duration := feedback_duration s;
     current_trial_counter := current_trial_counter s; reinforcers_provided
     := reinforcers_provided s; rejected_trial := rejected_trial s;
     informative_prob := informative_prob s; noninformative_prob :=
     noninformative_prob s; rejection_FI_duration := rejection_FI_duration
     s; session_data_frame := v; hopper_duration := hopper_duration s;
     informative_side := informative_side s; informative_Splus_color :=
     informative_Splus_color s; informative_Sminus_color :=
     informative_Sminus_color s; noninformative_side := noninformative_side
     s; noninformative_Splus_color := noninformative_Splus_color s;
     noninformative_Sminus_color := noninformative_Sminus_color s;
     key_color_dict := key_color_dict s; trials_per_session :=
     trials_per_session s; forced_I_choice_outcome_list :=
     forced_I_choice_outcome_list s; forced_NI_choice_outcome_list :=
     forced_NI_choice_outcome_list s; forced_NI_choice_feedback_list :=
     forced_NI_choice_feedback_list s; trial_order_list := trial_order_list
     s; choice := choice s; choice_key_FR := choice_key_FR s; trial_type :=
     trial_type s; trial_stage := trial_stage s; feedback_stimulus :=
     feedback_stimulus s; canvas := canvas s; tag_binds := tag_binds s;
     space_bound := space_bound s; timers := timers s; destroyed :=
     destroyed s; hopper_on := hopper_on s; stdout := stdout s; tracebacks
     := tracebacks s; files := files s; settings_csv := settings_csv s;
     today := today s; clock := clock s; clock_reads := clock_reads s;
     uniform_draws := uniform_draws s; uniform_reads := uniform_reads s;
     choice_draws := choice_draws s; choice_reads := choice_reads s;
     shuffle_tape := shuffle_tape s;
     text_bbox := text_bbox s |}.

Definition set_hopper_duration (v : option Z) (s : MainScreen) : MainScreen :=
  {| training_phase := training_phase s; subject_ID := subject_ID s;
     record_data := record_data s; data_folder_directory :=
     data_folder_directory s; preTraining_FR := preTraining_FR s; start_time
     := start_time s; trial_start := trial_start s; ITI_duration :=
     ITI_duration s; feedback_duration := feedback_duration s;
     current_trial_counter := current_trial_counter s; reinforcers_provided
     := reinforcers_provided s; rejected_trial := rejected_trial s;
     informative_prob := informative_prob s; noninformative_prob :=
     noninformative_prob s; rejection_FI_duration := rejection_FI_duration
     s; session_data_frame := session_data_frame s; hopper_duration := v;
     informative_side := informative_side s; informative_Splus_color :=
     informative_Splus_color s; informative_Sminus_color :=
     informative_Sminus_color s; noninformative_side := noninformative_side
     s; noninformative_Splus_color := noninformative_Splus_color s;
     noninformative_Sminus_color := noninformative_Sminus_color s;
     key_color_dict := key_color_dict s; trials_per_session :=
     trials_per_session s; forced_I_choice_outcome_list :=
     forced_I_choice_outcome_list s; forced_NI_choice_outcome_list :=
     forced_NI_choice_outcome_list s; forced_NI_choice_feedback_list :=
     forced_NI_choice_feedback_list s; trial_order_list := trial_order_list
     s; choice := choice s; choice_key_FR := choice_key_FR s; trial_type :=
     trial_type s; trial_stage := trial_stage s; feedback_stimulus :=
     feedback_stimulus s; canvas := canvas s; tag_binds := tag_binds s;
     space_bound := space_bound s; timers := timers s; destroyed :=
     destroyed s; hopper_on := hopper_on s; stdout := stdout s; tracebacks
     := tracebacks s; files := files s; settings_csv := settings_csv s;
     today := today s; clock := clock s; clock_reads := clock_reads s;
     uniform_draws := uniform_draws s; uniform_reads := uniform_reads s;
     choice_draws := choice_draws s; choice_reads := choice_reads s;
     shuffle_tape := shuffle_tape s;
     text_bbox := text_bbox s |}.

Definition set_informative_side (v : option string) (s : MainScreen) : MainScreen :=
  {| training_phase := training_phase s; subject_ID := subject_ID s;
     record_data := record_data s; data_folder_directory :=
     data_folder_directory s; preTraining_FR := preTraining_FR s; start_time
     := start_time s; trial_start := trial_start s; ITI_duration :=
     ITI_duration s; feedback_duration := feedback_duration s;
     current_trial_counter := current_trial_counter s; reinforcers_provided
     := reinforcers_provided s; rejected_trial := rejected_trial s;
     informative_prob := informative_prob s; noninformative_prob :=
     noninformative_prob s; rejection_FI_duration := rejection_FI_duration
     s; session_data_frame := session_data_frame s; hopper_duration :=
     hopper_duration s; informative_side := v; informative_Splus_color :=
     informative_Splus_color s; informative_Sminus_color :=
     informative_Sminus_color s; noninformative_side := noninformative_side
     s; noninformative_Splus_color := noninformative_Splus_color s;
     noninformative_Sminus_color := noninformative_Sminus_color s;
     key_color_dict := key_color_dict s; trials_per_session :=
     trials_per_session s; forced_I_choice_outcome_list :=
     forced_I_choice_outcome_list s; forced_NI_choice_outcome_list :=
     forced_NI_choice_outcome_list s; forced_NI_choice_feedback_list :=
     forced_NI_choice_feedback_list s; trial_order_list := trial_order_list
     s; choice := choice s; choice_key_FR := choice_key_FR s; trial_type :=
     trial_type s; trial_stage := trial_stage s; feedback_stimulus :=
     feedback_stimulus s; canvas := canvas s; tag_binds := tag_binds s;
     space_bound := space_bound s; timers := timers s; destroyed :=
     destroyed s; hopper_on := hopper_on s; stdout := stdout s; tracebacks
     := tracebacks s; files := files s; settings_csv := settings_csv s;
     today := today s; clock := clock s; clock_reads := clock_reads s;
     uniform_draws := uniform_draws s; uniform_reads := uniform_reads s;
     choice_draws := choice_draws s; choice_reads := choice_reads s;
     shuffle_tape := shuffle_tape s;
     text_bbox := text_bbox s |}.

Definition set_informative_Splus_color (v : option string) (s : MainScreen) : MainScreen :=
  {| training_phase := training_phase s; subject_ID := subject_ID s;
     record_data := record_data s; data_folder_directory :=
     data_folder_directory s; preTraining_FR := preTraining_FR s; start_time
     := start_time s; trial_start := trial_start s; ITI_duration :=
     ITI_duration s; feedback_duration := feedback_duration s;
     current_trial_counter := current_trial_counter s; reinforcers_provided
     := reinforcers_provided s; rejected_trial := rejected_trial s;
     informative_prob := informative_prob s; noninformative_prob :=
     noninformative_prob s; rejection_FI_duration := rejection_FI_duration
     s; session_data_frame := session_data_frame s; hopper_duration :=
     hopper_duration s; informative_side := informative_side s;
     informative_Splus_color := v; informative_Sminus_color :=
     informative_Sminus_color s; noninformative_side := noninformative_side
     s; noninformative_Splus_color := noninformative_Splus_color s;
     noninformative_Sminus_color := noninformative_Sminus_color s;
     key_color_dict := key_color_dict s; trials_per_session :=
     trials_per_session s; forced_I_choice_outcome_list :=
     forced_I_choice_outcome_list s; forced_NI_choice_outcome_list :=
     forced_NI_choice_outcome_list s; forced_NI_choice_feedback_list :=
     forced_NI_choice_feedback_list s; trial_order_list := trial_order_list
     s; choice := choice s; choice_key_FR := choice_key_FR s; trial_type :=
     trial_type s; trial_stage := trial_stage s; feedback_stimulus :=
     feedback_stimulus s; canvas := canvas s; tag_binds := tag_binds s;
     space_bound := space_bound s; timers := timers s; destroyed :=
     destroyed s; hopper_on := hopper_on s; stdout := stdout s; tracebacks
     := tracebacks s; files := files s; settings_csv := settings_csv s;
     today := today s; clock := clock s; clock_reads := clock_reads s;
     uniform_draws := uniform_draws s; uniform_reads := uniform_reads s;
     choice_draws := choice_draws s; choice_reads := choice_reads s;
     shuffle_tape := shuffle_tape s;
     text_bbox := text_bbox s |}.

Definition set_informative_Sminus_color (v : option string) (s : MainScreen) : MainScreen :=
  {| training_phase := training_phase s; subject_ID := subject_ID s;
     record_data := record_data s; data_folder_directory :=
     data_folder_directory s; preTraining_FR := preTraining_FR s; start_time
     := start_time s; trial_start := trial_start s; ITI_duration :=
     ITI_duration s; feedback_duration := feedback_duration s;
     current_trial_counter := current_trial_counter s; reinforcers_provided
     := reinforcers_provided s; rejected_trial := rejected_trial s;
     informative_prob := informative_prob s; noninformative_prob :=
     noninformative_prob s; rejection_FI_duration := rejection_FI_duration
     s; session_data_frame := session_data_frame s; hopper_duration :=
     hopper_duration s; informative_side := informative_side s;
     informative_Splus_color := informative_Splus_color s;
     informative_Sminus_color := v; noninformative_side :=
     noninformative_side s; noninformative_Splus_color :=
     noninformative_Splus_color s; noninformative_Sminus_color :=
     noninformative_Sminus_color s; key_color_dict := key_color_dict s;
     trials_per_session := trials_per_session s;
     forced_I_choice_outcome_list := forced_I_choice_outcome_list s;
     forced_NI_choice_outcome_list := forced_NI_choice_outcome_list s;
     forced_NI_choice_feedback_list := forced_NI_choice_feedback_list s;
     trial_order_list := trial_order_list s; choice := choice s;
     choice_key_FR := choice_key_FR s; trial_type := trial_type s;
     trial_stage := trial_stage s; feedback_stimulus := feedback_stimulus s;
     canvas := canvas s; tag_binds := tag_binds s; space_bound :=
     space_bound s; timers := timers s; destroyed := destroyed s; hopper_on
     := hopper_on s; stdout := stdout s; tracebacks := tracebacks s; files
     := files s; settings_csv := settings_csv s; today := today s; clock :=
     clock s; clock_reads := clock_reads s; uniform_draws := uniform_draws
     s; uniform_reads := uniform_reads s; choice_draws := choice_draws s;
     choice_reads := choice_reads s; shuffle_tape := shuffle_tape s;
     text_bbox := text_bbox s |}.

Definition set_noninformative_side (v : option string) (s : MainScreen) : MainScreen :=
  {| training_phase := training_phase s; subject_ID := subject_ID s;
     record_data := record_data s; data_folder_directory :=
     data_folder_directory s; preTraining_FR := preTraining_FR s; start_time
     := start_time s; trial_start := trial_start s; ITI_duration :=
     ITI_duration s; feedback_duration := feedback_duration s;
     current_trial_counter := current_trial_counter s; reinforcers_provided
     := reinforcers_provided s; rejected_trial := rejected_trial s;
     informative_prob := informative_prob s; noninformative_prob :=
     noninformative_prob s; rejection_FI_duration := rejection_FI_duration
     s; session_data_frame := session_data_frame s; hopper_duration :=
     hopper_duration s; informative_side := informative_side s;
     informative_Splus_color := informative_Splus_color s;
     informative_Sminus_color := informative_Sminus_color s;
     noninformative_side := v; noninformative_Splus_color :=
     noninformative_Splus_color s; noninformative_Sminus_color :=
     noninformative_Sminus_color s; key_color_dict := key_color_dict s;
     trials_per_session := trials_per_session s;
     forced_I_choice_outcome_list := forced_I_choice_outcome_list s;
     forced_NI_choice_outcome_list := forced_NI_choice_outcome_list s;
     forced_NI_choice_feedback_list := forced_NI_choice_feedback_list s;
     trial_order_list := trial_order_list s; choice := choice s;
     choice_key_FR := choice_key_FR s; trial_type := trial_type s;
     trial_stage := trial_stage s; feedback_stimulus := feedback_stimulus s;
     canvas := canvas s; tag_binds := tag_binds s; space_bound :=
     space_bound s; timers := timers s; destroyed := destroyed s; hopper_on
     := hopper_on s; stdout := stdout s; tracebacks := tracebacks s; files
     := files s; settings_csv := settings_csv s; today := today s; clock :=
     clock s; clock_reads := clock_reads s; uniform_draws := uniform_draws
     s; uniform_reads := uniform_reads s; choice_draws := choice_draws s;
     choice_reads := choice_reads s; shuffle_tape := shuffle_tape s;
     text_bbox := text_bbox s |}.

Definition set_noninformative_Splus_color (v : option string) (s : MainScreen) : MainScreen :=
  {| training_phase := training_phase s; subject_ID := subject_ID s;
     record_data := record_data s; data_folder_directory :=
     data_folder_directory s; preTraining_FR := preTraining_FR s; start_time
     := start_time s; trial_start := trial_start s; ITI_duration :=
     ITI_duration s; feedback_duration := feedback_duration s;
     current_trial_counter := current_trial_counter s; reinforcers_provided
     := reinforcers_provided s; rejected_trial := rejected_trial s;
     informative_prob := informative_prob s; noninformative_prob :=
     noninformative_prob s; rejection_FI_duration := rejection_FI_duration
     s; session_data_frame := session_data_frame s; hopper_duration :=
     hopper_duration s; informative_side := informative_side s;
     informative_Splus_color := informative_Splus_color s;
     informative_Sminus_color := informative_Sminus_color s;
     noninformative_side := noninformative_side s;
     noninformative_Splus_color := v; noninformative_Sminus_color :=
     noninformative_Sminus_color s; key_color_dict := key_color_dict s;
     trials_per_session := trials_per_session s;
     forced_I_choice_outcome_list := forced_I_choice_outcome_list s;
     forced_NI_choice_outcome_list := forced_NI_choice_outcome_list s;
     forced_NI_choice_feedback_list := forced_NI_choice_feedback_list s;
     trial_order_list := trial_order_list s; choice := choice s;
     choice_key_FR := choice_key_FR s; trial_type := trial_type s;
     trial_stage := trial_stage s; feedback_stimulus := feedback_stimulus s;
     canvas := canvas s; tag_binds := tag_binds s; space_bound :=
     space_bound s; timers := timers s; destroyed := destroyed s; hopper_on
     := hopper_on s; stdout := stdout s; tracebacks := tracebacks s; files
     := files s; settings_csv := settings_csv s; today := today s; clock :=
     clock s; clock_reads := clock_reads s; uniform_draws := uniform_draws
     s; uniform_reads := uniform_reads s; choice_draws := choice_draws s;
     choice_reads := choice_reads s; shuffle_tape := shuffle_tape s;
     text_bbox := text_bbox s |}.

Definition set_noninformative_Sminus_color (v : option string) (s : MainScreen) : MainScreen :=
  {| training_phase := training_phase s; subject_ID := subject_ID s;
     record_data := record_data s; data_folder_directory :=
     data_folder_directory s; preTraining_FR := preTraining_FR s; start_time
     := start_time s; trial_start := trial_start s; ITI_duration :=
     ITI_duration s; feedback_duration := feedback_duration s;
     current_trial_counter := current_trial_counter s; reinforcers_provided
     := reinforcers_provided s; rejected_trial := rejected_trial s;
     informative_prob := informative_prob s; noninformative_prob :=
     noninformative_prob s; rejection_FI_duration := rejection_FI_duration
     s; session_data_frame := session_data_frame s; hopper_duration :=
     hopper_duration s; informative_side := informative_side s;
     informative_Splus_color := informative_Splus_color s;
     informative_Sminus_color := informative_Sminus_color s;
     noninformative_side := noninformative_side s;
     noninformative_Splus_color := noninformative_Splus_color s;
     noninformative_Sminus_color := v; key_color_dict := key_color_dict s;
     trials_per_session := trials_per_session s;
     forced_I_choice_outcome_list := forced_I_choice_outcome_list s;
     forced_NI_choice_outcome_list := forced_NI_choice_outcome_list s;
     forced_NI_choice_feedback_list := forced_NI_choice_feedback_list s;
     trial_order_list := trial_order_list s; choice := choice s;
     choice_key_FR := choice_key_FR s; trial_type := trial_type s;
     trial_stage := trial_stage s; feedback_stimulus := feedback_stimulus s;
     canvas := canvas s; tag_binds := tag_binds s; space_bound :=
     space_bound s; timers := timers s; destroyed := destroyed s; hopper_on
     := hopper_on s; stdout := stdout s; tracebacks := tracebacks s; files
     := files s; settings_csv := settings_csv s; today := today s; clock :=
     clock s; clock_reads := clock_reads s; uniform_draws := uniform_draws
     s; uniform_reads := uniform_reads s; choice_draws := choice_draws s;
     choice_reads := choice_reads s; shuffle_tape := shuffle_tape s;
     text_bbox := text_bbox s |}.

Definition set_key_color_dict (v : option (list (string * string))) (s : MainScreen) : MainScreen :=
  {| training_phase := training_phase s; subject_ID := subject_ID s;
     record_data := record_data s; data_folder_directory :=
     data_folder_directory s; preTraining_FR := preTraining_FR s; start_time
     := start_time s; trial_start := trial_start s; ITI_duration :=
     ITI_duration s; feedback_duration := feedback_duration s;
     current_trial_counter := current_trial_counter s; reinforcers_provided
     := reinforcers_provided s; rejected_trial := rejected_trial s;
     informative_prob := informative_prob s; noninformative_prob :=
     noninformative_prob s; rejection_FI_duration := rejection_FI_duration
     s; session_data_frame := session_data_frame s; hopper_duration :=
     hopper_duration s; informative_side := informative_side s;
     informative_Splus_color := informative_Splus_color s;
     informative_Sminus_color := informative_Sminus_color s;
     noninformative_side := noninformative_side s;
     noninformative_Splus_color := noninformative_Splus_color s;
     noninformative_Sminus_color := noninformative_Sminus_color s;
     key_color_dict := v; trials_per_session := trials_per_session s;
     forced_I_choice_outcome_list := forced_I_choice_outcome_list s;
     forced_NI_choice_outcome_list := forced_NI_choice_outcome_list s;
     forced_NI_choice_feedback_list := forced_NI_choice_feedback_list s;
     trial_order_list := trial_order_list s; choice := choice s;
     choice_key_FR := choice_key_FR s; trial_type := trial_type s;
     trial_stage := trial_stage s; feedback_stimulus := feedback_stimulus s;
     canvas := canvas s; tag_binds := tag_binds s; space_bound :=
     space_bound s; timers := timers s; destroyed := destroyed s; hopper_on
     := hopper_on s; stdout := stdout s; tracebacks := tracebacks s; files
     := files s; settings_csv := settings_csv s; today := today s; clock :=
     clock s; clock_reads := clock_reads s; uniform_draws := uniform_draws
     s; uniform_reads := uniform_reads s; choice_draws := choice_draws s;
     choice_reads := choice_reads s; shuffle_tape := shuffle_tape s;
     text_bbox := text_bbox s |}.

Definition set_trials_per_session (v : option Z) (s : MainScreen) : MainScreen :=
  {| training_phase := training_phase s; subject_ID := subject_ID s;
     record_data := record_data s; data_folder_directory :=
     data_folder_directory s; preTraining_FR := preTraining_FR s; start_time
     := start_time s; trial_start := trial_start s; ITI_duration :=
     ITI_duration s; feedback_duration := feedback_duration s;
     current_trial_counter := current_trial_counter s; reinforcers_provided
     := reinforcers_provided s; rejected_trial := rejected_trial s;
     informative_prob := informative_prob s; noninformative_prob :=
     noninformative_prob s; rejection_FI_duration := rejection_FI_duration
     s; session_data_frame := session_data_frame s; hopper_duration :=
     hopper_duration s; informative_side := informative_side s;
     informative_Splus_color := informative_Splus_color s;
     informative_Sminus_color := informative_Sminus_color s;
     noninformative_side := noninformative_side s;
     noninformative_Splus_color := noninformative_Splus_color s;
     noninformative_Sminus_color := noninformative_Sminus_color s;
     key_color_dict := key_color_dict s; trials_per_session := v;
     forced_I_choice_outcome_list := forced_I_choice_outcome_list s;
     forced_NI_choice_outcome_list := forced_NI_choice_outcome_list s;
     forced_NI_choice_feedback_list := forced_NI_choice_feedback_list s;
     trial_order_list := trial_order_list s; choice := choice s;
     choice_key_FR := choice_key_FR s; trial_type := trial_type s;
     trial_stage := trial_stage s; feedback_stimulus := feedback_stimulus s;
     canvas := canvas s; tag_binds := tag_binds s; space_bound :=
     space_bound s; timers := timers s; destroyed := destroyed s; hopper_on
     := hopper_on s; stdout := stdout s; tracebacks := tracebacks s; files
     := files s; settings_csv := settings_csv s; today := today s; clock :=
     clock s; clock_reads := clock_reads s; uniform_draws := uniform_draws
     s; uniform_reads := uniform_reads s; choice_draws := choice_draws s;
     choice_reads := choice_reads s; shuffle_tape := shuffle_tape s;
     text_bbox := text_bbox s |}.

Definition set_forced_I_choice_outcome_list (v : option (list string)) (s : MainScreen) : MainScreen :=
  {| training_phase := training_phase s; subject_ID := subject_ID s;
     record_data := record_data s; data_folder_directory :=
     data_folder_directory s; preTraining_FR := preTraining_FR s; start_time
     := start_time s; trial_start := trial_start s; ITI_duration :=
     ITI_duration s; feedback_duration := feedback_duration s;
     current_trial_counter := current_trial_counter s; reinforcers_provided
     := reinforcers_provided s; rejected_trial := rejected_trial s;
     informative_prob := informative_prob s; noninformative_prob :=
     noninformative_prob s; rejection_FI_duration := rejection_FI_duration
     s; session_data_frame := session_data_frame s; hopper_duration :=
     hopper_duration s; informative_side := informative_side s;
     informative_Splus_color := informative_Splus_color s;
     informative_Sminus_color := informative_Sminus_color s;
     noninformative_side := noninformative_side s;
     noninformative_Splus_color := noninformative_Splus_color s;
     noninformative_Sminus_color := noninformative_Sminus_color s;
     key_color_dict := key_color_dict s; trials_per_session :=
     trials_per_session s; forced_I_choice_outcome_list := v;
     forced_NI_choice_outcome_list := forced_NI_choice_outcome_list s;
     forced_NI_choice_feedback_list := forced_NI_choice_feedback_list s;
     trial_order_list := trial_order_list s; choice := choice s;
     choice_key_FR := choice_key_FR s; trial_type := trial_type s;
     trial_stage := trial_stage s; feedback_stimulus := feedback_stimulus s;
     canvas := canvas s; tag_binds := tag_binds s; space_bound :=
     space_bound s; timers := timers s; destroyed := destroyed s; hopper_on
     := hopper_on s; stdout := stdout s; tracebacks := tracebacks s; files
     := files s; settings_csv := settings_csv s; today := today s; clock :=
     clock s; clock_reads := clock_reads s; uniform_draws := uniform_draws
     s; uniform_reads := uniform_reads s; choice_draws := choice_draws s;
     choice_reads := choice_reads s; shuffle_tape := shuffle_tape s;
     text_bbox := text_bbox s |}.

Definition set_forced_NI_choice_outcome_list (v : option (list string)) (s : MainScreen) : MainScreen :=
  {| training_phase := training_phase s; subject_ID := subject_ID s;
     record_data := record_data s; data_folder_directory :=
     data_folder_directory s; preTraining_FR := preTraining_FR s; start_time
     := start_time s; trial_start := trial_start s; ITI_duration :=
     ITI_duration s; feedback_duration := feedback_duration s;
     current_trial_counter := current_trial_counter s; reinforcers_provided
     := reinforcers_provided s; rejected_trial := rejected_trial s;
     informative_prob := informative_prob s; noninformative_prob :=
     noninformative_prob s; rejection_FI_duration := rejection_FI_duration
     s; session_data_frame := session_data_frame s; hopper_duration :=
     hopper_duration s; informative_side := informative_side s;
     informative_Splus_color := informative_Splus_color s;
     informative_Sminus_color := informative_Sminus_color s;
     noninformative_side := noninformative_side s;
     noninformative_Splus_color := noninformative_Splus_color s;
     noninformative_Sminus_color := noninformative_Sminus_color s;
     key_color_dict := key_color_dict s; trials_per_session :=
     trials_per_session s; forced_I_choice_outcome_list :=
     forced_I_choice_outcome_list s; forced_NI_choice_outcome_list := v;
     forced_NI_choice_feedback_list := forced_NI_choice_feedback_list s;
     trial_order_list := trial_order_list s; choice := choice s;
     choice_key_FR := choice_key_FR s; trial_type := trial_type s;
     trial_stage := trial_stage s; feedback_stimulus := feedback_stimulus s;
     canvas := canvas s; tag_binds := tag_binds s; space_bound :=
     space_bound s; timers := timers s; destroyed := destroyed s; hopper_on
     := hopper_on s; stdout := stdout s; tracebacks := tracebacks s; files
     := files s; settings_csv := settings_csv s; today := today s; clock :=
     clock s; clock_reads := clock_reads s; uniform_draws := uniform_draws
     s; uniform_reads := uniform_reads s; choice_draws := choice_draws s;
     choice_reads := choice_reads s; shuffle_tape := shuffle_tape s;
     text_bbox := text_bbox s |}.

Definition set_forced_NI_choice_feedback_list (v : option (list string)) (s : MainScreen) : MainScreen :=
  {| training_phase := training_phase s; subject_ID := subject_ID s;
     record_data := record_data s; data_folder_directory :=
     data_folder_directory s; preTraining_FR := preTraining_FR s; start_time
     := start_time s; trial_start := trial_start s; ITI_duration :=
     ITI_duration s; feedback_duration := feedback_duration s;
     current_trial_counter := current_trial_counter s; reinforcers_provided
     := reinforcers_provided s; rejected_trial := rejected_trial s;
     informative_prob := informative_prob s; noninformative_prob :=
     noninformative_prob s; rejection_FI_duration := rejection_FI_duration
     s; session_data_frame := session_data_frame s; hopper_duration :=
     hopper_duration s; informative_side := informative_side s;
     informative_Splus_color := informative_Splus_color s;
     informative_Sminus_color := informative_Sminus_color s;
     noninformative_side := noninformative_side s;
     noninformative_Splus_color := noninformative_Splus_color s;
     noninformative_Sminus_color := noninformative_Sminus_color s;
     key_color_dict := key_color_dict s; trials_per_session :=
     trials_per_session s; forced_I_choice_outcome_list :=
     forced_I_choice_outcome_list s; forced_NI_choice_outcome_list :=
     forced_NI_choice_outcome_list s; forced_NI_choice_feedback_list := v;
     trial_order_list := trial_order_list s; choice := choice s;
     choice_key_FR := choice_key_FR s; trial_type := trial_type s;
     trial_stage := trial_stage s; feedback_stimulus := feedback_stimulus s;
     canvas := canvas s; tag_binds := tag_binds s; space_bound :=
     space_bound s; timers := timers s; destroyed := destroyed s; hopper_on
     := hopper_on s; stdout := stdout s; tracebacks := tracebacks s; files
     := files s; settings_csv := settings_csv s; today := today s; clock :=
     clock s; clock_reads := clock_reads s; uniform_draws := uniform_draws
     s; uniform_reads := uniform_reads s; choice_draws := choice_draws s;
     choice_reads := choice_reads s; shuffle_tape := shuffle_tape s;
     text_bbox := text_bbox s |}.

Definition set_trial_order_list (v : option (list string)) (s : MainScreen) : MainScreen :=
  {| training_phase := training_phase s; subject_ID := subject_ID s;
     record_data := record_data s; data_folder_directory :=
     data_folder_directory s; preTraining_FR := preTraining_FR s; start_time
     := start_time s; trial_start := trial_start s; ITI_duration :=
     ITI_duration s; feedback_duration := feedback_duration s;
     current_trial_counter := current_trial_counter s; reinforcers_provided
     := reinforcers_provided s; rejected_trial := rejected_trial s;
     informative_prob := informative_prob s; noninformative_prob :=
     noninformative_prob s; rejection_FI_duration := rejection_FI_duration
     s; session_data_frame := session_data_frame s; hopper_duration :=
     hopper_duration s; informative_side := informative_side s;
     informative_Splus_color := informative_Splus_color s;
     informative_Sminus_color := informative_Sminus_color s;
     noninformative_side := noninformative_side s;
     noninformative_Splus_color := noninformative_Splus_color s;
     noninformative_Sminus_color := noninformative_Sminus_color s;
     key_color_dict := key_color_dict s; trials_per_session :=
     trials_per_session s; forced_I_choice_outcome_list :=
     forced_I_choice_outcome_list s; forced_NI_choice_outcome_list :=
     forced_NI_choice_outcome_list s; forced_NI_choice_feedback_list :=
     forced_NI_choice_feedback_list s; trial_order_list := v; choice :=
     choice s; choice_key_FR := choice_key_FR s; trial_type := trial_type s;
     trial_stage := trial_stage s; feedback_stimulus := feedback_stimulus s;
     canvas := canvas s; tag_binds := tag_binds s; space_bound :=
     space_bound s; timers := timers s; destroyed := destroyed s; hopper_on
     := hopper_on s; stdout := stdout s; tracebacks := tracebacks s; files
     := files s; settings_csv := settings_csv s; today := today s; clock :=
     clock s; clock_reads := clock_reads s; uniform_draws := uniform_draws
     s; uniform_reads := uniform_reads s; choice_draws := choice_draws s;
     choice_reads := choice_reads s; shuffle_tape := shuffle_tape s;
     text_bbox := text_bbox s |}.

Definition set_choice (v : option string) (s : MainScreen) : MainScreen :=
  {| training_phase := training_phase s; subject_ID := subject_ID s;
     record_data := record_data s; data_folder_directory :=
     data_folder_directory s; preTraining_FR := preTraining_FR s; start_time
     := start_time s; trial_start := trial_start s; ITI_duration :=
     ITI_duration s; feedback_duration := feedback_duration s;
     current_trial_counter := current_trial_counter s; reinforcers_provided
     := reinforcers_provided s; rejected_trial := rejected_trial s;
     informative_prob := informative_prob s; noninformative_prob :=
     noninformative_prob s; rejection_FI_duration := rejection_FI_duration
     s; session_data_frame := session_data_frame s; hopper_duration :=
     hopper_duration s; informative_side := informative_side s;
     informative_Splus_color := informative_Splus_color s;
     informative_Sminus_color := informative_Sminus_color s;
     noninformative_side := noninformative_side s;
     noninformative_Splus_color := noninformative_Splus_color s;
     noninformative_Sminus_color := noninformative_Sminus_color s;
     key_color_dict := key_color_dict s; trials_per_session :=
     trials_per_session s; forced_I_choice_outcome_list :=
     forced_I_choice_outcome_list s; forced_NI_choice_outcome_list :=
     forced_NI_choice_outcome_list s; forced_NI_choice_feedback_list :=
     forced_NI_choice_feedback_list s; trial_order_list := trial_order_list
     s; choice := v; choice_key_FR := choice_key_FR s; trial_type :=
     trial_type s; trial_stage := trial_stage s; feedback_stimulus :=
     feedback_stimulus s; canvas := canvas s; tag_binds := tag_binds s;
     space_bound := space_bound s; timers := timers s; destroyed :=
     destroyed s; hopper_on := hopper_on s; stdout := stdout s; tracebacks
     := tracebacks s; files := files s; settings_csv := settings_csv s;
     today := today s; clock := clock s; clock_reads := clock_reads s;
     uniform_draws := uniform_draws s; uniform_reads := uniform_reads s;
     choice_draws := choice_draws s; choice_reads := choice_reads s;
     shuffle_tape := shuffle_tape s;
     text_bbox := text_bbox s |}.

Definition set_choice_key_FR (v : option Z) (s : MainScreen) : MainScreen :=
  {| training_phase := training_phase s; subject_ID := subject_ID s;
     record_data := record_data s; data_folder_directory :=
     data_folder_directory s; preTraining_FR := preTraining_FR s; start_time
     := start_time s; trial_start := trial_start s; ITI_duration :=
     ITI_duration s; feedback_duration := feedback_duration s;
     current_trial_counter := current_trial_counter s; reinforcers_provided
     := reinforcers_provided s; rejected_trial := rejected_trial s;
     informative_prob := informative_prob s; noninformative_prob :=
     noninformative_prob s; rejection_FI_duration := rejection_FI_duration
     s; session_data_frame := session_data_frame s; hopper_duration :=
     hopper_duration s; informative_side := informative_side s;
     informative_Splus_color := informative_Splus_color s;
     informative_Sminus_color := informative_Sminus_color s;
     noninformative_side := noninformative_side s;
     noninformative_Splus_color := noninformative_Splus_color s;
     noninformative_Sminus_color := noninformative_Sminus_color s;
     key_color_dict := key_color_dict s; trials_per_session :=
     trials_per_session s; forced_I_choice_outcome_list :=
     forced_I_choice_outcome_list s; forced_NI_choice_outcome_list :=
     forced_NI_choice_outcome_list s; forced_NI_choice_feedback_list :=
     forced_NI_choice_feedback_list s; trial_order_list := trial_order_list
     s; choice := choice s; choice_key_FR := v; trial_type := trial_type s;
     trial_stage := trial_stage s; feedback_stimulus := feedback_stimulus s;
     canvas := canvas s; tag_binds := tag_binds s; space_bound :=
     space_bound s; timers := timers s; destroyed := destroyed s; hopper_on
     := hopper_on s; stdout := stdout s; tracebacks := tracebacks s; files
     := files s; settings_csv := settings_csv s; today := today s; clock :=
     clock s; clock_reads := clock_reads s; uniform_draws := uniform_draws
     s; uniform_reads := uniform_reads s; choice_draws := choice_draws s;
     choice_reads := choice_reads s; shuffle_tape := shuffle_tape s;
     text_bbox := text_bbox s |}.

Definition set_trial_type (v : option string) (s : MainScreen) : MainScreen :=
  {| training_phase := training_phase s; subject_ID := subject_ID s;
     record_data := record_data s; data_folder_directory :=
     data_folder_directory s; preTraining_FR := preTraining_FR s; start_time
     := start_time s; trial_start := trial_start s; ITI_duration :=
     ITI_duration s; feedback_duration := feedback_duration s;
     current_trial_counter := current_trial_counter s; reinforcers_provided
     := reinforcers_provided s; rejected_trial := rejected_trial s;
     informative_prob := informative_prob s; noninformative_prob :=
     noninformative_prob s; rejection_FI_duration := rejection_FI_duration
     s; session_data_frame := session_data_frame s; hopper_duration :=
     hopper_duration s; informative_side := informative_side s;
     informative_Splus_color := informative_Splus_color s;
     informative_Sminus_color := informative_Sminus_color s;
     noninformative_side := noninformative_side s;
     noninformative_Splus_color := noninformative_Splus_color s;
     noninformative_Sminus_color := noninformative_Sminus_color s;
     key_color_dict := key_color_dict s; trials_per_session :=
     trials_per_session s; forced_I_choice_outcome_list :=
     forced_I_choice_outcome_list s; forced_NI_choice_outcome_list :=
     forced_NI_choice_outcome_list s; forced_NI_choice_feedback_list :=
     forced_NI_choice_feedback_list s; trial_order_list := trial_order_list
     s; choice := choice s; choice_key_FR := choice_key_FR s; trial_type :=
     v; trial_stage := trial_stage s; feedback_stimulus := feedback_stimulus
     s; canvas := canvas s; tag_binds := tag_binds s; space_bound :=
     space_bound s; timers := timers s; destroyed := destroyed s; hopper_on
     := hopper_on s; stdout := stdout s; tracebacks := tracebacks s; files
     := files s; settings_csv := settings_csv s; today := today s; clock :=
     clock s; clock_reads := clock_reads s; uniform_draws := uniform_draws
     s; uniform_reads := uniform_reads s; choice_draws := choice_draws s;
     choice_reads := choice_reads s; shuffle_tape := shuffle_tape s;
     text_bbox := text_bbox s |}.

Definition set_trial_stage (v : option Z) (s : MainScreen) : MainScreen :=
  {| training_phase := training_phase s; subject_ID := subject_ID s;
     record_data := record_data s; data_folder_directory :=
     data_folder_directory s; preTraining_FR := preTraining_FR s; start_time
     := start_time s; trial_start := trial_start s; ITI_duration :=
     ITI_duration s; feedback_duration := feedback_duration s;
     current_trial_counter := current_trial_counter s; reinforcers_provided
     := reinforcers_provided s; rejected_trial := rejected_trial s;
     informative_prob := informative_prob s; noninformative_prob :=
     noninformative_prob s; rejection_FI_duration := rejection_FI_duration
     s; session_data_frame := session_data_frame s; hopper_duration :=
     hopper_duration s; informative_side := informative_side s;
     informative_Splus_color := informative_Splus_color s;
     informative_Sminus_color := informative_Sminus_color s;
     noninformative_side := noninformative_side s;
     noninformative_Splus_color := noninformative_Splus_color s;
     noninformative_Sminus_color := noninformative_Sminus_color s;
     key_color_dict := key_color_dict s; trials_per_session :=
     trials_per_session s; forced_I_choice_outcome_list :=
     forced_I_choice_outcome_list s; forced_NI_choice_outcome_list :=
     forced_NI_choice_outcome_list s; forced_NI_choice_feedback_list :=
     forced_NI_choice_feedback_list s; trial_order_list := trial_order_list
     s; choice := choice s; choice_key_FR := choice_key_FR s; trial_type :=
     trial_type s; trial_stage := v; feedback_stimulus := feedback_stimulus
     s; canvas := canvas s; tag_binds := tag_binds s; space_bound :=
     space_bound s; timers := timers s; destroyed := destroyed s; hopper_on
     := hopper_on s; stdout := stdout s; tracebacks := tracebacks s; files
     := files s; settings_csv := settings_csv s; today := today s; clock :=
     clock s; clock_reads := clock_reads s; uniform_draws := uniform_draws
     s; uniform_reads := uniform_reads s; choice_draws := choice_draws s;
     choice_reads := choice_reads s; shuffle_tape := shuffle_tape s;
     text_bbox := text_bbox s |}.

Definition set_feedback_stimulus (v : option string) (s : MainScreen) : MainScreen :=
  {| training_phase := training_phase s; subject_ID := subject_ID s;
     record_data := record_data s; data_folder_directory :=
     data_folder_directory s; preTraining_FR := preTraining_FR s; start_time
     := start_time s; trial_start := trial_start s; ITI_duration :=
     ITI_duration s; feedback_duration := feedback_duration s;
     current_trial_counter := current_trial_counter s; reinforcers_provided
     := reinforcers_provided s; rejected_trial := rejected_trial s;
     informative_prob := informative_prob s; noninformative_prob :=
     noninformative_prob s; rejection_FI_duration := rejection_FI_duration
     s; session_data_frame := session_data_frame s; hopper_duration :=
     hopper_duration s; informative_side := informative_side s;
     informative_Splus_color := informative_Splus_color s;
     informative_Sminus_color := informative_Sminus_color s;
     noninformative_side := noninformative_side s;
     noninformative_Splus_color := noninformative_Splus_color s;
     noninformative_Sminus_color := noninformative_Sminus_color s;
     key_color_dict := key_color_dict s; trials_per_session :=
     trials_per_session s; forced_I_choice_outcome_list :=
     forced_I_choice_outcome_list s; forced_NI_choice_outcome_list :=
     forced_NI_choice_outcome_list s; forced_NI_choice_feedback_list :=
     forced_NI_choice_feedback_list s; trial_order_list := trial_order_list
     s; choice := choice s; choice_key_FR := choice_key_FR s; trial_type :=
     trial_type s; trial_stage := trial_stage s; feedback_stimulus := v;
     canvas := canvas s; tag_binds := tag_binds s; space_bound :=
     space_bound s; timers := timers s; destroyed := destroyed s; hopper_on
     := hopper_on s; stdout := stdout s; tracebacks := tracebacks s; files
     := files s; settings_csv := settings_csv s; today := today s; clock :=
     clock s; clock_reads := clock_reads s; uniform_draws := uniform_draws
     s; uniform_reads := uniform_reads s; choice_draws := choice_draws s;
     choice_reads := choice_reads s; shuffle_tape := shuffle_tape s;
     text_bbox := text_bbox s |}.

Definition set_canvas (v : list Item) (s : MainScreen) : MainScreen :=
  {| training_phase := training_phase s; subject_ID := subject_ID s;
     record_data := record_data s; data_folder_directory :=
     data_folder_directory s; preTraining_FR := preTraining_FR s; start_time
     := start_time s; trial_start := trial_start s; ITI_duration :=
     ITI_duration s; feedback_duration := feedback_duration s;
     current_trial_counter := current_trial_counter s; reinforcers_provided
     := reinforcers_provided s; rejected_trial := rejected_trial s;
     informative_prob := informative_prob s; noninformative_prob :=
     noninformative_prob s; rejection_FI_duration := rejection_FI_duration
     s; session_data_frame := session_data_frame s; hopper_duration :=
     hopper_duration s; informative_side := informative_side s;
     informative_Splus_color := informative_Splus_color s;
     informative_Sminus_color := informative_Sminus_color s;
     noninformative_side := noninformative_side s;
     noninformative_Splus_color := noninformative_Splus_color s;
     noninformative_Sminus_color := noninformative_Sminus_color s;
     key_color_dict := key_color_dict s; trials_per_session :=
     trials_per_session s; forced_I_choice_outcome_list :=
     forced_I_choice_outcome_list s; forced_NI_choice_outcome_list :=
     forced_NI_choice_outcome_list s; forced_NI_choice_feedback_list :=
     forced_NI_choice_feedback_list s; trial_order_list := trial_order_list
     s; choice := choice s; choice_key_FR := choice_key_FR s; trial_type :=
     trial_type s; trial_stage := trial_stage s; feedback_stimulus :=
     feedback_stimulus s; canvas := v; tag_binds := tag_binds s; space_bound
     := space_bound s; timers := timers s; destroyed := destroyed s;
     hopper_on := hopper_on s; stdout := stdout s; tracebacks := tracebacks
     s; files := files s; settings_csv := settings_csv s; today := today s;
     clock := clock s; clock_reads := clock_reads s; uniform_draws :=
     uniform_draws s; uniform_reads := uniform_reads s; choice_draws :=
     choice_draws s; choice_reads := choice_reads s; shuffle_tape := shuffle_tape s;
     text_bbox := text_bbox s |}.

Definition set_tag_binds (v : list (string * Handler)) (s : MainScreen) : MainScreen :=
  {| training_phase := training_phase s; subject_ID := subject_ID s;
     record_data := record_data s; data_folder_directory :=
     data_folder_directory s; preTraining_FR := preTraining_FR s; start_time
     := start_time s; trial_start := trial_start s; ITI_duration :=
     ITI_duration s; feedback_duration := feedback_duration s;
     current_trial_counter := current_trial_counter s; reinforcers_provided
     := reinforcers_provided s; rejected_trial := rejected_trial s;
     informative_prob := informative_prob s; noninformative_prob :=
     noninformative_prob s; rejection_FI_duration := rejection_FI_duration
     s; session_data_frame := session_data_frame s; hopper_duration :=
     hopper_duration s; informative_side := informative_side s;
     informative_Splus_color := informative_Splus_color s;
     informative_Sminus_color := informative_Sminus_color s;
     noninformative_side := noninformative_side s;
     noninformative_Splus_color := noninformative_Splus_color s;
     noninformative_Sminus_color := noninformative_Sminus_color s;
     key_color_dict := key_color_dict s; trials_per_session :=
     trials_per_session s; forced_I_choice_outcome_list :=
     forced_I_choice_outcome_list s; forced_NI_choice_outcome_list :=
     forced_NI_choice_outcome_list s; forced_NI_choice_feedback_list :=
     forced_NI_choice_feedback_list s; trial_order_list := trial_order_list
     s; choice := choice s; choice_key_FR := choice_key_FR s; trial_type :=
     trial_type s; trial_stage := trial_stage s; feedback_stimulus :=
     feedback_stimulus s; canvas := canvas s; tag_binds := v; space_bound :=
     space_bound s; timers := timers s; destroyed := destroyed s; hopper_on
     := hopper_on s; stdout := stdout s; tracebacks := tracebacks s; files
     := files s; settings_csv := settings_csv s; today := today s; clock :=
     clock s; clock_reads := clock_reads s; uniform_draws := uniform_draws
     s; uniform_reads := uniform_reads s; choice_draws := choice_draws s;
     choice_reads := choice_reads s; shuffle_tape := shuffle_tape s;
     text_bbox := text_bbox s |}.

Definition set_space_bound (v : bool) (s : MainScreen) : MainScreen :=
  {| training_phase := training_phase s; subject_ID := subject_ID s;
     record_data := record_data s; data_folder_directory :=
     data_folder_directory s; preTraining_FR := preTraining_FR s; start_time
     := start_time s; trial_start := trial_start s; ITI_duration :=
     ITI_duration s; feedback_duration := feedback_duration s;
     current_trial_counter := current_trial_counter s; reinforcers_provided
     := reinforcers_provided s; rejected_trial := rejected_trial s;
     informative_prob := informative_prob s; noninformative_prob :=
     noninformative_prob s; rejection_FI_duration := rejection_FI_duration
     s; session_data_frame := session_data_frame s; hopper_duration :=
     hopper_duration s; informative_side := informative_side s;
     informative_Splus_color := informative_Splus_color s;
     informative_Sminus_color := informative_Sminus_color s;
     noninformative_side := noninformative_side s;
     noninformative_Splus_color := noninformative_Splus_color s;
     noninformative_Sminus_color := noninformative_Sminus_color s;
     key_color_dict := key_color_dict s; trials_per_session :=
     trials_per_session s; forced_I_choice_outcome_list :=
     forced_I_choice_outcome_list s; forced_NI_choice_outcome_list :=
     forced_NI_choice_outcome_list s; forced_NI_choice_feedback_list :=
     forced_NI_choice_feedback_list s; trial_order_list := trial_order_list
     s; choice := choice s; choice_key_FR := choice_key_FR s; trial_type :=
     trial_type s; trial_stage := trial_stage s; feedback_stimulus :=
     feedback_stimulus s; canvas := canvas s; tag_binds := tag_binds s;
     space_bound := v; timers := timers s; destroyed := destroyed s;
     hopper_on := hopper_on s; stdout := stdout s; tracebacks := tracebacks
     s; files := files s; settings_csv := settings_csv s; today := today s;
     clock := clock s; clock_reads := clock_reads s; uniform_draws :=
     uniform_draws s; uniform_reads := uniform_reads s; choice_draws :=
     choice_draws s; choice_reads := choice_reads s; shuffle_tape := shuffle_tape s;
     text_bbox := text_bbox s |}.

Definition set_timers (v : list (Z * Callback)) (s : MainScreen) : MainScreen :=
  {| training_phase := training_phase s; subject_ID := subject_ID s;
     record_data := record_data s; data_folder_directory :=
     data_folder_directory s; preTraining_FR := preTraining_FR s; start_time
     := start_time s; trial_start := trial_start s; ITI_duration :=
     ITI_duration s; feedback_duration := feedback_duration s;
     current_trial_counter := current_trial_counter s; reinforcers_provided
     := reinforcers_provided s; rejected_trial := rejected_trial s;
     informative_prob := informative_prob s; noninformative_prob :=
     noninformative_prob s; rejection_FI_duration := rejection_FI_duration
     s; session_data_frame := session_data_frame s; hopper_duration :=
     hopper_duration s; informative_side := informative_side s;
     informative_Splus_color := informative_Splus_color s;
     informative_Sminus_color := informative_Sminus_color s;
     noninformative_side := noninformative_side s;
     noninformative_Splus_color := noninformative_Splus_color s;
     noninformative_Sminus_color := noninformative_Sminus_color s;
     key_color_dict := key_color_dict s; trials_per_session :=
     trials_per_session s; forced_I_choice_outcome_list :=
     forced_I_choice_outcome_list s; forced_NI_choice_outcome_list :=
     forced_NI_choice_outcome_list s; forced_NI_choice_feedback_list :=
     forced_NI_choice_feedback_list s; trial_order_list := trial_order_list
     s; choice := choice s; choice_key_FR := choice_key_FR s; trial_type :=
     trial_type s; trial_stage := trial_stage s; feedback_stimulus :=
     feedback_stimulus s; canvas := canvas s; tag_binds := tag_binds s;
     space_bound := space_bound s; timers := v; destroyed := destroyed s;
     hopper_on := hopper_on s; stdout := stdout s; tracebacks := tracebacks
     s; files := files s; settings_csv := settings_csv s; today := today s;
     clock := clock s; clock_reads := clock_reads s; uniform_draws :=
     uniform_draws s; uniform_reads := uniform_reads s; choice_draws :=
     choice_draws s; choice_reads := choice_reads s; shuffle_tape := shuffle_tape s;
     text_bbox := text_bbox s |}.

Definition set_destroyed (v : bool) (s : MainScreen) : MainScreen :=
  {| training_phase := training_phase s; subject_ID := subject_ID s;
     record_data := record_data s; data_folder_directory :=
     data_folder_directory s; preTraining_FR := preTraining_FR s; start_time
     := start_time s; trial_start := trial_start s; ITI_duration :=
     ITI_duration s; feedback_duration := feedback_duration s;
     current_trial_counter := current_trial_counter s; reinforcers_provided
     := reinforcers_provided s; rejected_trial := rejected_trial s;
     informative_prob := informative_prob s; noninformative_prob :=
     noninformative_prob s; rejection_FI_duration := rejection_FI_duration
     s; session_data_frame := session_data_frame s; hopper_duration :=
     hopper_duration s; informative_side := informative_side s;
     informative_Splus_color := informative_Splus_color s;
     informative_Sminus_color := informative_Sminus_color s;
     noninformative_side := noninformative_side s;
     noninformative_Splus_color := noninformative_Splus_color s;
     noninformative_Sminus_color := noninformative_Sminus_color s;
     key_color_dict := key_color_dict s; trials_per_session :=
     trials_per_session s; forced_I_choice_outcome_list :=
     forced_I_choice_outcome_list s; forced_NI_choice_outcome_list :=
     forced_NI_choice_outcome_list s; forced_NI_choice_feedback_list :=
     forced_NI_choice_feedback_list s; trial_order_list := trial_order_list
     s; choice := choice s; choice_key_FR := choice_key_FR s; trial_type :=
     trial_type s; trial_stage := trial_stage s; feedback_stimulus :=
     feedback_stimulus s; canvas := canvas s; tag_binds := tag_binds s;
     space_bound := space_bound s; timers := timers s; destroyed := v;
     hopper_on := hopper_on s; stdout := stdout s; tracebacks := tracebacks
     s; files := files s; settings_csv := settings_csv s; today := today s;
     clock := clock s; clock_reads := clock_reads s; uniform_draws :=
     uniform_draws s; uniform_reads := uniform_reads s; choice_draws :=
     choice_draws s; choice_reads := choice_reads s; shuffle_tape := shuffle_tape s;
     text_bbox := text_bbox s |}.

Definition set_hopper_on (v : bool) (s : MainScreen) : MainScreen :=
  {| training_phase := training_phase s; subject_ID := subject_ID s;
     record_data := record_data s; data_folder_directory :=
     data_folder_directory s; preTraining_FR := preTraining_FR s; start_time
     := start_time s; trial_start := trial_start s; ITI_duration :=
     ITI_duration s; feedback_duration := feedback_duration s;
     current_trial_counter := current_trial_counter s; reinforcers_provided
     := reinforcers_provided s; rejected_trial := rejected_trial s;
     informative_prob := informative_prob s; noninformative_prob :=
     noninformative_prob s; rejection_FI_duration := rejection_FI_duration
     s; session_data_frame := session_data_frame s; hopper_duration :=
     hopper_duration s; informative_side := informative_side s;
     informative_Splus_color := informative_Splus_color s;
     informative_Sminus_color := informative_Sminus_color s;
     noninformative_side := noninformative_side s;
     noninformative_Splus_color := noninformative_Splus_color s;
     noninformative_Sminus_color := noninformative_Sminus_color s;
     key_color_dict := key_color_dict s; trials_per_session :=
     trials_per_session s; forced_I_choice_outcome_list :=
     forced_I_choice_outcome_list s; forced_NI_choice_outcome_list :=
     forced_NI_choice_outcome_list s; forced_NI_choice_feedback_list :=
     forced_NI_choice_feedback_list s; trial_order_list := trial_order_list
     s; choice := choice s; choice_key_FR := choice_key_FR s; trial_type :=
     trial_type s; trial_stage := trial_stage s; feedback_stimulus :=
     feedback_stimulus s; canvas := canvas s; tag_binds := tag_binds s;
     space_bound := space_bound s; timers := timers s; destroyed :=
     destroyed s; hopper_on := v; stdout := stdout s; tracebacks :=
     tracebacks s; files := files s; settings_csv := settings_csv s; today
     := today s; clock := clock s; clock_reads := clock_reads s;
     uniform_draws := uniform_draws s; uniform_reads := uniform_reads s;
     choice_draws := choice_draws s; choice_reads := choice_reads s;
     shuffle_tape := shuffle_tape s;
     text_bbox := text_bbox s |}.

Definition set_stdout (v : list string) (s : MainScreen) : MainScreen :=
  {| training_phase := training_phase s; subject_ID := subject_ID s;
     record_data := record_data s; data_folder_directory :=
     data_folder_directory s; preTraining_FR := preTraining_FR s; start_time
     := start_time s; trial_start := trial_start s; ITI_duration :=
     ITI_duration s; feedback_duration := feedback_duration s;
     current_trial_counter := current_trial_counter s; reinforcers_provided
     := reinforcers_provided s; rejected_trial := rejected_trial s;
     informative_prob := informative_prob s; noninformative_prob :=
     noninformative_prob s; rejection_FI_duration := rejection_FI_duration
     s; session_data_frame := session_data_frame s; hopper_duration :=
     hopper_duration s; informative_side := informative_side s;
     informative_Splus_color := informative_Splus_color s;
     informative_Sminus_color := informative_Sminus_color s;
     noninformative_side := noninformative_side s;
     noninformative_Splus_color := noninformative_Splus_color s;
     noninformative_Sminus_color := noninformative_Sminus_color s;
     key_color_dict := key_color_dict s; trials_per_session :=
     trials_per_session s; forced_I_choice_outcome_list :=
     forced_I_choice_outcome_list s; forced_NI_choice_outcome_list :=
     forced_NI_choice_outcome_list s; forced_NI_choice_feedback_list :=
     forced_NI_choice_feedback_list s; trial_order_list := trial_order_list
     s; choice := choice s; choice_key_FR := choice_key_FR s; trial_type :=
     trial_type s; trial_stage := trial_stage s; feedback_stimulus :=
     feedback_stimulus s; canvas := canvas s; tag_binds := tag_binds s;
     space_bound := space_bound s; timers := timers s; destroyed :=
     destroyed s; hopper_on := hopper_on s; stdout := v; tracebacks :=
     tracebacks s; files := files s; settings_csv := settings_csv s; today
     := today s; clock := clock s; clock_reads := clock_reads s;
     uniform_draws := uniform_draws s; uniform_reads := uniform_reads s;
     choice_draws := choice_draws s; choice_reads := choice_reads s;
     shuffle_tape := shuffle_tape s;
     text_bbox := text_bbox s |}.

Definition set_tracebacks (v : list exn) (s : MainScreen) : MainScreen :=
  {| training_phase := training_phase s; subject_ID := subject_ID s;
     record_data := record_data s; data_folder_directory :=
     data_folder_directory s; preTraining_FR := preTraining_FR s; start_time
     := start_time s; trial_start := trial_start s; ITI_duration :=
     ITI_duration s; feedback_duration := feedback_duration s;
     current_trial_counter := current_trial_counter s; reinforcers_provided
     := reinforcers_provided s; rejected_trial := rejected_trial s;
     informative_prob := informative_prob s; noninformative_prob :=
     noninformative_prob s; rejection_FI_duration := rejection_FI_duration
     s; session_data_frame := session_data_frame s; hopper_duration :=
     hopper_duration s; informative_side := informative_side s;
     informative_Splus_color := informative_Splus_color s;
     informative_Sminus_color := informative_Sminus_color s;
     noninformative_side := noninformative_side s;
     noninformative_Splus_color := noninformative_Splus_color s;
     noninformative_Sminus_color := noninformative_Sminus_color s;
     key_color_dict := key_color_dict s; trials_per_session :=
     trials_per_session s; forced_I_choice_outcome_list :=
     forced_I_choice_outcome_list s; forced_NI_choice_outcome_list :=
     forced_NI_choice_outcome_list s; forced_NI_choice_feedback_list :=
     forced_NI_choice_feedback_list s; trial_order_list := trial_order_list
     s; choice := choice s; choice_key_FR := choice_key_FR s; trial_type :=
     trial_type s; trial_stage := trial_stage s; feedback_stimulus :=
     feedback_stimulus s; canvas := canvas s; tag_binds := tag_binds s;
     space_bound := space_bound s; timers := timers s; destroyed :=
     destroyed s; hopper_on := hopper_on s; stdout := stdout s; tracebacks
     := v; files := files s; settings_csv := settings_csv s; today := today
     s; clock := clock s; clock_reads := clock_reads s; uniform_draws :=
     uniform_draws s; uniform_reads := uniform_reads s; choice_draws :=
     choice_draws s; choice_reads := choice_reads s; shuffle_tape := shuffle_tape s;
     text_bbox := text_bbox s |}.

Definition set_files (v : list (FileName * list Row)) (s : MainScreen) : MainScreen :=
  {| training_phase := training_phase s; subject_ID := subject_ID s;
     record_data := record_data s; data_folder_directory :=
     data_folder_directory s; preTraining_FR := preTraining_FR s; start_time
     := start_time s; trial_start := trial_start s; ITI_duration :=
     ITI_duration s; feedback_duration := feedback_duration s;
     current_trial_counter := current_trial_counter s; reinforcers_provided
     := reinforcers_provided s; rejected_trial := rejected_trial s;
     informative_prob := informative_prob s; noninformative_prob :=
     noninformative_prob s; rejection_FI_duration := rejection_FI_duration
     s; session_data_frame := session_data_frame s; hopper_duration :=
     hopper_duration s; informative_side := informative_side s;
     informative_Splus_color := informative_Splus_color s;
     informative_Sminus_color := informative_Sminus_color s;
     noninformative_side := noninformative_side s;
     noninformative_Splus_color := noninformative_Splus_color s;
     noninformative_Sminus_color := noninformative_Sminus_color s;
     key_color_dict := key_color_dict s; trials_per_session :=
     trials_per_session s; forced_I_choice_outcome_list :=
     forced_I_choice_outcome_list s; forced_NI_choice_outcome_list :=
     forced_NI_choice_outcome_list s; forced_NI_choice_feedback_list :=
     forced_NI_choice_feedback_list s; trial_order_list := trial_order_list
     s; choice := choice s; choice_key_FR := choice_key_FR s; trial_type :=
     trial_type s; trial_stage := trial_stage s; feedback_stimulus :=
     feedback_stimulus s; canvas := canvas s; tag_binds := tag_binds s;
     space_bound := space_bound s; timers := timers s; destroyed :=
     destroyed s; hopper_on := hopper_on s; stdout := stdout s; tracebacks
     := tracebacks s; files := v; settings_csv := settings_csv s; today :=
     today s; clock := clock s; clock_reads := clock_reads s; uniform_draws
     := uniform_draws s; uniform_reads := uniform_reads s; choice_draws :=
     choice_draws s; choice_reads := choice_reads s; shuffle_tape := shuffle_tape s;
     text_bbox := text_bbox s |}.

Definition set_clock_reads (v : nat) (s : MainScreen) : MainScreen :=
  {| training_phase := training_phase s; subject_ID := subject_ID s;
     record_data := record_data s; data_folder_directory :=
     data_folder_directory s; preTraining_FR := preTraining_FR s; start_time
     := start_time s; trial_start := trial_start s; ITI_duration :=
     ITI_duration s; feedback_duration := feedback_duration s;
     current_trial_counter := current_trial_counter s; reinforcers_provided
     := reinforcers_provided s; rejected_trial := rejected_trial s;
     informative_prob := informative_prob s; noninformative_prob :=
     noninformative_prob s; rejection_FI_duration := rejection_FI_duration
     s; session_data_frame := session_data_frame s; hopper_duration :=
     hopper_duration s; informative_side := informative_side s;
     informative_Splus_color := informative_Splus_color s;
     informative_Sminus_color := informative_Sminus_color s;
     noninformative_side := noninformative_side s;
     noninformative_Splus_color := noninformative_Splus_color s;
     noninformative_Sminus_color := noninformative_Sminus_color s;
     key_color_dict := key_color_dict s; trials_per_session :=
     trials_per_session s; forced_I_choice_outcome_list :=
     forced_I_choice_outcome_list s; forced_NI_choice_outcome_list :=
     forced_NI_choice_outcome_list s; forced_NI_choice_feedback_list :=
     forced_NI_choice_feedback_list s; trial_order_list := trial_order_list
     s; choice := choice s; choice_key_FR := choice_key_FR s; trial_type :=
     trial_type s; trial_stage := trial_stage s; feedback_stimulus :=
     feedback_stimulus s; canvas := canvas s; tag_binds := tag_binds s;
     space_bound := space_bound s; timers := timers s; destroyed :=
     destroyed s; hopper_on := hopper_on s; stdout := stdout s; tracebacks
     := tracebacks s; files := files s; settings_csv := settings_csv s;
     today := today s; clock := clock s; clock_reads := v; uniform_draws :=
     uniform_draws s; uniform_reads := uniform_reads s; choice_draws :=
     choice_draws s; choice_reads := choice_reads s; shuffle_tape := shuffle_tape s;
     text_bbox := text_bbox s |}.

Definition set_uniform_reads (v : nat) (s : MainScreen) : MainScreen :=
  {| training_phase := training_phase s; subject_ID := subject_ID s;
     record_data := record_data s; data_folder_directory :=
     data_folder_directory s; preTraining_FR := preTraining_FR s; start_time
     := start_time s; trial_start := trial_start s; ITI_duration :=
     ITI_duration s; feedback_duration := feedback_duration s;
     current_trial_counter := current_trial_counter s; reinforcers_provided
     := reinforcers_provided s; rejected_trial := rejected_trial s;
     informative_prob := informative_prob s; noninformative_prob :=
     noninformative_prob s; rejection_FI_duration := rejection_FI_duration
     s; session_data_frame := session_data_frame s; hopper_duration :=
     hopper_duration s; informative_side := informative_side s;
     informative_Splus_color := informative_Splus_color s;
     informative_Sminus_color := informative_Sminus_color s;
     noninformative_side := noninformative_side s;
     noninformative_Splus_color := noninformative_Splus_color s;
     noninformative_Sminus_color := noninformative_Sminus_color s;
     key_color_dict := key_color_dict s; trials_per_session :=
     trials_per_session s; forced_I_choice_outcome_list :=
     forced_I_choice_outcome_list s; forced_NI_choice_outcome_list :=
     forced_NI_choice_outcome_list s; forced_NI_choice_feedback_list :=
     forced_NI_choice_feedback_list s; trial_order_list := trial_order_list
     s; choice := choice s; choice_key_FR := choice_key_FR s; trial_type :=
     trial_type s; trial_stage := trial_stage s; feedback_stimulus :=
     feedback_stimulus s; canvas := canvas s; tag_binds := tag_binds s;
     space_bound := space_bound s; timers := timers s; destroyed :=
     destroyed s; hopper_on := hopper_on s; stdout := stdout s; tracebacks
     := tracebacks s; files := files s; settings_csv := settings_csv s;
     today := today s; clock := clock s; clock_reads := clock_reads s;
     uniform_draws := uniform_draws s; uniform_reads := v; choice_draws :=
     choice_draws s; choice_reads := choice_reads s; shuffle_tape := shuffle_tape s;
     text_bbox := text_bbox s |}.

Definition set_choice_reads (v : nat) (s : MainScreen) : MainScreen :=
  {| training_phase := training_phase s; subject_ID := subject_ID s;
     record_data := record_data s; data_folder_directory :=
     data_folder_directory s; preTraining_FR := preTraining_FR s; start_time
     := start_time s; trial_start := trial_start s; ITI_duration :=
     ITI_duration s; feedback_duration := feedback_duration s;
     current_trial_counter := current_trial_counter s; reinforcers_provided
     := reinforcers_provided s; rejected_trial := rejected_trial s;
     informative_prob := informative_prob s; noninformative_prob :=
     noninformative_prob s; rejection_FI_duration := rejection_FI_duration
     s; session_data_frame := session_data_frame s; hopper_duration :=
     hopper_duration s; informative_side := informative_side s;
     informative_Splus_color := informative_Splus_color s;
     informative_Sminus_color := informative_Sminus_color s;
     noninformative_side := noninformative_side s;
     noninformative_Splus_color := noninformative_Splus_color s;
     noninformative_Sminus_color := noninformative_Sminus_color s;
     key_color_dict := key_color_dict s; trials_per_session :=
     trials_per_session s; forced_I_choice_outcome_list :=
     forced_I_choice_outcome_list s; forced_NI_choice_outcome_list :=
     forced_NI_choice_outcome_list s; forced_NI_choice_feedback_list :=
     forced_NI_choice_feedback_list s; trial_order_list := trial_order_list
     s; choice := choice s; choice_key_FR := choice_key_FR s; trial_type :=
     trial_type s; trial_stage := trial_stage s; feedback_stimulus :=
     feedback_stimulus s; canvas := canvas s; tag_binds := tag_binds s;
     space_bound := space_bound s; timers := timers s; destroyed :=
     destroyed s; hopper_on := hopper_on s; stdout := stdout s; tracebacks
     := tracebacks s; files := files s; settings_csv := settings_csv s;
     today := today s; clock := clock s; clock_reads := clock_reads s;
     uniform_draws := uniform_draws s; uniform_reads := uniform_reads s;
     choice_draws := choice_draws s; choice_reads := v; shuffle_tape := shuffle_tape s;
     text_bbox := text_bbox s |}.

Definition set_shuffle_tape (v : list (list string)) (s : MainScreen) : MainScreen :=
  {| training_phase := training_phase s; subject_ID := subject_ID s;
     record_data := record_data s; data_folder_directory :=
     data_folder_directory s; preTraining_FR := preTraining_FR s; start_time
     := start_time s; trial_start := trial_start s; ITI_duration :=
     ITI_duration s; feedback_duration := feedback_duration s;
     current_trial_counter := current_trial_counter s; reinforcers_provided
     := reinforcers_provided s; rejected_trial := rejected_trial s;
     informative_prob := informative_prob s; noninformative_prob :=
     noninformative_prob s; rejection_FI_duration := rejection_FI_duration
     s; session_data_frame := session_data_frame s; hopper_duration :=
     hopper_duration s; informative_side := informative_side s;
     informative_Splus_color := informative_Splus_color s;
     informative_Sminus_color := informative_Sminus_color s;
     noninformative_side := noninformative_side s;
     noninformative_Splus_color := noninformative_Splus_color s;
     noninformative_Sminus_color := noninformative_Sminus_color s;
     key_color_dict := key_color_dict s; trials_per_session :=
     trials_per_session s; forced_I_choice_outcome_list :=
     forced_I_choice_outcome_list s; forced_NI_choice_outcome_list :=
     forced_NI_choice_outcome_list s; forced_NI_choice_feedback_list :=
     forced_NI_choice_feedback_list s; trial_order_list := trial_order_list
     s; choice := choice s; choice_key_FR := choice_key_FR s; trial_type :=
     trial_type s; trial_stage := trial_stage s; feedback_stimulus :=
     feedback_stimulus s; canvas := canvas s; tag_binds := tag_binds s;
     space_bound := space_bound s; timers := timers s; destroyed :=
     destroyed s; hopper_on := hopper_on s; stdout := stdout s; tracebacks
     := tracebacks s; files := files s; settings_csv := settings_csv s;
     today := today s; clock := clock s; clock_reads := clock_reads s;
     uniform_draws := uniform_draws s; uniform_reads := uniform_reads s;
     choice_draws := choice_draws s; choice_reads := choice_reads s;
     shuffle_tape := v; text_bbox := text_bbox s |}.

(** ** Methods as state transformers *)

Inductive result (A : Type) : Type :=
| Ok (a : A)
| Raise (e : exn).
Arguments Ok {A} a.
Arguments Raise {A} e.

Definition M (A : Type) : Type := MainScreen -> result A * MainScreen.

Definition ret {A} (a : A) : M A := fun s => (Ok a, s).

Definition raise {A} (e : exn) : M A := fun s => (Raise e, s).

Definition bind {A B} (c : M A) (k : A -> M B) : M B :=
  fun s =>
    match c s with
    | (Ok a, s') => k a s'
    | (Raise e, s') => (Raise e, s')
    end.

Declare Scope py_scope.
Delimit Scope py_scope with py.
Notation "x <- c ;; k" := (bind c (fun x => k))
  (at level 61, c at next level, right associativity) : py_scope.
Notation "c ;; k" := (bind c (fun _ => k))
  (at level 61, right associativity) : py_scope.
Local Open Scope py_scope.

(** Reading a field that always has a value. *)
Definition gets {A} (f : MainScreen -> A) : M A := fun s => (Ok (f s), s).

(** Reading an attribute that may not have been assigned. *)
Definition attr {A} (f : MainScreen -> option A) : M A :=
  fun s =>
    match f s with
    | Some a => (Ok a, s)
    | None => (Raise AttributeError, s)
    end.

Definition modify (f : MainScreen -> MainScreen) : M unit :=
  fun s => (Ok tt, f s).

Definition need {A} (e : exn) (o : option A) : M A :=
  match o with
  | Some a => ret a
  | None => raise e
  end.

(** [try: c  except E: handler], for the exceptions [catches] accepts. *)
Definition try_except {A} (c : M A) (catches : exn -> bool) (handler : M A)
  : M A :=
  fun s =>
    match c s with
    | (Raise e, s') => if catches e then handler s' else (Raise e, s')
    | r => r
    end.

Fixpoint for_each {A} (l : list A) (body : A -> M unit) : M unit :=
  match l with
  | [] => ret tt
  | a :: l' => body a ;; for_each l' body
  end.

Definition print (line : string) : M unit :=
  modify (fun s => set_stdout (stdout s ++ [line]) s).

(** [time()] and [datetime.now()]: the next reading of the wall clock. *)
Definition time : M Q :=
  fun s => (Ok (clock s (clock_reads s)), set_clock_reads (S (clock_reads s)) s).

(** [uniform(0,1)]: the next draw of the generator. *)
Definition uniform_0_1 : M Q :=
  fun s =>
    (Ok (uniform_draws s (uniform_reads s)),
     set_uniform_reads (S (uniform_reads s)) s).

(** [choice(l)]: [IndexError] on the empty list, before any draw. *)
Definition random_choice (l : list string) : M string :=
  match l with
  | [] => raise IndexError
  | _ =>
      fun s =>
        match Py.choice (choice_draws s (choice_reads s)) l with
        | Some x => (Ok x, set_choice_reads (S (choice_reads s)) s)
        | None => (Raise IndexError, s)
        end
  end.

(** [l[i]] with Python's negative indices. *)
Definition list_get (l : list string) (i : Z) : option string :=
  if 0 <=? i then nth_error l (Z.to_nat i)
  else if 0 <=? Z.of_nat (List.length l) + i
       then nth_error l (Z.to_nat (Z.of_nat (List.length l) + i))
       else None.

(** *** Tk *)

Definition create_item (tag : string) (x1 y1 x2 y2 : Z) : M unit :=
  modify (fun s => set_canvas (mkItem tag x1 y1 x2 y2 :: canvas s) s).

(** [create_text(x, y, text=...)] without a tag: the box of the text
    comes from the fonts of the machine. *)
Definition text_item (box : Z * Z * Z * Z) : Item :=
  let '(x1, y1, x2, y2) := box in mkItem "" x1 y1 x2 y2.

Definition create_text (x y : Z) (text : string) : M unit :=
  modify (fun s =>
    set_canvas (text_item (text_bbox s x y text) :: canvas s) s).

Definition tag_bind (tag : string) (h : Handler) : M unit :=
  modify (fun s =>
    set_tag_binds
      ((tag, h) :: filter (fun b => negb (String.eqb (fst b) tag)) (tag_binds s))
      s).

Definition after (ms : Z) (cb : Callback) : M unit :=
  modify (fun s => set_timers (timers s ++ [(ms, cb)]) s).

Definition inside (x y : Z) (it : Item) : bool :=
  (item_x1 it <=? x) && (x <=? item_x2 it)
  && (item_y1 it <=? y) && (y <=? item_y2 it).

(** The item a click at [(x, y)] belongs to: the most recently created
    one under the point (the canvas list has the newest item first). *)
Definition item_at (x y : Z) (cv : list Item) : option Item :=
  find (inside x y) cv.

Definition change_hopper_state (on : bool) : M unit :=
  modify (set_hopper_on on).

(** [clear_canvas] (lines 1024-1036). *)
Definition clear_canvas : M unit :=
  d <- gets destroyed ;;
  if d then print "No screen to exit" else modify (set_canvas []).

(** *** [write_data] (lines 1069-1125) *)

Definition choice_key_pecks : list string :=
  ["left_choice_key_peck"; "right_choice_key_peck"].

Definition feedback_key_pecks : list string :=
  ["ll_feedback_key_peck"; "lr_feedback_key_peck";
   "rl_feedback_key_peck"; "rr_feedback_key_peck"].

(** Lines 1081-1101: the location of the peck read as an experimental
    event. [None] is the case where no branch assigns [exp_outcome]. *)
Definition translate_outcome (outcome : string) : M (option string) :=
  if Py.list_in outcome choice_key_pecks then
    inf <- attr informative_side ;;
    if Py.contains (Py.lower inf) outcome then ret (Some "informative_key_peck")
    else
      ninf <- attr noninformative_side ;;
      if Py.contains (Py.lower ninf) outcome
      then ret (Some "uninformative_key_peck")
      else print "ERROR" ;; ret None
  else if Py.list_in outcome feedback_key_pecks then
    d <- attr key_color_dict ;;
    c <- need KeyError (Py.dict_get (Py.drop_last_5 outcome) d) ;;
    isp <- attr informative_Splus_color ;;
    if String.eqb c isp then ret (Some "informative_Splus_peck")
    else
      ism <- attr informative_Sminus_color ;;
      if String.eqb c ism then ret (Some "informative_Sminus_peck")
      else
        nsp <- attr noninformative_Splus_color ;;
        if String.eqb c nsp then ret (Some "noninformative_Splus_peck")
        else
          nsm <- attr noninformative_Sminus_color ;;
          if String.eqb c nsm then ret (Some "noninformative_Sminus_peck")
          else ret None
  else if Py.contains "rejection" outcome then ret (Some "rejection_key_peck")
  else ret (Some outcome).

(** [event] is [None] for the events that are not pecks. *)
Definition write_data (event : option (Z * Z)) (outcome : string) : M unit :=
  let x := match event with Some (x, _) => CInt x | None => CStr "NA" end in
  let y := match event with Some (_, y) => CInt y | None => CStr "NA" end in
  exp_outcome <- translate_outcome outcome ;;
  (* line 1104: the terminal line reads these attributes *)
  _ <- attr trial_stage ;;
  _ <- time ;;
  _ <- (st <- gets start_time ;; need TypeError st) ;;
  _ <- attr trial_type ;;
  (* lines 1106-1125: the new row *)
  now <- time ;;
  st <- (st <- gets start_time ;; need TypeError st) ;;
  exp <- need UnboundLocalError exp_outcome ;;
  stage <- attr trial_stage ;;
  t <- time ;;
  ts <- (ts <- gets trial_start ;; need TypeError ts) ;;
  iti <- gets ITI_duration ;;
  fr <- attr choice_key_FR ;;
  n <- gets current_trial_counter ;;
  r <- gets reinforcers_provided ;;
  ttype <- attr trial_type ;;
  rej <- gets rejected_trial ;;
  fi <- gets rejection_FI_duration ;;
  ip <- gets informative_prob ;;
  np <- gets noninformative_prob ;;
  subj <- gets subject_ID ;;
  ph <- gets training_phase ;;
  d <- gets today ;;
  modify (fun s =>
    set_session_data_frame
      (session_data_frame s ++
       [[CTimedelta (now - st)%Q; x; y; CStr outcome; CStr exp; CInt stage;
         CFloat (Py.round_5 (t - ts - inject_Z iti / inject_Z 1000)%Q);
         CInt fr; CInt n; CInt r; CStr ttype; CBool rej; CInt fi;
         CFloat ip; CFloat np; CStr subj; CInt ph; CDate d]]) s).

(** *** [write_comp_data] (lines 1137-1154) *)

Definition file_name_eqb (a b : FileName) : bool :=
  String.eqb (fn_directory a) (fn_directory b)
  && String.eqb (fn_subject a) (fn_subject b)
  && Z.eqb (Qnum (fn_start a)) (Qnum (fn_start b))
  && Pos.eqb (Qden (fn_start a)) (Qden (fn_start b))
  && Z.eqb (fn_phase a) (fn_phase b).

(** [open(path, 'w')] followed by [writerows]: the file at [path] now
    holds exactly [rows]. *)
Definition write_file (path : FileName) (rows : list Row) : M unit :=
  modify (fun s =>
    set_files
      ((path, rows)
       :: filter (fun f => negb (file_name_eqb (fst f) path)) (files s)) s).

Definition write_comp_data (SessionEnded : bool) : M unit :=
  (if SessionEnded then write_data None "SessionEnds" else ret tt) ;;
  rec <- gets record_data ;;
  if rec then
    dir <- gets data_folder_directory ;;
    subj <- gets subject_ID ;;
    st <- attr start_time ;;
    ph <- gets training_phase ;;
    frame <- gets session_data_frame ;;
    write_file (mkFileName dir subj st ph) frame
  else ret tt.

(** *** [exit_program] (lines 1038-1066) *)

Definition exit_program : M unit :=
  clear_canvas ;;
  change_hopper_state false ;;
  write_comp_data true ;;
  modify (set_destroyed true).

(** *** [build_keys] (lines 738-865) *)

Definition key_coord_dict : list (string * (Z * Z * Z * Z)) :=
  [("left_choice_key", (150, 250, 250, 350));
   ("right_choice_key", (550, 250, 650, 350));
   ("rejection_key", (350, 250, 450, 350));
   ("ll_feedback_key", (150, 250, 250, 350));
   ("lr_feedback_key", (150, 250, 250, 350));
   ("rl_feedback_key", (550, 250, 650, 350));
   ("rr_feedback_key", (550, 250, 650, 350))].

Definition mainscreen_width : Z := 800.
Definition mainscreen_height : Z := 600.

(** Lines 776-805: the keys of this stage of this trial. *)
Definition key_str_list_to_build : M (list string) :=
  ph <- gets training_phase ;;
  if ph =? 0 then
    ttype <- attr trial_type ;; ret [ttype]
  else if ph =? 1 then
    stage <- attr trial_stage ;;
    if stage =? 0 then
      rej <- gets rejected_trial ;;
      if negb rej then
        ttype <- attr trial_type ;;
        l1 <- (if Py.list_in ttype ["forced_choice-informative";
                                 "rejection-informative"; "free_choice"]
               then inf <- attr informative_side ;;
                    ret [(Py.lower inf ++ "_choice_key")%string]
               else ret []) ;;
        l2 <- (if Py.list_in ttype ["rejection-noninformative";
                                 "forced_choice-noninformative"; "free_choice"]
               then ninf <- attr noninformative_side ;;
                    ret (l1 ++ [(Py.lower ninf ++ "_choice_key")%string])
               else ret l1) ;;
        if Py.list_in ttype ["rejection-noninformative"; "rejection-informative"]
        then ret (l2 ++ ["rejection_key"])
        else ret l2
      else
        ttype <- attr trial_type ;;
        if String.eqb ttype "rejection-noninformative" then
          inf <- attr informative_side ;;
          ret [(Py.lower inf ++ "_choice_key")%string]
        else if String.eqb ttype "rejection-informative" then
          ninf <- attr noninformative_side ;;
          ret [(Py.lower ninf ++ "_choice_key")%string]
        else ret []
    else if stage =? 1 then
      fs <- attr feedback_stimulus ;; ret [fs]
    else ret []
  else ret [].

(** Lines 809-865: one key: the wider invisible oval, the filled oval,
    the cross of the rejection key, and the binding of its tag. *)
Definition build_key (key_string : string) : M unit :=
  box <- need KeyError (Py.dict_get key_string key_coord_dict) ;;
  let '(x1, y1, x2, y2) := box in
  create_item key_string (x1 - 25) (y1 - 25) (x2 + 25) (y2 + 25) ;;
  d <- attr key_color_dict ;;
  _ <- need KeyError (Py.dict_get key_string d) ;;
  create_item key_string x1 y1 x2 y2 ;;
  (if Py.contains "rejection_key" key_string then
     create_item key_string
       (x1 + (x2 - x1) / 2 - (x2 - x1) / 10) (y1 + (y2 - y1) / 10)
       (x1 + (x2 - x1) / 2 + (x2 - x1) / 10) (y2 - (y2 - y1) / 10) ;;
     create_item key_string
       (x1 + (x2 - x1) / 10) (y1 + (y2 - y1) / 2 - (y2 - y1) / 10)
       (x2 - (x2 - x1) / 10) (y1 + (y2 - y1) / 2 + (y2 - y1) / 10)
   else ret tt) ;;
  tag_bind key_string (HKeyPress key_string).

Definition build_keys : M unit :=
  create_item "bkgrd" 0 0 mainscreen_width mainscreen_height ;;
  tag_bind "bkgrd" (HWriteData "background_peck") ;;
  keys <- key_str_list_to_build ;;
  for_each keys build_key.

(** *** [initial_links_stage] (lines 663-668) *)

Definition initial_links_stage : M unit :=
  clear_canvas ;;
  modify (set_trial_stage (Some 0)) ;;
  build_keys.

(** *** [ITI] (lines 568-638) *)

(** The text of line 606, for an interval of [d] ms. *)
Definition ITI_text (d : Z) : string :=
  ("ITI (" ++ Py.str_of_int (Py.int_of_float (inject_Z d / inject_Z 1000))
   ++ " sec.)")%string.

Definition ITI : M unit :=
  clear_canvas ;;
  create_item "bkgrd" 0 0 mainscreen_width mainscreen_height ;;
  tag_bind "bkgrd" (HWriteData "ITI_peck") ;;
  c <- gets current_trial_counter ;;
  tps <- attr trials_per_session ;;
  if c =? tps then exit_program
  else
    (* lines 602-606: the on-screen text of a test session *)
    subj <- gets subject_ID ;;
    (if String.eqb subj "TEST" then
       d <- gets ITI_duration ;;
       create_text 400 300 (ITI_text d)
     else ret tt) ;;
    change_hopper_state false ;;
    t <- time ;;
    modify (set_trial_start (Some t)) ;;
    modify (set_choice None) ;;
    modify (set_rejected_trial false) ;;
    write_comp_data false ;;
    ph <- gets training_phase ;;
    (if ph =? 0 then
       fr <- attr preTraining_FR ;; modify (set_choice_key_FR (Some fr))
     else modify (set_choice_key_FR (Some 1))) ;;
    order <- attr trial_order_list ;;
    c <- gets current_trial_counter ;;
    ttype <- need IndexError (list_get order c) ;;
    modify (set_trial_type (Some ttype)) ;;
    c <- gets current_trial_counter ;;
    modify (set_current_trial_counter (c + 1)) ;;
    d <- gets ITI_duration ;;
    after d CbInitialLinksStage.

(** *** [provide_food] (lines 962-982) *)

(** The text of line 977, for a hopper time of [d] ms. *)
Definition food_text (d : Z) : string :=
  ("Food accessible ("
   ++ Py.str_of_int (Py.int_of_float (inject_Z d / inject_Z 1000))
   ++ " s)")%string.

Definition provide_food : M unit :=
  clear_canvas ;;
  write_data None "reinforcer_provided" ;;
  r <- gets reinforcers_provided ;;
  modify (set_reinforcers_provided (r + 1)) ;;
  (* lines 973-977: the on-screen text of a test session *)
  subj <- gets subject_ID ;;
  (if String.eqb subj "TEST" then
     d <- attr hopper_duration ;;
     create_text 400 300 (food_text d)
   else ret tt) ;;
  change_hopper_state true ;;
  d <- attr hopper_duration ;;
  after d CbITI.

(** *** [feedback_stage] (lines 670-736) *)

(** Lines 674-721: whether the trial is reinforced, and the colour of the
    terminal stimulus. *)
Definition resolve_feedback : M (bool * string) :=
  ch <- attr choice ;;
  inf <- attr informative_side ;;
  if String.eqb (Py.split_underscore_0 ch) (Py.lower inf) then
    ttype <- attr trial_type ;;
    if negb (Py.contains "forced" ttype) then
      random_choice <- uniform_0_1 ;;
      p <- gets informative_prob ;;
      if Qle_bool random_choice p then
        c <- attr informative_Splus_color ;; ret (true, c)
      else
        c <- attr informative_Sminus_color ;; ret (false, c)
    else
      l <- attr forced_I_choice_outcome_list ;;
      outcome <- random_choice l ;;
      l' <- need ValueError (Py.list_remove outcome l) ;;
      modify (set_forced_I_choice_outcome_list (Some l')) ;;
      if String.eqb outcome "win" then
        c <- attr informative_Splus_color ;; ret (true, c)
      else
        c <- attr informative_Sminus_color ;; ret (false, c)
  else
    ttype <- attr trial_type ;;
    if negb (Py.contains "forced" ttype) then
      random_choice <- uniform_0_1 ;;
      p <- gets noninformative_prob ;;
      let reinforced := Qle_bool random_choice p in
      random_choice <- uniform_0_1 ;;
      p <- gets informative_prob ;;
      if Qle_bool random_choice p then
        c <- attr noninformative_Splus_color ;; ret (reinforced, c)
      else
        c <- attr noninformative_Sminus_color ;; ret (reinforced, c)
    else
      l <- attr forced_NI_choice_outcome_list ;;
      outcome <- random_choice l ;;
      l' <- need ValueError (Py.list_remove outcome l) ;;
      modify (set_forced_NI_choice_outcome_list (Some l')) ;;
      let reinforced := String.eqb outcome "win" in
      fl <- attr forced_NI_choice_feedback_list ;;
      feedback_color <- random_choice fl ;;
      fl' <- need ValueError (Py.list_remove feedback_color fl) ;;
      modify (set_forced_NI_choice_feedback_list (Some fl')) ;;
      ret (reinforced, feedback_color).

Definition feedback_stage : M unit :=
  clear_canvas ;;
  modify (set_trial_stage (Some 1)) ;;
  rf <- resolve_feedback ;;
  let '(reinforced, feedback_color) := rf in
  (* line 725: the first key of the dictionary that has this colour *)
  d <- attr key_color_dict ;;
  i <- need ValueError (Py.list_index feedback_color (map snd d)) ;;
  k <- need IndexError (nth_error (map fst d) i) ;;
  modify (set_feedback_stimulus (Some k)) ;;
  build_keys ;;
  fd <- gets feedback_duration ;;
  if reinforced then after fd CbProvideFood else after fd CbITI.

(** *** [key_press] (lines 908-955) *)

Definition key_press (event : Z * Z) (keytag : string) : M unit :=
  (if negb (Py.contains "rejection" keytag) then
     write_data (Some event) (keytag ++ "_peck")%string
   else
     ttype <- attr trial_type ;;
     if String.eqb ttype "rejection-informative" then
       write_data (Some event) "rejection-informative_peck"
     else if String.eqb ttype "rejection-noninformative" then
       write_data (Some event) "rejection-noninformative_peck"
     else print "ERROR") ;;
  ph <- gets training_phase ;;
  if ph =? 0 then
    fr <- attr choice_key_FR ;;
    modify (set_choice_key_FR (Some (fr - 1))) ;;
    fr <- attr choice_key_FR ;;
    if fr =? 0 then provide_food else initial_links_stage
  else if ph =? 1 then
    stage <- attr trial_stage ;;
    if stage =? 0 then
      if Py.contains "rejection" keytag then
        rej <- gets rejected_trial ;;
        if negb rej then
          modify (set_rejected_trial true) ;;
          create_item "bkgrd" 100 200 300 400 ;;
          create_item "bkgrd" 500 200 700 400 ;;
          tag_bind "bkgrd" (HWriteData "background_peck") ;;
          fi <- gets rejection_FI_duration ;;
          after fi CbInitialLinksStage
        else ret tt
      else
        modify (set_choice (Some keytag)) ;;
        feedback_stage
    else ret tt
  else ret tt.

(** *** [first_ITI] (lines 400-550) *)

(** Lines 429-435: the subject's row of the settings sheet. The flag tells
    that the loop ended on a [KeyError]. *)
Fixpoint find_settings (settings_list : list (list (string * string)))
  (subject : string) (settings_dict : option (list (string * string)))
  : option (list (string * string)) * bool :=
  match settings_list with
  | [] => (settings_dict, false)
  | entry :: rest =>
      match Py.dict_get "Subject" entry with
      | None => (settings_dict, true)
      | Some name =>
          find_settings rest subject
            (if String.eqb name subject then Some entry else settings_dict)
      end
  end.

(** [settings_dict[column]]: the string ["NA"] cannot be indexed by a
    string ([TypeError]); a row without the column gives [KeyError]. *)
Definition settings_get (settings_dict : option (list (string * string)))
  (column : string) : M string :=
  match settings_dict with
  | None => raise TypeError
  | Some d => need KeyError (Py.dict_get column d)
  end.

Definition settings_int (settings_dict : option (list (string * string)))
  (column : string) : M Z :=
  v <- settings_get settings_dict column ;;
  need ValueError (Py.int_of_string v).

Definition is_TypeError (e : exn) : bool :=
  match e with TypeError => true | _ => false end.

(** Lines 439-449. *)
Definition load_settings (settings_dict : option (list (string * string)))
  : M unit :=
  try_except
    (v <- settings_int settings_dict "Hopper Duration (ms)" ;;
     modify (set_hopper_duration (Some v)) ;;
     v <- settings_int settings_dict "Rejection FI Duration (ms)" ;;
     modify (set_rejection_FI_duration v) ;;
     v <- settings_get settings_dict "Informative Side" ;;
     modify (set_informative_side (Some v)) ;;
     v <- settings_get settings_dict "Informative S+" ;;
     modify (set_informative_Splus_color (Some v)) ;;
     v <- settings_get settings_dict "Informative S-" ;;
     modify (set_informative_Sminus_color (Some v)) ;;
     v <- settings_get settings_dict "Non-Informative Side" ;;
     modify (set_noninformative_side (Some v)) ;;
     v <- settings_get settings_dict "Non-Informative S+" ;;
     modify (set_noninformative_Splus_color (Some v)) ;;
     v <- settings_get settings_dict "Non-Informative S-" ;;
     modify (set_noninformative_Sminus_color (Some v)))
    is_TypeError
    (print "Error: Unable to import Settings Sheet for {self.subject_ID}").

(** Lines 451-468. *)
Definition build_key_color_dict : M unit :=
  side <- attr informative_side ;;
  if String.eqb side "Left" then
    isp <- attr informative_Splus_color ;;
    ism <- attr informative_Sminus_color ;;
    nsp <- attr noninformative_Splus_color ;;
    nsm <- attr noninformative_Sminus_color ;;
    modify (set_key_color_dict (Some
      [("left_choice_key", "white"); ("right_choice_key", "white");
       ("ll_feedback_key", isp); ("lr_feedback_key", ism);
       ("rl_feedback_key", nsp); ("rr_feedback_key", nsm);
       ("rejection_key", "darkslategrey")]))
  else if String.eqb side "Right" then
    nsp <- attr noninformative_Splus_color ;;
    nsm <- attr noninformative_Sminus_color ;;
    isp <- attr informative_Splus_color ;;
    ism <- attr informative_Sminus_color ;;
    modify (set_key_color_dict (Some
      [("left_choice_key", "white"); ("right_choice_key", "white");
       ("ll_feedback_key", nsp); ("lr_feedback_key", nsm);
       ("rl_feedback_key", isp); ("rr_feedback_key", ism);
       ("rejection_key", "white")]))
  else ret tt.

(** Lines 505-509: the outcome lists of the forced-choice trials. *)
Definition seed_outcome_lists : M unit :=
  ip <- gets informative_prob ;;
  np <- gets noninformative_prob ;;
  modify (set_forced_I_choice_outcome_list (Some
    (Py.list_mul ["win"] (Py.int_of_float (ip * 20)%Q)
     ++ Py.list_mul ["loss"] (Py.int_of_float ((1 - ip) * 20)%Q)))) ;;
  modify (set_forced_NI_choice_outcome_list (Some
    (Py.list_mul ["win"] (Py.int_of_float (np * 20)%Q)
     ++ Py.list_mul ["loss"] (Py.int_of_float ((1 - np) * 20)%Q)))) ;;
  nsp <- attr noninformative_Splus_color ;;
  nsm <- attr noninformative_Sminus_color ;;
  modify (set_forced_NI_choice_feedback_list (Some
    (Py.list_mul [nsp] (Py.int_of_float (ip * 20)%Q)
     ++ Py.list_mul [nsm] (Py.int_of_float ((1 - ip) * 20)%Q)))).

(** Line 476 or 489: the list that [shuffle] rearranges. *)
Definition trial_option_list (phase : Z) : list string :=
  if phase =? 0 then pretraining_option_list else training_option_list.

(** Lines 516-530: the order of the trials. *)
Definition set_trial_order : M unit :=
  modify (set_trial_order_list (Some [])) ;;
  tps <- attr trials_per_session ;;
  tape <- gets shuffle_tape ;;
  match fill_trial_order tape tps [] with
  | Some (order, rest) =>
      modify (set_trial_order_list (Some order)) ;;
      modify (set_shuffle_tape rest)
  | None =>
      modify (set_shuffle_tape []) ;;
      raise ShuffleTapeEnded
  end.

(** Lines 405-468: the settings sheet and the subject's calibration. *)
Definition read_settings : M unit :=
  modify (set_canvas []) ;;
  modify (set_space_bound false) ;;
  t <- time ;;
  modify (set_start_time (Some t)) ;;
  (* lines 416-425 *)
  csv <- gets settings_csv ;;
  settings_list <-
    match csv with
    | Some lines => ret lines
    | None => print "Error: cannot find settings csv file!" ;; ret []
    end ;;
  (* lines 429-435 *)
  subj <- gets subject_ID ;;
  let '(settings_dict, key_error) := find_settings settings_list subj None in
  (if key_error
   then print ("Error reading settings .csv." ++ Py.newline
               ++ " Make sure it is in comma-dilimeted form.")%string
   else ret tt) ;;
  load_settings settings_dict ;;
  build_key_color_dict.

(** Lines 474-509: the number of trials and, in the main phase, the
    outcome lists. *)
Definition plan_session : M unit :=
  ph <- gets training_phase ;;
  if ph =? 0 then modify (set_trials_per_session (Some 56))
  else if ph =? 1 then
    modify (set_trials_per_session (Some 100)) ;;
    seed_outcome_lists
  else ret tt.

(** Lines 546-550: the timer of the first inter-trial interval. *)
Definition schedule_first_trial : M unit :=
  subj <- gets subject_ID ;;
  if String.eqb subj "TEST" then
    modify (set_ITI_duration (1 * 1000)) ;;
    after 1 CbITI
  else after 30000 CbITI.

Definition first_ITI : M unit :=
  read_settings ;;
  plan_session ;;
  set_trial_order ;;
  schedule_first_trial.

(** *** [__init__] (lines 291-392) and [place_birds_in_box] *)

Record Env : Type := mkEnv {
  env_settings_csv : option (list (list (string * string)));
  env_today : string;
  env_clock : nat -> Q;
  env_uniform_draws : nat -> Q;
  env_choice_draws : nat -> nat;
  env_shuffle_tape : list (list string);
  env_text_bbox : Z -> Z -> string -> Z * Z * Z * Z
}.

Definition header_list : Row :=
  map CStr
    ["SessionTime"; "Xcord"; "Ycord"; "LocationEvent"; "ExperimentalEvent";
     "TrialStage"; "TrialTime"; "TrialFR"; "TrialNum"; "ReinforcersProvided";
     "TrialType"; "RejectedTrial"; "RejectionFIDuration";
     "InformativeProbability"; "NoninformativeProbability"; "Subject";
     "TrainingPhase"; "Date"].

(** The names of the phases in the operator's menu (lines 181-183) and
    the text of the first screen (lines 553-556). *)
Definition training_phase_name_list : list string :=
  ["0: Pre-Training"; "1: Sub-Optimal Choice Training"].

Definition placement_text (subject : string) (phase : Z) : string :=
  ("P037 " ++ Py.newline ++ " Place bird in box, then press space "
   ++ Py.newline ++ " Subject: " ++ subject ++ " " ++ Py.newline
   ++ " Training Phase " ++ nth (Z.to_nat phase) training_phase_name_list "")%string.

(** The object as the constructor leaves it: the operator's entries are
    [subject], [record], [directory], [phase] and the text [fr] of the
    fixed-ratio field. *)
Definition init (env : Env) (subject : string) (record : bool)
  (directory : string) (phase : Z) (fr : string) : MainScreen :=
  {| training_phase := phase;
     subject_ID := subject;
     record_data := record;
     data_folder_directory := directory;
     preTraining_FR :=
       if phase =? 0 then Py.int_of_string fr else Some 1;
     start_time := None;
     trial_start := None;
     ITI_duration := 10 * 1000;
     feedback_duration :=
       if String.eqb subject "TEST" then 5 * 1000 else 15 * 1000;
     current_trial_counter := 0;
     reinforcers_provided := 0;
     rejected_trial := false;
     informative_prob := 2 # 10;
     noninformative_prob := 5 # 10;
     rejection_FI_duration := 1;
     session_data_frame := [header_list];
     hopper_duration := None;
     informative_side := None;
     informative_Splus_color := None;
     informative_Sminus_color := None;
     noninformative_side := None;
     noninformative_Splus_color := None;
     noninformative_Sminus_color := None;
     key_color_dict := None;
     trials_per_session := None;
     forced_I_choice_outcome_list := None;
     forced_NI_choice_outcome_list := None;
     forced_NI_choice_feedback_list := None;
     trial_order_list := None;
     choice := None;
     choice_key_FR := None;
     trial_type := None;
     trial_stage := None;
     feedback_stimulus := None;
     canvas :=
       [text_item (env_text_bbox env 350 300 (placement_text subject phase))];
     tag_binds := [];
     space_bound := true;
     timers := [];
     destroyed := false;
     hopper_on := false;
     stdout :=
       if phase =? 0 then
         match Py.int_of_string fr with
         | Some _ => []
         | None => [(Py.newline ++ "ERROR: Incorrect Manual FR Input")%string]
         end
       else [];
     tracebacks := [];
     files := [];
     settings_csv := env_settings_csv env;
     today := env_today env;
     clock := env_clock env;
     clock_reads := 0;
     uniform_draws := env_uniform_draws env;
     uniform_reads := 0;
     choice_draws := env_choice_draws env;
     choice_reads := 0;
     shuffle_tape := env_shuffle_tape env;
     text_bbox := env_text_bbox env |}.

(** ** The event loop *)

Inductive Event : Type :=
| Click (x y : Z)         (* <Button-1> at a point of the canvas *)
| TimerFires (i : nat)    (* the i-th pending [after] timer is due *)
| SpaceKey
| EscapeKey.

Definition run_callback (cb : Callback) : M unit :=
  match cb with
  | CbITI => ITI
  | CbInitialLinksStage => initial_links_stage
  | CbProvideFood => provide_food
  end.

Definition run_handler (h : Handler) (x y : Z) : M unit :=
  match h with
  | HWriteData event_type => write_data (Some (x, y)) event_type
  | HKeyPress key_string => key_press (x, y) key_string
  end.

Fixpoint remove_nth {A} (i : nat) (l : list A) : list A :=
  match l, i with
  | [], _ => []
  | _ :: l', O => l'
  | a :: l', S i' => a :: remove_nth i' l'
  end.

Definition dispatch (e : Event) : M unit :=
  match e with
  | Click x y =>
      cv <- gets canvas ;;
      match item_at x y cv with
      | Some it =>
          binds <- gets tag_binds ;;
          match Py.dict_get (item_tag it) binds with
          | Some h => run_handler h x y
          | None => ret tt
          end
      | None => ret tt
      end
  | TimerFires i =>
      ts <- gets timers ;;
      match nth_error ts i with
      | Some (_, cb) =>
          modify (set_timers (remove_nth i ts)) ;;
          run_callback cb
      | None => ret tt
      end
  | SpaceKey =>
      b <- gets space_bound ;;
      if b then first_ITI else ret tt
  | EscapeKey => exit_program
  end.

(** One turn of Tk's main loop. An exception raised by a callback is
    reported on the terminal and the loop goes on; nothing is delivered
    to a destroyed window. *)
Definition step (e : Event) (s : MainScreen) : MainScreen :=
  if destroyed s then s
  else
    match dispatch e s with
    | (Ok _, s') => s'
    | (Raise ex, s') => set_tracebacks (tracebacks s' ++ [ex]) s'
    end.

Definition run (events : list Event) (s : MainScreen) : MainScreen :=
  fold_left (fun s e => step e s) events s.

(** ** Example sessions *)

Definition settings_row (subject side other_side : string)
  : list (string * string) :=
  [("Subject", subject); ("Hopper Duration (ms)", "3000");
   ("Rejection FI Duration (ms)", "1");
   ("Informative Side", side); ("Informative S+", "red");
   ("Informative S-", "green");
   ("Non-Informative Side", other_side); ("Non-Informative S+", "yellow");
   ("Non-Informative S-", "blue")].

Definition example_settings : list (list (string * string)) :=
  [settings_row "Zappa" "Right" "Left"; settings_row "TEST" "Left" "Right"].

(** The box of a text: ten pixels a character, thirty pixels high. *)
Definition example_text_bbox (x y : Z) (text : string) : Z * Z * Z * Z :=
  let w := 5 * Z.of_nat (String.length text) in
  (x - w, y - 15, x + w, y + 15).

Definition example_env (tape : list (list string)) : Env :=
  {| env_settings_csv := Some example_settings;
     env_today := "2023-06-09";
     env_clock := fun n => inject_Z (Z.of_nat n);
     env_uniform_draws := fun n => if Nat.even n then 1 # 10 else 9 # 10;
     env_choice_draws := fun n => n;
     env_shuffle_tape := tape;
     env_text_bbox := example_text_bbox |}.

(** Three arrangements of the main phase's 50 trial types. The first has
    no two neighbours alike; the second ends with three free-choice
    trials; the third begins with one. *)
Definition block_mixed : list string :=
  Py.list_mul ["forced_choice-informative"; "free_choice";
               "forced_choice-noninformative"; "rejection-informative";
               "rejection-noninformative"] 10.

Definition block_ending_free : list string :=
  Py.list_mul ["forced_choice-informative"; "forced_choice-noninformative";
               "rejection-informative"; "rejection-noninformative";
               "free_choice"] 7
  ++ Py.list_mul ["forced_choice-informative"; "forced_choice-noninformative";
                  "rejection-informative"; "rejection-noninformative"] 3
  ++ Py.list_mul ["free_choice"] 3.

Definition block_starting_free : list string :=
  Py.list_mul ["free_choice"; "forced_choice-informative";
               "forced_choice-noninformative"; "rejection-informative";
               "rejection-noninformative"] 10.

(** An arrangement of the 56 pre-training trials that begins with four
    rejection-key trials. *)
Definition block_leading_run : list string :=
  Py.list_mul ["rejection_key"] 4
  ++ Py.list_mul ["left_choice_key"; "right_choice_key"; "ll_feedback_key";
                  "lr_feedback_key"; "rl_feedback_key"; "rr_feedback_key";
                  "rejection_key"] 4
  ++ Py.list_mul ["left_choice_key"; "right_choice_key"; "ll_feedback_key";
                  "lr_feedback_key"; "rl_feedback_key"; "rr_feedback_key"] 4.

(** A main-phase session of subject Zappa, and a pre-training one. *)
Definition main_session (tape : list (list string)) : MainScreen :=
  init (example_env tape) "Zappa" true "Data" 1 "1".

Definition pretraining_session (fr : string) (tape : list (list string))
  : MainScreen :=
  init (example_env tape) "Zappa" true "Data" 0 fr.

(** Decides [Permutation] on lists of tags. *)
Fixpoint perm_check (l1 l2 : list string) : bool :=
  match l1 with
  | [] => match l2 with [] => true | _ => false end
  | x :: l1' =>
      match Py.list_remove x l2 with
      | Some l2' => perm_check l1' l2'
      | None => false
      end
  end.

(** ** Vocabulary of the properties *)

(** Columns of a row of the data frame. *)
Definition row_location_event (r : Row) : option string :=
  match nth_error r 3 with Some (CStr e) => Some e | _ => None end.

Definition row_experimental_event (r : Row) : option string :=
  match nth_error r 4 with Some (CStr e) => Some e | _ => None end.


Definition row_trial_type (r : Row) : option string :=
  match nth_error r 10 with Some (CStr t) => Some t | _ => None end.

(** The row [write_data] appends, given the experimental reading [exp]
    of the event and the two clock readings that enter it. *)
Definition data_row (s : MainScreen) (event : option (Z * Z))
  (outcome exp : string) (now t : Q) : option Row :=
  match start_time s, trial_stage s, trial_start s, choice_key_FR s,
        trial_type s with
  | Some st, Some stage, Some ts, Some fr, Some ttype =>
      Some
        [CTimedelta (now - st)%Q;
         match event with Some (x, _) => CInt x | None => CStr "NA" end;
         match event with Some (_, y) => CInt y | None => CStr "NA" end;
         CStr outcome; CStr exp; CInt stage;
         CFloat (Py.round_5
                   (t - ts - inject_Z (ITI_duration s) / inject_Z 1000)%Q);
         CInt fr; CInt (current_trial_counter s);
         CInt (reinforcers_provided s); CStr ttype; CBool (rejected_trial s);
         CInt (rejection_FI_duration s); CFloat (informative_prob s);
         CFloat (noninformative_prob s); CStr (subject_ID s);
         CInt (training_phase s); CDate (today s)]
  | _, _, _, _, _ => None
  end.

(** The file store read back: what [open(path)] would find. *)
Fixpoint read_file (path : FileName) (fs : list (FileName * list Row))
  : option (list Row) :=
  match fs with
  | [] => None
  | (p, rows) :: fs' => if file_name_eqb p path then Some rows else read_file path fs'
  end.

(** The path [write_comp_data] writes to. *)
Definition data_file (s : MainScreen) : option FileName :=
  match start_time s with
  | Some st =>
      Some (mkFileName (data_folder_directory s) (subject_ID s) st
              (training_phase s))
  | None => None
  end.

(** The main-phase session of Zappa, with a wall clock of its own. *)
Definition main_session_at (clock : nat -> Q) (tape : list (list string))
  : MainScreen :=
  init {| env_settings_csv := Some example_settings;
          env_today := "2023-06-09";
          env_clock := clock;
          env_uniform_draws := fun n => if Nat.even n then 1 # 10 else 9 # 10;
          env_choice_draws := fun n => n;
          env_shuffle_tape := tape;
          env_text_bbox := example_text_bbox |}
       "Zappa" true "Data" 1 "1".

(** Clock readings of a session in which every timer fires when it is
    due: the session starts at 0 s, the first trial at 30 s; the key is
    pecked at 45 s, food comes at 60 s and the second inter-trial
    interval starts at 63 s. Every later reading comes one microsecond
    before that interval's ten seconds have passed. *)
Definition clock_late_peck (n : nat) : Q :=
  nth n (map inject_Z [0; 30; 45; 45; 45; 60; 60; 60; 63])
      (inject_Z 73 - (1 # 1000000))%Q.

(** Zappa's first main-phase trial has been run and the second
    inter-trial interval has begun. *)
Definition in_second_ITI : MainScreen :=
  run [SpaceKey; TimerFires 0; TimerFires 0; Click 600 300;
       TimerFires 0; TimerFires 0]
      (main_session_at clock_late_peck [block_mixed; block_mixed]).

(** Zappa's first pre-training trial, on the rejection key, with the
    operator's fixed ratio [fr]: its key is on the screen. *)
Definition pretraining_first_trial (fr : string) : MainScreen :=
  run [SpaceKey; TimerFires 0; TimerFires 0]
      (pretraining_session fr [pretraining_option_list]).


(** The row that ends the session when it is closed at that point. *)
Definition sentinel_row_in_second_ITI : Row :=
  Eval vm_compute in
    match data_row in_second_ITI None "SessionEnds" "SessionEnds"
            (clock in_second_ITI (S (clock_reads in_second_ITI)))
            (clock in_second_ITI (S (S (clock_reads in_second_ITI)))) with
    | Some row => row
    | None => []
    end.

(** [n] calls of a method in a row, collecting what they return. *)
Fixpoint repeat_m {A} (n : nat) (c : M A) : M (list A) :=
  match n with
  | O => ret []
  | S n' => a <- c ;; l <- repeat_m n' c ;; ret (a :: l)
  end.

(** An arrangement of the main phase that begins with a forced-choice
    trial on the non-informative side. *)
Definition block_mixed_NI : list string :=
  Py.list_mul ["forced_choice-noninformative"; "free_choice";
               "forced_choice-informative"; "rejection-informative";
               "rejection-noninformative"] 10.

(** Zappa's first main-phase trial, with its keys on the screen, and the
    same trial at the moment a peck on [key] has been taken as the
    choice (line 954). *)
Definition first_trial_links (tape : list (list string)) : MainScreen :=
  run [SpaceKey; TimerFires 0; TimerFires 0] (main_session tape).

Definition first_trial_chosen (tape : list (list string)) (key : string)
  : MainScreen :=
  set_choice (Some key) (first_trial_links tape).

(** The outcome lists of the forced-choice trials and the colours they
    are built from. *)
Definition outcome_lists (s : MainScreen) :=
  (forced_I_choice_outcome_list s, forced_NI_choice_outcome_list s,
   forced_NI_choice_feedback_list s,
   noninformative_Splus_color s, noninformative_Sminus_color s).


(** ** Calibrated states *)

Definition other_side (side : string) : string :=
  if String.eqb side "Left" then "Right" else "Left".

Definition choice_key_of (side : string) : string :=
  (Py.lower side ++ "_choice_key")%string.

(** The dictionary of lines 451-468 for a subject whose informative side
    is [side]. *)
Definition color_dict (side isp ism nsp nsm : string)
  : list (string * string) :=
  if String.eqb side "Left" then
    [("left_choice_key", "white"); ("right_choice_key", "white");
     ("ll_feedback_key", isp); ("lr_feedback_key", ism);
     ("rl_feedback_key", nsp); ("rr_feedback_key", nsm);
     ("rejection_key", "darkslategrey")]
  else
    [("left_choice_key", "white"); ("right_choice_key", "white");
     ("ll_feedback_key", nsp); ("lr_feedback_key", nsm);
     ("rl_feedback_key", isp); ("rr_feedback_key", ism);
     ("rejection_key", "white")].

(** The subject's settings are in place: the informative option is on
    [side], Left or Right, the other option on the other side, and the
    colour dictionary is the one built from the four colours. *)
Definition calibrated (s : MainScreen) (side isp ism nsp nsm : string) : Prop :=
  (side = "Left" \/ side = "Right") /\
  informative_side s = Some side /\
  noninformative_side s = Some (other_side side) /\
  informative_Splus_color s = Some isp /\
  informative_Sminus_color s = Some ism /\
  noninformative_Splus_color s = Some nsp /\
  noninformative_Sminus_color s = Some nsm /\
  key_color_dict s = Some (color_dict side isp ism nsp nsm).

(** The keys on the screen: the tags of the canvas items other than the
    background, oldest first, each once. *)
Fixpoint dedup (l : list string) : list string :=
  match l with
  | [] => []
  | x :: l' => if Py.list_in x l' then dedup l' else x :: dedup l'
  end.

Definition shown_keys (s : MainScreen) : list string :=
  rev (dedup (filter (fun t => negb (String.eqb t "bkgrd"))
                (map item_tag (canvas s)))).

(** The keys a trial of type [ttype] starts with, and the key left after
    a rejection. *)
Definition initial_keys (side ttype : string) : list string :=
  if String.eqb ttype "forced_choice-informative" then [choice_key_of side]
  else if String.eqb ttype "forced_choice-noninformative"
  then [choice_key_of (other_side side)]
  else if String.eqb ttype "free_choice"
  then [choice_key_of side; choice_key_of (other_side side)]
  else if String.eqb ttype "rejection-informative"
  then [choice_key_of side; "rejection_key"]
  else if String.eqb ttype "rejection-noninformative"
  then [choice_key_of (other_side side); "rejection_key"]
  else [].

Definition keys_after_rejection (side ttype : string) : list string :=
  if String.eqb ttype "rejection-informative"
  then [choice_key_of (other_side side)]
  else if String.eqb ttype "rejection-noninformative"
  then [choice_key_of side]
  else [].

(** ** What a click can reach *)

(** The box of [a] lies within the box of [b]. *)
Definition box_within (a b : Item) : bool :=
  (item_x1 b <=? item_x1 a) && (item_x2 a <=? item_x2 b)
  && (item_y1 b <=? item_y1 a) && (item_y2 a <=? item_y2 b).

(** The items of a canvas (newest first) that are not wholly under a
    newer item; [above] holds the newer items already passed. *)
Fixpoint uncovered_items (above cv : list Item) : list Item :=
  match cv with
  | [] => []
  | it :: cv' =>
      (if existsb (box_within it) above then [] else [it])
      ++ uncovered_items (above ++ [it]) cv'
  end.

(** The keys a click can reach: the tags, other than the background's,
    of the items not wholly covered. *)
Definition clickable_keys (s : MainScreen) : list string :=
  rev (dedup (filter (fun t => negb (String.eqb t "bkgrd"))
                (map item_tag (uncovered_items [] (canvas s))))).

(** The attributes a row of the data frame needs are set. *)
Definition in_trial (s : MainScreen) : Prop :=
  start_time s <> None /\ trial_start s <> None /\ choice_key_FR s <> None.

(** The state apart from the log: the data frame, the count of clock
    readings and the terminal are blanked. *)
Definition outside_log (s : MainScreen) : MainScreen :=
  set_session_data_frame [] (set_clock_reads 0 (set_stdout [] s)).

(** An arrangement of the main phase that begins with a rejection trial
    on the informative option. *)
Definition block_rejection_first : list string :=
  Py.list_mul ["rejection-informative"; "free_choice";
               "forced_choice-informative"; "forced_choice-noninformative";
               "rejection-noninformative"] 10.

(** Zappa's first main-phase trial during its inter-trial interval: the
    type of the trial is set, its keys are not yet on the screen. *)
Definition first_trial_pending (tape : list (list string)) : MainScreen :=
  run [SpaceKey; TimerFires 0] (main_session tape).

(** ** Pre-training trials *)

Definition row_reinforcers (r : Row) : option Z :=
  match nth_error r 9 with Some (CInt n) => Some n | _ => None end.

(** The keys that show a stimulus: all but the rejection key. *)
Definition stimulus_keys : list string :=
  ["left_choice_key"; "right_choice_key"; "ll_feedback_key";
   "lr_feedback_key"; "rl_feedback_key"; "rr_feedback_key"].

(** The screen while the hopper is up: blank, but for the text of a
    test session. *)
Definition food_canvas (s : MainScreen) (d : Z) : list Item :=
  if String.eqb (subject_ID s) "TEST"
  then [text_item (text_bbox s 400 300 (food_text d))]
  else [].

(** The state after [write_data] has appended [row]. *)
Definition logged (row : Row) (s : MainScreen) : MainScreen :=
  set_session_data_frame (session_data_frame s ++ [row])
    (set_clock_reads (3 + clock_reads s) s).

(** A pre-training trial on the key [tag] is running in a calibrated
    session: the key is on the screen (stage 0), the session began at
    [st] and the trial at [ts], and the hopper stays up for [d] ms. *)
Definition pretraining_trial (s : MainScreen)
  (tag side isp ism nsp nsm : string) (st ts : Q) (d : Z) : Prop :=
  training_phase s = 0 /\ destroyed s = false /\
  calibrated s side isp ism nsp nsm /\
  trial_type s = Some tag /\ In tag pretraining_tags /\
  start_time s = Some st /\ trial_start s = Some ts /\
  trial_stage s = Some 0 /\ hopper_duration s = Some d.

(** Pecks on the key [keytag], one after the other. *)
Definition pecks (events : list (Z * Z)) (keytag : string) : M unit :=
  for_each events (fun event => key_press event keytag).

(** An arrangement of the pre-training trials that begins with the left
    choice key, and Zappa's first trial of such a session with the
    operator's fixed ratio [fr]. *)
Definition block_left_first : list string :=
  Py.list_mul ["left_choice_key"; "right_choice_key"; "ll_feedback_key";
               "lr_feedback_key"; "rl_feedback_key"; "rr_feedback_key";
               "rejection_key"] 8.

Definition pretraining_left_trial (fr : string) : MainScreen :=
  run [SpaceKey; TimerFires 0; TimerFires 0]
      (pretraining_session fr [block_left_first]).

(** The same trial in a test session (subject TEST). *)
Definition test_left_trial (fr : string) : MainScreen :=
  run [SpaceKey; TimerFires 0; TimerFires 0]
      (init (example_env [block_left_first]) "TEST" true "Data" 0 fr).


(** ** Before the first trial *)

(** No trial has shown its keys yet: [trial_stage] is still unset, the
    space bar is unbound, and the screen holds nothing but background,
    whose pecks go to [write_data]. *)
Definition awaiting_first_trial (s : MainScreen) : Prop :=
  trial_stage s = None /\ space_bound s = false /\
  forallb (fun it => String.eqb (item_tag it) "bkgrd") (canvas s) = true /\
  match Py.dict_get "bkgrd" (tag_binds s) with
  | Some (HKeyPress _) => false
  | _ => true
  end = true.

Definition is_timer (e : Event) : bool :=
  match e with TimerFires _ => true | _ => false end.

(** ** Inter-trial intervals *)

(** The trial time of a row written when the clock reads [now], in a
    trial whose start was stamped at [ts] (line 1113). *)
Definition trial_time (s : MainScreen) (ts now : Q) : Q :=
  Py.round_5 (now - ts - inject_Z (ITI_duration s) / inject_Z 1000).

(** An inter-trial interval stamped at [ts] is running: the window is
    there, pecks on the background are bound to "ITI_peck" (lines
    579-583), the screen holds nothing but the background and untagged
    text, and the timer that ends the interval (line 633) is pending. *)
Definition during_ITI (s : MainScreen) (ts : Q) : Prop :=
  destroyed s = false /\ trial_start s = Some ts /\
  Py.dict_get "bkgrd" (tag_binds s) = Some (HWriteData "ITI_peck") /\
  Py.dict_get "" (tag_binds s) = None /\
  forallb (fun it => String.eqb (item_tag it) "bkgrd"
                     || String.eqb (item_tag it) "") (canvas s) = true /\
  In (ITI_duration s, CbInitialLinksStage) (timers s).

(** The events that can write a row during an interval: a peck and the
    Escape key. *)
Definition writes_row (e : Event) : bool :=
  match e with Click _ _ | EscapeKey => true | _ => false end.

(** The state on which the second inter-trial interval of
    [in_second_ITI] is entered: the hopper's timer has just fired. *)
Definition entering_second_ITI : MainScreen :=
  set_timers []
    (run [SpaceKey; TimerFires 0; TimerFires 0; Click 600 300; TimerFires 0]
       (main_session_at clock_late_peck [block_mixed; block_mixed])).

(** Clock readings of the same session, in which the second inter-trial
    interval is stamped at 63 s; writing the data file (line 618) then
    takes four milliseconds, so that the timer of the interval is set
    at 63.004 s and is due at 73.004 s. Every later reading comes at
    73.002 s, two milliseconds before the timer is due. *)
Definition clock_tail_peck (n : nat) : Q :=
  nth n (map inject_Z [0; 30; 45; 45; 45; 60; 60; 60; 63])
      (inject_Z 73 + (2 # 1000))%Q.

Definition in_second_ITI_tail : MainScreen :=
  run [SpaceKey; TimerFires 0; TimerFires 0; Click 600 300;
       TimerFires 0; TimerFires 0]
      (main_session_at clock_tail_peck [block_mixed; block_mixed]).
(* ================================================================== *)
(** * Properties *)

Local Open Scope py_scope.

(** ** Reasoning about methods *)

Lemma bind_Ok {A B} (c : M A) (k : A -> M B) s b s' :
  bind c k s = (Ok b, s') ->
  exists a s1, c s = (Ok a, s1) /\ k a s1 = (Ok b, s').
Proof.
  unfold bind. destruct (c s) as [[a|e] s1]; [eauto|discriminate].
Qed.

Lemma bind_run {A B} (c : M A) (k : A -> M B) s a s1 :
  c s = (Ok a, s1) -> bind c k s = k a s1.
Proof. unfold bind. now intros ->. Qed.

Lemma bind_raise {A B} (c : M A) (k : A -> M B) s e s1 :
  c s = (Raise e, s1) -> bind c k s = (Raise e, s1).
Proof. unfold bind. now intros ->. Qed.

(** A method leaves an observation [f] of the state as it was, whether
    it returns or raises. *)
Definition preserves {A B} (f : MainScreen -> B) (c : M A) : Prop :=
  forall s, f (snd (c s)) = f s.

Section Preserves.
Context {B : Type} (f : MainScreen -> B).

Lemma preserves_ret {A} (a : A) : preserves f (ret a).
Proof. now intros s. Qed.

Lemma preserves_raise {A} e : preserves f (@raise A e).
Proof. now intros s. Qed.

Lemma preserves_gets {A} (g : MainScreen -> A) : preserves f (gets g).
Proof. now intros s. Qed.

Lemma preserves_attr {A} (g : MainScreen -> option A) : preserves f (attr g).
Proof. intros s. unfold attr. now destruct (g s). Qed.

Lemma preserves_need {A} e (o : option A) : preserves f (need e o).
Proof. intros s. now destruct o. Qed.

Lemma preserves_modify g : (forall s, f (g s) = f s) -> preserves f (modify g).
Proof. intros H s. apply H. Qed.

Lemma preserves_bind {A C} (c : M A) (k : A -> M C) :
  preserves f c -> (forall a, preserves f (k a)) -> preserves f (bind c k).
Proof.
  intros Hc Hk s. unfold bind. specialize (Hc s).
  destruct (c s) as [[a|e] s1]; simpl in *; [|assumption].
  now rewrite Hk.
Qed.

Lemma preserves_try_except {A} (c h : M A) catches :
  preserves f c -> preserves f h -> preserves f (try_except c catches h).
Proof.
  intros Hc Hh s. unfold try_except. specialize (Hc s).
  destruct (c s) as [[a|e] s1]; simpl in *; [assumption|].
  destruct (catches e); simpl; [|assumption]. now rewrite Hh.
Qed.

Lemma preserves_for_each {A} (l : list A) (body : A -> M unit) :
  (forall a, preserves f (body a)) -> preserves f (for_each l body).
Proof.
  intros Hb. induction l as [|a l IH]; simpl.
  - apply preserves_ret.
  - apply preserves_bind; [apply Hb | intros _; exact IH].
Qed.

Lemma preserves_time :
  (forall n s, f (set_clock_reads n s) = f s) -> preserves f time.
Proof. intros H s. apply H. Qed.

Lemma preserves_uniform_0_1 :
  (forall n s, f (set_uniform_reads n s) = f s) -> preserves f uniform_0_1.
Proof. intros H s. apply H. Qed.

Lemma preserves_random_choice l :
  (forall n s, f (set_choice_reads n s) = f s) -> preserves f (random_choice l).
Proof.
  intros H s. destruct l as [|x l]; [reflexivity|]. unfold random_choice.
  destruct (Py.choice _ _); [apply H | reflexivity].
Qed.

End Preserves.

(** Breaks a method down to the assignments it makes. *)
Ltac preserves_step :=
  lazymatch goal with
  | |- preserves _ (bind _ _) => apply preserves_bind; [|intro]
  | |- preserves _ (ret _) => apply preserves_ret
  | |- preserves _ (raise _) => apply preserves_raise
  | |- preserves _ (gets _) => apply preserves_gets
  | |- preserves _ (attr _) => apply preserves_attr
  | |- preserves _ (need _ _) => apply preserves_need
  | |- preserves _ (modify _) => apply preserves_modify; intro; reflexivity
  | |- preserves _ time => apply preserves_time; intros; reflexivity
  | |- preserves _ uniform_0_1 =>
      apply preserves_uniform_0_1; intros; reflexivity
  | |- preserves _ (random_choice _) =>
      apply preserves_random_choice; intros; reflexivity
  | |- preserves _ (try_except _ _ _) => apply preserves_try_except
  | |- preserves _ (for_each _ _) => apply preserves_for_each; intro
  | |- preserves _ (if ?b then _ else _) => destruct b
  | |- preserves _ (match ?x with _ => _ end) => destruct x
  | |- preserves _ (let '(_, _) := ?x in _) => destruct x
  end.

Ltac preserves_unfold :=
  lazymatch goal with
  | |- preserves _ ?c =>
      let h := (let rec head t := lazymatch t with ?g _ => head g | _ => t end
                in head c) in
      unfold h
  end.

Ltac solve_preserves := repeat first [preserves_step | preserves_unfold].

(** *** Inverting a run that returned *)

Lemma attr_Ok {A} (f : MainScreen -> option A) s a s' :
  attr f s = (Ok a, s') -> f s = Some a /\ s' = s.
Proof. unfold attr. destruct (f s); [intros [= <- <-]; auto | discriminate]. Qed.

Lemma gets_Ok {A} (f : MainScreen -> A) s a s' :
  gets f s = (Ok a, s') -> a = f s /\ s' = s.
Proof. intros [= <- <-]. auto. Qed.

Lemma need_Ok {A} e (o : option A) s a s' :
  need e o s = (Ok a, s') -> o = Some a /\ s' = s.
Proof. destruct o; [intros [= <- <-]; auto | discriminate]. Qed.

Lemma ret_Ok {A} (x : A) s a s' : ret x s = (Ok a, s') -> a = x /\ s' = s.
Proof. intros [= <- <-]. auto. Qed.

Lemma modify_Ok g s a s' : modify g s = (Ok a, s') -> s' = g s.
Proof. intros [= H]. now symmetry. Qed.

Lemma time_Ok s a s' :
  time s = (Ok a, s') ->
  a = clock s (clock_reads s) /\ s' = set_clock_reads (S (clock_reads s)) s.
Proof. intros [= <- <-]. auto. Qed.

Ltac inv_step H :=
  lazymatch type of H with
  | bind _ _ _ = (Ok _, _) =>
      let a := fresh "a" in let s1 := fresh "s" in let H1 := fresh "H" in
      apply bind_Ok in H; destruct H as (a & s1 & H1 & H);
      inv_step H1
  | attr _ _ = (Ok _, _) =>
      let E := fresh "E" in apply attr_Ok in H; destruct H as [E ->]
  | gets _ _ = (Ok _, _) =>
      let E := fresh "E" in
      apply gets_Ok in H; destruct H as [E ->]; try subst
  | need _ _ _ = (Ok _, _) =>
      let E := fresh "E" in apply need_Ok in H; destruct H as [E ->]
  | ret _ _ = (Ok _, _) =>
      let E := fresh "E" in
      apply ret_Ok in H; destruct H as [E ->]; try (injection E as E); try subst
  | modify _ _ = (Ok _, _) => apply modify_Ok in H; try subst
  | time _ = (Ok _, _) =>
      let E := fresh "E" in
      apply time_Ok in H; destruct H as [E ->]; try subst
  | raise _ _ = (Ok _, _) => discriminate H
  | _ => idtac
  end.
(** ** The sequencer *)

Lemma approval_loop_false fuel l c : approval_loop fuel l c false = false.
Proof.
  destruct fuel; simpl; [reflexivity|].
  now rewrite andb_false_r.
Qed.

Lemma approval_loop_true fuel : forall l c,
  (List.length l <= c + fuel)%nat ->
  approval_loop fuel l c true = true <->
  (forall i, (c <= i < List.length l)%nat -> (3 < i)%nat ->
             same_as_three_before l i = false).
Proof.
  induction fuel as [|fuel IH]; intros l c Hlen; simpl.
  - split; [intros _ i Hi; lia | reflexivity].
  - destruct (Nat.ltb_spec c (List.length l)) as [Hc|Hc]; simpl.
    + destruct (Nat.ltb_spec 3 c) as [H3|H3].
      * fold (same_as_three_before l c).
        destruct (same_as_three_before l c) eqn:E.
        -- rewrite approval_loop_false. split; [discriminate|].
           intros H. specialize (H c ltac:(lia) H3). congruence.
        -- rewrite IH by lia. split; intros H i Hi Hi3.
           ++ destruct (Nat.eq_dec i c) as [->|]; [assumption|apply H; lia].
           ++ apply H; lia.
      * rewrite IH by lia. split; intros H i Hi Hi3; apply H; lia.
    + split; [intros _ i Hi; lia | reflexivity].
Qed.

Lemma nth_error_nth_default (l : list string) i a :
  nth_error l i = Some a -> nth i l "" = a.
Proof. intros H. now apply nth_error_nth. Qed.

(** An approved arrangement has no run of four that starts after its
    first entry. *)
Lemma approved_no_run4 l i :
  approved l = true -> (1 <= i)%nat -> ~ run4_at l i.
Proof.
  unfold approved. intros Ha Hi (a & H0 & H1 & H2 & H3).
  rewrite approval_loop_true in Ha by lia.
  assert (Hlen : (i + 3 < List.length l)%nat).
  { apply nth_error_Some. now rewrite H3. }
  specialize (Ha (i + 3)%nat ltac:(lia) ltac:(lia)).
  unfold same_as_three_before in Ha.
  replace (i + 3 - 1)%nat with (i + 2)%nat in Ha by lia.
  replace (i + 3 - 2)%nat with (i + 1)%nat in Ha by lia.
  replace (i + 3 - 3)%nat with i in Ha by lia.
  rewrite (nth_error_nth_default _ _ _ H0), (nth_error_nth_default _ _ _ H1),
    (nth_error_nth_default _ _ _ H2), (nth_error_nth_default _ _ _ H3) in Ha.
  now rewrite String.eqb_refl in Ha.
Qed.

(** The loop's result is the starting order followed by approved
    arrangements of the tape. *)
Lemma fill_trial_order_blocks tape : forall tps acc order rest,
  fill_trial_order tape tps acc = Some (order, rest) ->
  Z.of_nat (List.length order) = tps /\
  exists blocks,
    order = acc ++ List.concat blocks /\
    Forall (fun b => In b tape /\ approved b = true) blocks.
Proof.
  induction tape as [|s tape IH]; intros tps acc order rest; simpl.
  - destruct (Z.eqb_spec (Z.of_nat (List.length acc)) tps); [|discriminate].
    intros [= <- <-]. split; [assumption|].
    exists []. simpl. now rewrite app_nil_r.
  - destruct (Z.eqb_spec (Z.of_nat (List.length acc)) tps).
    + intros [= <- <-]. split; [assumption|].
      exists []. simpl. now rewrite app_nil_r.
    + intros H. apply IH in H. destruct H as (Hlen & blocks & -> & Hb).
      split; [assumption|].
      assert (Hb' : Forall (fun b => In b (s :: tape) /\ approved b = true) blocks).
      { eapply Forall_impl; [|exact Hb]. simpl. intros b [? ?]. auto. }
      destruct (approved s) eqn:E.
      * exists (s :: blocks). simpl. rewrite <- app_assoc. split; [reflexivity|].
        constructor; [simpl; auto | assumption].
      * exists blocks. auto.
Qed.

Lemma shuffles_of_In l tape :
  shuffles_of l tape -> forall b, In b tape -> Permutation l b.
Proof.
  induction 1 as [|l s tape Hp Hs IH]; intros b; simpl; [tauto|].
  intros [<-|Hb]; [assumption|].
  eapply Permutation_trans; [exact Hp | now apply IH].
Qed.

Lemma concat_length_uniform (n : nat) (blocks : list (list string)) :
  Forall (fun b => List.length b = n) blocks ->
  List.length (List.concat blocks) = (List.length blocks * n)%nat.
Proof.
  induction 1 as [|b blocks Hb _ IH]; simpl; [reflexivity|].
  rewrite length_app, IH, Hb. reflexivity.
Qed.

Lemma count_concat_uniform tag (n : nat) (blocks : list (list string)) :
  Forall (fun b => count tag b = n) blocks ->
  count tag (List.concat blocks) = (List.length blocks * n)%nat.
Proof.
  unfold count.
  induction 1 as [|b blocks Hb _ IH]; simpl; [reflexivity|].
  rewrite count_occ_app, IH, Hb. reflexivity.
Qed.

Lemma Permutation_count l b tag : Permutation l b -> count tag b = count tag l.
Proof.
  intros H. unfold count. symmetry.
  now apply (proj1 (Permutation_count_occ string_dec l b)).
Qed.

(** With arrangements that permute [opts], the result is a whole number
    of approved blocks, each a permutation of [opts]. *)
Lemma fill_trial_order_perm opts tape tps order rest :
  shuffles_of opts tape ->
  fill_trial_order tape tps [] = Some (order, rest) ->
  exists blocks,
    order = List.concat blocks /\
    Z.of_nat (List.length blocks * List.length opts) = tps /\
    Forall (fun b => Permutation opts b /\ approved b = true) blocks.
Proof.
  intros Hs H. apply fill_trial_order_blocks in H.
  destruct H as (Hlen & blocks & -> & Hb). simpl in *.
  assert (Hb' : Forall (fun b => Permutation opts b /\ approved b = true) blocks).
  { eapply Forall_impl; [|exact Hb]. simpl. intros b [Hin ?].
    split; [|assumption]. eapply shuffles_of_In; eassumption. }
  exists blocks. split; [reflexivity|]. split; [|assumption].
  rewrite <- Hlen. f_equal. symmetry. apply concat_length_uniform.
  eapply Forall_impl; [|exact Hb']. simpl. intros b [Hp _].
  symmetry. now apply Permutation_length.
Qed.

(** The loop returns as soon as the tape has offered enough approved
    arrangements: here, when the first [k] arrangements are approved and
    [k] blocks fill the session. *)
Lemma fill_trial_order_returns (n : nat) : forall k tape acc tps,
  (k <= List.length tape)%nat ->
  Forall (fun b => approved b = true /\ List.length b = n) (firstn k tape) ->
  (0 < n)%nat ->
  tps = Z.of_nat (List.length acc + k * n) ->
  fill_trial_order tape tps acc
  = Some (acc ++ List.concat (firstn k tape), skipn k tape).
Proof.
  induction k as [|k IH]; intros tape acc tps Hk Hf Hn ->.
  - simpl. rewrite app_nil_r, Nat.add_0_r.
    destruct tape; simpl; now rewrite Z.eqb_refl.
  - destruct tape as [|s tape]; [simpl in Hk; lia|].
    simpl in Hf. inversion Hf as [|? ? [Ha Hl] Hf']; subst.
    simpl. destruct (Z.eqb_spec (Z.of_nat (List.length acc))
                       (Z.of_nat (List.length acc + (List.length s + k * List.length s)))); [lia|].
    rewrite Ha. rewrite (IH tape (acc ++ s)); try assumption.
    + now rewrite <- app_assoc.
    + simpl in Hk. lia.
    + rewrite length_app. lia.
Qed.

(** ** [first_ITI] and the order of the trials *)

Lemma read_settings_shuffle_tape : preserves shuffle_tape read_settings.
Proof. solve_preserves. Qed.

Lemma read_settings_training_phase : preserves training_phase read_settings.
Proof. solve_preserves. Qed.

Lemma plan_session_shuffle_tape : preserves shuffle_tape plan_session.
Proof. solve_preserves. Qed.

Lemma plan_session_training_phase : preserves training_phase plan_session.
Proof. solve_preserves. Qed.

Lemma schedule_first_trial_order :
  preserves (fun s => (trial_order_list s, trials_per_session s))
    schedule_first_trial.
Proof. solve_preserves. Qed.

Lemma plan_session_trials s s' :
  plan_session s = (Ok tt, s') ->
  (training_phase s = 0 -> trials_per_session s' = Some 56) /\
  (training_phase s = 1 -> trials_per_session s' = Some 100).
Proof.
  unfold plan_session, bind, gets.
  destruct (Z.eqb_spec (training_phase s) 0) as [E0|E0].
  - unfold modify. intros [= <-]. split; [reflexivity | lia].
  - destruct (Z.eqb_spec (training_phase s) 1) as [E1|E1].
    + intros H. split; [lia|]. intros _.
      change (trials_per_session s') with
        (trials_per_session (snd (Ok tt, s'))). rewrite <- H.
      assert (P : preserves trials_per_session seed_outcome_lists)
        by solve_preserves.
      unfold modify. rewrite P. reflexivity.
    + intros _. split; lia.
Qed.

Lemma set_trial_order_spec s s' :
  set_trial_order s = (Ok tt, s') ->
  exists tps order rest,
    trials_per_session s = Some tps /\
    fill_trial_order (shuffle_tape s) tps [] = Some (order, rest) /\
    trial_order_list s' = Some order /\
    trials_per_session s' = Some tps.
Proof.
  unfold set_trial_order, bind, modify, attr, gets. cbn.
  destruct (trials_per_session s) as [tps|] eqn:Et; [|discriminate].
  cbn.
  destruct (fill_trial_order (shuffle_tape s) tps []) as [[order rest]|] eqn:Ef;
    cbn; [|discriminate].
  intros [= <-]. exists tps, order, rest. cbn. auto.
Qed.

(** What [first_ITI] leaves in [trial_order_list] when it returns. *)
Lemma first_ITI_order s s' :
  first_ITI s = (Ok tt, s') ->
  exists tps order rest,
    (training_phase s = 0 -> tps = 56) /\
    (training_phase s = 1 -> tps = 100) /\
    fill_trial_order (shuffle_tape s) tps [] = Some (order, rest) /\
    trial_order_list s' = Some order /\
    trials_per_session s' = Some tps.
Proof.
  unfold first_ITI. intros H.
  apply bind_Ok in H. destruct H as ([] & s1 & H1 & H).
  apply bind_Ok in H. destruct H as ([] & s2 & H2 & H).
  apply bind_Ok in H. destruct H as ([] & s3 & H3 & H4).
  apply set_trial_order_spec in H3.
  destruct H3 as (tps & order & rest & Et & Ef & Eo & Et').
  apply plan_session_trials in H2 as Hp. destruct Hp as [Hp0 Hp1].
  assert (Ephase : training_phase s1 = training_phase s).
  { change s1 with (snd (Ok tt, s1)). rewrite <- H1.
    apply read_settings_training_phase. }
  assert (Etape : shuffle_tape s2 = shuffle_tape s).
  { change s2 with (snd (Ok tt, s2)). rewrite <- H2.
    rewrite plan_session_shuffle_tape.
    change s1 with (snd (Ok tt, s1)). rewrite <- H1.
    apply read_settings_shuffle_tape. }
  pose proof (schedule_first_trial_order s3) as Hs.
  rewrite H4 in Hs. simpl in Hs. injection Hs as Hs1 Hs2.
  exists tps, order, rest. rewrite <- Etape.
  repeat split; try congruence.
  - intros E. rewrite <- Ephase in E. apply Hp0 in E. congruence.
  - intros E. rewrite <- Ephase in E. apply Hp1 in E. congruence.
Qed.
Lemma list_remove_split x l l' :
  Py.list_remove x l = Some l' ->
  exists l1 l2, l = l1 ++ x :: l2 /\ l' = l1 ++ l2 /\ ~ In x l1.
Proof.
  revert l'. induction l as [|y l IH]; intros l'; simpl; [discriminate|].
  destruct (String.eqb_spec y x) as [->|Hne].
  - intros [= <-]. exists [], l. auto.
  - destruct (Py.list_remove x l) as [l0|]; simpl; [|discriminate].
    intros [= <-]. destruct (IH l0 eq_refl) as (l1 & l2 & -> & -> & Hn).
    exists (y :: l1), l2. repeat split; try reflexivity.
    simpl. intros [E|E]; [congruence | tauto].
Qed.

Lemma list_remove_perm x l l' :
  Py.list_remove x l = Some l' -> Permutation l (x :: l').
Proof.
  intros H. destruct (list_remove_split _ _ _ H) as (l1 & l2 & -> & -> & _).
  symmetry. apply Permutation_middle.
Qed.

Lemma perm_check_sound l1 : forall l2,
  perm_check l1 l2 = true -> Permutation l1 l2.
Proof.
  induction l1 as [|x l1 IH]; intros l2; simpl.
  - destruct l2; [constructor | discriminate].
  - destruct (Py.list_remove x l2) as [l2'|] eqn:E; [|discriminate].
    intros H. apply IH in H. apply list_remove_perm in E.
    symmetry. eapply Permutation_trans; [exact E|]. now constructor.
Qed.

(** An approved arrangement whose first four entries are not all equal
    has no run of four at all. *)
Lemma approved_no_run4_all l i :
  approved l = true -> same_as_three_before l 3 = false -> ~ run4_at l i.
Proof.
  intros Ha H3. destruct i as [|i]; [|apply approved_no_run4; [assumption|lia]].
  intros (a & H0 & H1 & H2 & H4).
  unfold same_as_three_before in H3.
  change (3 - 1)%nat with (0 + 2)%nat in H3.
  change (3 - 2)%nat with (0 + 1)%nat in H3.
  change (3 - 3)%nat with 0%nat in H3.
  change 3%nat with (0 + 3)%nat in H3.
  rewrite (nth_error_nth_default _ _ _ H0), (nth_error_nth_default _ _ _ H1),
    (nth_error_nth_default _ _ _ H2), (nth_error_nth_default _ _ _ H4) in H3.
  now rewrite String.eqb_refl in H3.
Qed.

(** The first window escapes the test of line 523: an arrangement that
    begins with four equal tags is approved. *)
Example approved_leading_run :
  Permutation pretraining_option_list block_leading_run
  /\ approved block_leading_run = true
  /\ run4_at block_leading_run 0.
Proof.
  split; [apply perm_check_sound; vm_compute; reflexivity|].
  split; [vm_compute; reflexivity|].
  exists "rejection_key". repeat split.
Qed.

(** C1, as stated, fails on a main-phase session: both blocks are
    approved and free of runs of four, yet entries 47 to 50 of the
    returned order are all free-choice trials. *)
Lemma trial_order_run_across_blocks :
  shuffles_of (trial_option_list 1) [block_ending_free; block_starting_free]
  /\ (forall i, ~ run4_at block_ending_free i)
  /\ exists s' order,
       first_ITI (main_session [block_ending_free; block_starting_free])
       = (Ok tt, s')
       /\ trial_order_list s' = Some order
       /\ run4_at order 47.
Proof.
  split.
  { repeat constructor; apply perm_check_sound; vm_compute; reflexivity. }
  split.
  { intros i. apply approved_no_run4_all; vm_compute; reflexivity. }
  exists (snd (first_ITI (main_session [block_ending_free; block_starting_free]))).
  exists (block_ending_free ++ block_starting_free).
  split; [vm_compute; reflexivity|].
  split; [vm_compute; reflexivity|].
  exists "free_choice". repeat split.
Qed.
Lemma first_ITI_blocks s s' :
  (training_phase s = 0 \/ training_phase s = 1) ->
  shuffles_of (trial_option_list (training_phase s)) (shuffle_tape s) ->
  first_ITI s = (Ok tt, s') ->
  exists blocks,
    trial_order_list s' = Some (List.concat blocks) /\
    trials_per_session s' = Some (if training_phase s =? 0 then 56 else 100) /\
    List.length blocks = (if training_phase s =? 0 then 1%nat else 2%nat) /\
    Forall (fun b => Permutation (trial_option_list (training_phase s)) b
                     /\ approved b = true) blocks.
Proof.
  intros Hph Hs H. apply first_ITI_order in H.
  destruct H as (tps & order & rest & H0 & H1 & Hf & Ho & Ht).
  destruct (fill_trial_order_perm _ _ _ _ _ Hs Hf) as (blocks & -> & Hlen & Hb).
  exists blocks. split; [assumption|].
  destruct Hph as [E|E]; rewrite E in *.
  - rewrite (H0 eq_refl) in *. split; [assumption|]. split; [|assumption].
    change (List.length (trial_option_list 0)) with 56%nat in Hlen.
    change (0 =? 0) with true. cbv iota. lia.
  - rewrite (H1 eq_refl) in *. split; [assumption|]. split; [|assumption].
    change (List.length (trial_option_list 1)) with 50%nat in Hlen.
    change (1 =? 0) with false. cbv iota. lia.
Qed.

(** C1 (amended). The order [first_ITI] returns is made of separately
    shuffled blocks, one of 56 trials in pre-training and two of 50 in
    the main phase; inside a block, no four consecutive entries that
    start after the block's first entry share a tag. *)
Theorem trial_order_no_run4_inside_blocks s s' :
  (training_phase s = 0 \/ training_phase s = 1) ->
  shuffles_of (trial_option_list (training_phase s)) (shuffle_tape s) ->
  first_ITI s = (Ok tt, s') ->
  exists blocks,
    trial_order_list s' = Some (List.concat blocks) /\
    List.length blocks = (if training_phase s =? 0 then 1%nat else 2%nat) /\
    Forall (fun b =>
              List.length b = (if training_phase s =? 0 then 56%nat else 50%nat)
              /\ forall i, (1 <= i)%nat -> ~ run4_at b i) blocks.
Proof.
  intros Hph Hs H.
  destruct (first_ITI_blocks s s' Hph Hs H) as (blocks & Ho & _ & Hn & Hb).
  exists blocks. split; [assumption|]. split; [assumption|].
  eapply Forall_impl; [|exact Hb]. simpl. intros b [Hp Ha]. split.
  - rewrite <- (Permutation_length Hp).
    destruct Hph as [E|E]; rewrite E; vm_compute; reflexivity.
  - intros i Hi. now apply approved_no_run4.
Qed.

Lemma trial_order_no_run4_inside_blocks_witness :
  exists blocks,
    trial_order_list (snd (first_ITI (main_session [block_mixed; block_mixed])))
    = Some (List.concat blocks) /\
    List.length blocks = 2%nat /\
    Forall (fun b => List.length b = 50%nat
                     /\ forall i, (1 <= i)%nat -> ~ run4_at b i) blocks.
Proof.
  apply (trial_order_no_run4_inside_blocks
           (main_session [block_mixed; block_mixed])).
  - right. reflexivity.
  - repeat constructor; apply perm_check_sound; vm_compute; reflexivity.
  - vm_compute. reflexivity.
Defined.

(** C2, as stated, fails on a main-phase session: each of the five
    trial types occurs 20 times, not 10. *)
Lemma trial_order_counts_not_ten :
  shuffles_of (trial_option_list 1) [block_mixed; block_mixed]
  /\ exists s' order,
       first_ITI (main_session [block_mixed; block_mixed]) = (Ok tt, s')
       /\ trial_order_list s' = Some order
       /\ List.length order = 100%nat
       /\ count "forced_choice-informative" order = 20%nat
       /\ count "forced_choice-informative" order <> 10%nat.
Proof.
  split.
  { repeat constructor; apply perm_check_sound; vm_compute; reflexivity. }
  exists (snd (first_ITI (main_session [block_mixed; block_mixed]))).
  exists (block_mixed ++ block_mixed).
  split; [vm_compute; reflexivity|].
  split; [vm_compute; reflexivity|].
  split; [reflexivity|].
  split; [vm_compute; reflexivity | vm_compute; discriminate].
Qed.

Lemma count_pretraining_option_list tag :
  In tag pretraining_tags -> count tag pretraining_option_list = 8%nat.
Proof.
  intros H. simpl in H.
  repeat (destruct H as [<-|H]; [vm_compute; reflexivity|]). contradiction.
Qed.

Lemma count_training_option_list tag :
  In tag training_tags -> count tag training_option_list = 10%nat.
Proof.
  intros H. simpl in H.
  repeat (destruct H as [<-|H]; [vm_compute; reflexivity|]). contradiction.
Qed.

(** C2 (amended). The returned order has [trials_per_session] entries,
    56 in pre-training and 100 in the main phase. It is made of one
    block of 56 trials in which each of the seven pre-training tags
    occurs 8 times, or of two blocks of 50 trials in each of which each
    of the five main-phase trial types occurs 10 times, 20 times in
    all. *)
Theorem trial_order_length_and_counts s s' :
  (training_phase s = 0 \/ training_phase s = 1) ->
  shuffles_of (trial_option_list (training_phase s)) (shuffle_tape s) ->
  first_ITI s = (Ok tt, s') ->
  exists blocks,
    trial_order_list s' = Some (List.concat blocks) /\
    trials_per_session s' = Some (if training_phase s =? 0 then 56 else 100) /\
    Z.of_nat (List.length (List.concat blocks))
    = (if training_phase s =? 0 then 56 else 100) /\
    List.length blocks = (if training_phase s =? 0 then 1%nat else 2%nat) /\
    Forall (fun b =>
              List.length b
              = (if training_phase s =? 0 then 56%nat else 50%nat)) blocks /\
    forall tag,
      In tag (if training_phase s =? 0 then pretraining_tags
              else training_tags) ->
      count tag (List.concat blocks)
      = (if training_phase s =? 0 then 8%nat else 20%nat) /\
      Forall (fun b =>
                count tag b
                = (if training_phase s =? 0 then 8%nat else 10%nat)) blocks.
Proof.
  intros Hph Hs H.
  destruct (first_ITI_blocks s s' Hph Hs H) as (blocks & Ho & Ht & Hn & Hb).
  exists blocks. split; [assumption|]. split; [assumption|].
  assert (Hlen : forall n, List.length (trial_option_list (training_phase s)) = n ->
                 List.length (List.concat blocks) = (List.length blocks * n)%nat).
  { intros n Hn'. apply concat_length_uniform.
    eapply Forall_impl; [|exact Hb]. simpl. intros b [Hp _].
    now rewrite <- (Permutation_length Hp). }
  assert (Hcnt : forall tag n, count tag (trial_option_list (training_phase s)) = n ->
                 count tag (List.concat blocks) = (List.length blocks * n)%nat).
  { intros tag n Hn'. apply count_concat_uniform.
    eapply Forall_impl; [|exact Hb]. simpl. intros b [Hp _].
    now rewrite (Permutation_count _ _ tag Hp). }
  destruct Hph as [E|E]; rewrite E in *.
  - change (0 =? 0) with true in *. cbv iota in *.
    split; [rewrite (Hlen 56%nat eq_refl), Hn; reflexivity|].
    split; [assumption|].
    split.
    { eapply Forall_impl; [|exact Hb]. simpl. intros b [Hp _].
      now rewrite <- (Permutation_length Hp). }
    intros tag Hin.
    pose proof (count_pretraining_option_list tag Hin) as Hc.
    split; [rewrite (Hcnt tag 8%nat Hc), Hn; reflexivity|].
    eapply Forall_impl; [|exact Hb]. simpl. intros b [Hp _].
    now rewrite (Permutation_count _ _ tag Hp).
  - change (1 =? 0) with false in *. cbv iota in *.
    split; [rewrite (Hlen 50%nat eq_refl), Hn; reflexivity|].
    split; [assumption|].
    split.
    { eapply Forall_impl; [|exact Hb]. simpl. intros b [Hp _].
      now rewrite <- (Permutation_length Hp). }
    intros tag Hin.
    pose proof (count_training_option_list tag Hin) as Hc.
    split; [rewrite (Hcnt tag 10%nat Hc), Hn; reflexivity|].
    eapply Forall_impl; [|exact Hb]. simpl. intros b [Hp _].
    now rewrite (Permutation_count _ _ tag Hp).
Qed.

Lemma trial_order_length_and_counts_witness :
  let s' := snd (first_ITI (main_session [block_mixed; block_ending_free])) in
  exists blocks,
    trial_order_list s' = Some (List.concat blocks) /\
    trials_per_session s' = Some 100 /\
    Z.of_nat (List.length (List.concat blocks)) = 100 /\
    List.length blocks = 2%nat /\
    Forall (fun b => List.length b = 50%nat) blocks /\
    forall tag,
      In tag training_tags ->
      count tag (List.concat blocks) = 20%nat /\
      Forall (fun b => count tag b = 10%nat) blocks.
Proof.
  apply (trial_order_length_and_counts
           (main_session [block_mixed; block_ending_free])).
  - right. reflexivity.
  - repeat constructor; apply perm_check_sound; vm_compute; reflexivity.
  - vm_compute. reflexivity.
Defined.
(** ** [write_data] *)



(** Whatever happens, [write_data] touches only the data frame, the
    clock and the terminal. *)
Lemma write_data_outside_log event outcome :
  preserves outside_log (write_data event outcome).
Proof. solve_preserves. Qed.

(** The converse: with the attributes of a running trial in place,
    [write_data] returns. *)
Lemma write_data_run event outcome s exp row :
  translate_outcome outcome s = (Ok (Some exp), s) ->
  data_row s event outcome exp
    (clock s (S (clock_reads s))) (clock s (S (S (clock_reads s)))) = Some row ->
  write_data event outcome s
  = (Ok tt, set_session_data_frame (session_data_frame s ++ [row])
              (set_clock_reads (3 + clock_reads s) s)).
Proof.
  intros Ht Hrow. unfold write_data. rewrite (bind_run _ _ _ _ _ Ht).
  unfold data_row in Hrow.
  destruct (start_time s) as [st|] eqn:E1; [|discriminate].
  destruct (trial_stage s) as [stage|] eqn:E2; [|discriminate].
  destruct (trial_start s) as [ts|] eqn:E3; [|discriminate].
  destruct (choice_key_FR s) as [fr|] eqn:E4; [|discriminate].
  destruct (trial_type s) as [ttype|] eqn:E5; [|discriminate].
  injection Hrow as <-.
  unfold bind, attr, gets, need, ret, time, modify. cbn.
  rewrite E2. cbn. rewrite E1. cbn. rewrite E5. cbn. rewrite E1. cbn.
  rewrite E2. cbn. rewrite E3. cbn. rewrite E4. cbn. rewrite E5. cbn.
  reflexivity.
Qed.

(** Events that are not pecks on a key are recorded under their own
    name. *)
Lemma translate_outcome_plain outcome s :
  Py.list_in outcome choice_key_pecks = false ->
  Py.list_in outcome feedback_key_pecks = false ->
  Py.contains "rejection" outcome = false ->
  translate_outcome outcome s = (Ok (Some outcome), s).
Proof. unfold translate_outcome. now intros -> -> ->. Qed.
(** ** C10: the trial-relative time of a row *)









(** ** C7: every key press is recorded *)

(** C7 fails on the code. In a pre-training trial on the rejection key,
    with a fixed ratio of 2, a click on the key reaches [key_press] (the
    ratio left goes from 2 to 1) and prints ERROR, but no row is
    appended to the data frame. *)
Theorem pretraining_rejection_peck_not_logged :
  let s := pretraining_first_trial "2" in
  let s' := step (Click 400 300) s in
  trial_type s = Some "rejection_key"
  /\ option_map item_tag (item_at 400 300 (canvas s)) = Some "rejection_key"
  /\ Py.dict_get "rejection_key" (tag_binds s) = Some (HKeyPress "rejection_key")
  /\ choice_key_FR s = Some 2 /\ choice_key_FR s' = Some 1
  /\ session_data_frame s' = session_data_frame s
  /\ stdout s' = stdout s ++ ["ERROR"].
Proof. vm_compute. repeat split; reflexivity. Qed.

(** With the default ratio of 1 the same click ends the trial: the only
    row appended is the reinforcer's, and none records the peck. *)
Example pretraining_rejection_peck_FR1 :
  let s := pretraining_first_trial "1" in
  let s' := step (Click 400 300) s in
  exists row,
    session_data_frame s' = session_data_frame s ++ [row]
    /\ row_location_event row = Some "reinforcer_provided".
Proof. vm_compute. eexists. split; reflexivity. Qed.

(** ** Flushing the data frame ([write_comp_data]) *)

Lemma file_name_eqb_refl p : file_name_eqb p p = true.
Proof.
  unfold file_name_eqb.
  now rewrite !String.eqb_refl, !Z.eqb_refl, Pos.eqb_refl.
Qed.

Lemma filter_filter {A} (f : A -> bool) l : filter f (filter f l) = filter f l.
Proof.
  induction l as [|a l IH]; simpl; [reflexivity|].
  destruct (f a) eqn:E; simpl; [rewrite E|]; now rewrite ?IH.
Qed.

(** What a flush without the sentinel does: nothing when no data are
    recorded or the session has no start time, and otherwise the file of
    the session holds the whole data frame. *)
Lemma write_comp_data_false_run s :
  write_comp_data false s =
  if record_data s then
    match data_file s with
    | Some path =>
        (Ok tt,
         set_files ((path, session_data_frame s)
                    :: filter (fun f => negb (file_name_eqb (fst f) path))
                         (files s)) s)
    | None => (Raise AttributeError, s)
    end
  else (Ok tt, s).
Proof.
  unfold write_comp_data, data_file, bind, ret, gets, attr, write_file, modify.
  destruct (record_data s); [|reflexivity].
  destruct (start_time s); reflexivity.
Qed.

Lemma write_comp_data_false_twice s :
  snd (write_comp_data false (snd (write_comp_data false s)))
  = snd (write_comp_data false s).
Proof.
  rewrite (write_comp_data_false_run s).
  destruct (record_data s) eqn:Er.
  - destruct (data_file s) as [path|] eqn:Ep; cbn [snd].
    + rewrite write_comp_data_false_run. cbn [record_data set_files].
      rewrite Er. unfold data_file in *. cbn. 
      destruct (start_time s); [|discriminate]. injection Ep as <-.
      cbn. rewrite file_name_eqb_refl. cbn. rewrite filter_filter.
      reflexivity.
    + rewrite write_comp_data_false_run, Er, Ep. reflexivity.
  - cbn [snd]. rewrite write_comp_data_false_run, Er. reflexivity.
Qed.

(** The flush at the end of the session. *)
Lemma write_comp_data_true_run s row :
  data_row s None "SessionEnds" "SessionEnds"
    (clock s (S (clock_reads s))) (clock s (S (S (clock_reads s)))) = Some row ->
  exists s1,
    write_data None "SessionEnds" s = (Ok tt, s1) /\
    session_data_frame s1 = session_data_frame s ++ [row] /\
    files s1 = files s /\ record_data s1 = record_data s /\
    data_file s1 = data_file s /\
    write_comp_data true s = write_comp_data false s1.
Proof.
  intros Hrow.
  assert (Hw := write_data_run None "SessionEnds" s "SessionEnds" row
                  (translate_outcome_plain "SessionEnds" s
                     eq_refl eq_refl eq_refl) Hrow).
  eexists. split; [exact Hw|].
  repeat split.
  unfold write_comp_data at 1. now rewrite (bind_run _ _ _ _ _ Hw).
Qed.

(** Two flushes in a row, with no row appended in between, leave the
    state, and so every file, as one flush does; a flush adds no row. *)
Theorem flush_twice_same_files s :
  let s1 := snd (write_comp_data false s) in
  let s2 := snd (write_comp_data false s1) in
  s2 = s1 /\ files s2 = files s1 /\
  session_data_frame s1 = session_data_frame s.
Proof.
  cbv zeta. split; [apply write_comp_data_false_twice|].
  split; [now rewrite write_comp_data_false_twice|].
  rewrite write_comp_data_false_run.
  destruct (record_data s); [|reflexivity].
  destruct (data_file s); reflexivity.
Qed.

(** When data are recorded and the session has started, a flush returns
    and the session's file holds the whole data frame, whatever the file
    held before. *)
Theorem flush_writes_whole_frame s path :
  record_data s = true ->
  data_file s = Some path ->
  fst (write_comp_data false s) = Ok tt /\
  read_file path (files (snd (write_comp_data false s)))
  = Some (session_data_frame s).
Proof.
  intros Er Ep. rewrite write_comp_data_false_run, Er, Ep. cbn.
  now rewrite file_name_eqb_refl.
Qed.

Lemma flush_writes_whole_frame_witness :
  fst (write_comp_data false in_second_ITI) = Ok tt /\
  read_file (mkFileName "Data" "Zappa" 0 1)
    (files (snd (write_comp_data false in_second_ITI)))
  = Some (session_data_frame in_second_ITI).
Proof.
  apply (flush_writes_whole_frame in_second_ITI (mkFileName "Data" "Zappa" 0 1));
    vm_compute; reflexivity.
Defined.

(** Without recording, or before the session has a start time, a flush
    writes no file: it returns at once, or raises [AttributeError]. *)
Theorem flush_without_file s :
  record_data s = false \/ start_time s = None ->
  snd (write_comp_data false s) = s /\
  (record_data s = true -> fst (write_comp_data false s) = Raise AttributeError).
Proof.
  intros H. rewrite write_comp_data_false_run. unfold data_file.
  destruct (record_data s) eqn:Er.
  - destruct H as [H|H]; [discriminate|]. rewrite H. cbn. auto.
  - cbn. split; [reflexivity | discriminate].
Qed.

Lemma flush_without_file_witness :
  let s := main_session [block_mixed; block_mixed] in
  snd (write_comp_data false s) = s /\
  (record_data s = true -> fst (write_comp_data false s) = Raise AttributeError).
Proof.
  apply (flush_without_file (main_session [block_mixed; block_mixed])).
  right. reflexivity.
Defined.

(** The flush at the end of the session first appends one row, whose
    event is "SessionEnds"; with recording on, the file then ends with
    that row. *)
Theorem final_flush_appends_sentinel s row :
  data_row s None "SessionEnds" "SessionEnds"
    (clock s (S (clock_reads s))) (clock s (S (S (clock_reads s))))
  = Some row ->
  let s' := snd (write_comp_data true s) in
  session_data_frame s' = session_data_frame s ++ [row] /\
  row_location_event row = Some "SessionEnds" /\
  row_experimental_event row = Some "SessionEnds" /\
  forall path, record_data s = true -> data_file s = Some path ->
               fst (write_comp_data true s) = Ok tt /\
               read_file path (files s') = Some (session_data_frame s ++ [row]).
Proof.
  intros Hrow. cbv zeta.
  destruct (write_comp_data_true_run s row Hrow)
    as (s1 & Hw & Hf & Hfs & Hr & Hp & Heq).
  rewrite Heq, write_comp_data_false_run.
  assert (Hev : row_location_event row = Some "SessionEnds"
                /\ row_experimental_event row = Some "SessionEnds").
  { unfold data_row in Hrow.
    destruct (start_time s), (trial_stage s), (trial_start s),
      (choice_key_FR s), (trial_type s); try discriminate.
    injection Hrow as <-. split; reflexivity. }
  destruct Hev as [Hev1 Hev2].
  destruct (record_data s1) eqn:Er.
  - destruct (data_file s1) as [p|] eqn:Ep; cbn.
    + repeat (split; [assumption|]).
      intros path _ E. assert (p = path) as -> by congruence.
      split; [reflexivity|]. now rewrite file_name_eqb_refl, Hf.
    + repeat (split; [assumption|]). intros path _ E. congruence.
  - cbn. repeat (split; [assumption|]). intros path E. congruence.
Qed.

Lemma final_flush_appends_sentinel_witness :
  let s := in_second_ITI in
  let s' := snd (write_comp_data true s) in
  let row := sentinel_row_in_second_ITI in
  session_data_frame s' = session_data_frame s ++ [row] /\
  row_location_event row = Some "SessionEnds" /\
  row_experimental_event row = Some "SessionEnds" /\
  forall path, record_data s = true -> data_file s = Some path ->
               fst (write_comp_data true s) = Ok tt /\
               read_file path (files s') = Some (session_data_frame s ++ [row]).
Proof.
  apply (final_flush_appends_sentinel in_second_ITI sentinel_row_in_second_ITI).
  vm_compute. reflexivity.
Defined.
(** ** The outcome of a choice ([feedback_stage], lines 674-721) *)

(** A free or rejection trial, choice on the informative side: one draw
    decides both the reinforcement and the colour, which always agree. *)
Theorem informative_unforced_outcome s ch inf ttype isp ism :
  choice s = Some ch ->
  informative_side s = Some inf ->
  String.eqb (Py.split_underscore_0 ch) (Py.lower inf) = true ->
  trial_type s = Some ttype ->
  Py.contains "forced" ttype = false ->
  informative_Splus_color s = Some isp ->
  informative_Sminus_color s = Some ism ->
  let u := uniform_draws s (uniform_reads s) in
  resolve_feedback s
  = (Ok (if Qle_bool u (informative_prob s) then (true, isp) else (false, ism)),
     set_uniform_reads (S (uniform_reads s)) s).
Proof.
  intros Hc Hi Hs Ht Hf Hp Hm. cbv zeta.
  unfold resolve_feedback, bind, attr, gets, uniform_0_1, ret.
  rewrite Hc, Hi, Hs, Ht, Hf. cbn.
  destruct (Qle_bool _ _); cbn; [rewrite Hp | rewrite Hm]; reflexivity.
Qed.

(** A free or rejection trial, choice on the other side: two draws. The
    first, against [noninformative_prob], decides the reinforcement; the
    second, against [informative_prob], decides the colour. *)
Theorem noninformative_unforced_outcome s ch inf ttype nsp nsm :
  choice s = Some ch ->
  informative_side s = Some inf ->
  String.eqb (Py.split_underscore_0 ch) (Py.lower inf) = false ->
  trial_type s = Some ttype ->
  Py.contains "forced" ttype = false ->
  noninformative_Splus_color s = Some nsp ->
  noninformative_Sminus_color s = Some nsm ->
  let u1 := uniform_draws s (uniform_reads s) in
  let u2 := uniform_draws s (S (uniform_reads s)) in
  resolve_feedback s
  = (Ok (Qle_bool u1 (noninformative_prob s),
         if Qle_bool u2 (informative_prob s) then nsp else nsm),
     set_uniform_reads (2 + uniform_reads s) s).
Proof.
  intros Hc Hi Hs Ht Hf Hp Hm. cbv zeta.
  unfold resolve_feedback, bind, attr, gets, uniform_0_1, ret.
  rewrite Hc, Hi, Hs, Ht, Hf. cbn.
  destruct (Qle_bool (uniform_draws s (S (uniform_reads s))) _); cbn;
    [rewrite Hp | rewrite Hm]; reflexivity.
Qed.

Lemma choice_in r l x : Py.choice r l = Some x -> In x l.
Proof.
  unfold Py.choice. destruct l as [|y l]; [discriminate|].
  apply nth_error_In.
Qed.

Lemma choice_nonempty r l : l <> [] -> exists x, Py.choice r l = Some x.
Proof.
  intros Hl. unfold Py.choice. destruct l as [|y l]; [congruence|].
  destruct (nth_error (y :: l) (r mod List.length (y :: l))) eqn:E; [eauto|].
  apply nth_error_None in E.
  pose proof (Nat.mod_upper_bound r (List.length (y :: l))). simpl in *. lia.
Qed.

Lemma list_remove_in x l : In x l -> exists l', Py.list_remove x l = Some l'.
Proof.
  induction l as [|y l IH]; simpl; [tauto|].
  destruct (String.eqb_spec y x) as [->|Hne]; [eauto|].
  intros [E|Hin]; [congruence|]. destruct (IH Hin) as [l' ->]. simpl. eauto.
Qed.

(** One draw without replacement: [choice] then [remove]. *)
Lemma random_choice_run l s :
  l <> [] ->
  exists x l',
    random_choice l s = (Ok x, set_choice_reads (S (choice_reads s)) s) /\
    Py.choice (choice_draws s (choice_reads s)) l = Some x /\
    Py.list_remove x l = Some l' /\
    Permutation l (x :: l').
Proof.
  intros Hl.
  destruct (choice_nonempty (choice_draws s (choice_reads s)) l Hl) as [x Hx].
  destruct (list_remove_in x l (choice_in _ _ _ Hx)) as [l' Hl'].
  exists x, l'. repeat split; try assumption.
  - unfold random_choice. destruct l; [congruence|]. now rewrite Hx.
  - now apply list_remove_perm.
Qed.

Lemma informative_forced_run s ch inf ttype isp ism l :
  choice s = Some ch ->
  informative_side s = Some inf ->
  String.eqb (Py.split_underscore_0 ch) (Py.lower inf) = true ->
  trial_type s = Some ttype ->
  Py.contains "forced" ttype = true ->
  informative_Splus_color s = Some isp ->
  informative_Sminus_color s = Some ism ->
  forced_I_choice_outcome_list s = Some l ->
  l <> [] ->
  exists token l',
    Py.choice (choice_draws s (choice_reads s)) l = Some token /\
    Permutation l (token :: l') /\
    resolve_feedback s
    = (Ok (if String.eqb token "win" then (true, isp) else (false, ism)),
       set_forced_I_choice_outcome_list (Some l')
         (set_choice_reads (S (choice_reads s)) s)).
Proof.
  intros Hc Hi Hs Ht Hf Hp Hm Hl Hne.
  destruct (random_choice_run l s Hne) as (x & l' & Hr & Hx & Hrm & Hperm).
  exists x, l'. split; [assumption|]. split; [assumption|].
  unfold resolve_feedback, bind, attr, gets, ret, need, modify.
  rewrite Hc, Hi, Hs, Ht, Hf. cbn. rewrite Hl. cbn. rewrite Hr, Hrm. cbn.
  destruct (String.eqb x "win"); cbn; [rewrite Hp | rewrite Hm]; reflexivity.
Qed.

(** A forced-choice trial, choice on the other side: one token leaves
    the outcome list and one the colour list, by two separate draws. *)
Theorem noninformative_forced_outcome s ch inf ttype l fl :
  choice s = Some ch ->
  informative_side s = Some inf ->
  String.eqb (Py.split_underscore_0 ch) (Py.lower inf) = false ->
  trial_type s = Some ttype ->
  Py.contains "forced" ttype = true ->
  forced_NI_choice_outcome_list s = Some l ->
  forced_NI_choice_feedback_list s = Some fl ->
  l <> [] -> fl <> [] ->
  exists token l' color fl',
    Py.choice (choice_draws s (choice_reads s)) l = Some token /\
    Py.choice (choice_draws s (S (choice_reads s))) fl = Some color /\
    Permutation l (token :: l') /\
    Permutation fl (color :: fl') /\
    resolve_feedback s
    = (Ok (String.eqb token "win", color),
       set_forced_NI_choice_feedback_list (Some fl')
         (set_choice_reads (2 + choice_reads s)
            (set_forced_NI_choice_outcome_list (Some l') s))).
Proof.
  intros Hc Hi Hs Ht Hf Hl Hfl Hne Hfne.
  destruct (random_choice_run l s Hne) as (x & l' & Hr & Hx & Hrm & Hperm).
  destruct (random_choice_run fl
              (set_forced_NI_choice_outcome_list (Some l')
                 (set_choice_reads (S (choice_reads s)) s)) Hfne)
    as (c & fl' & Hr2 & Hc2 & Hrm2 & Hperm2).
  exists x, l', c, fl'. repeat split; try assumption.
  unfold resolve_feedback, bind, attr, gets, ret, need, modify.
  rewrite Hc, Hi, Hs, Ht, Hf. cbn. rewrite Hl. cbn. rewrite Hr, Hrm. cbn.
  rewrite Hfl. cbn. rewrite Hr2, Hrm2. cbn. reflexivity.
Qed.

Lemma resolve_feedback_empty s ch inf ttype :
  choice s = Some ch ->
  informative_side s = Some inf ->
  trial_type s = Some ttype ->
  Py.contains "forced" ttype = true ->
  (if String.eqb (Py.split_underscore_0 ch) (Py.lower inf)
   then forced_I_choice_outcome_list s = Some []
   else forced_NI_choice_outcome_list s = Some []) ->
  resolve_feedback s = (Raise IndexError, s).
Proof.
  intros Hc Hi Ht Hf Hl.
  unfold resolve_feedback, bind, attr, gets, ret, need, modify.
  rewrite Hc, Hi.
  destruct (String.eqb (Py.split_underscore_0 ch) (Py.lower inf));
    rewrite Ht, Hf; cbn; rewrite Hl; reflexivity.
Qed.

Lemma forced_empty_run s ch inf ttype :
  destroyed s = false ->
  choice s = Some ch ->
  informative_side s = Some inf ->
  trial_type s = Some ttype ->
  Py.contains "forced" ttype = true ->
  (if String.eqb (Py.split_underscore_0 ch) (Py.lower inf)
   then forced_I_choice_outcome_list s = Some []
   else forced_NI_choice_outcome_list s = Some []) ->
  resolve_feedback s = (Raise IndexError, s) /\
  feedback_stage s
  = (Raise IndexError, set_trial_stage (Some 1) (set_canvas [] s)).
Proof.
  intros Hd Hc Hi Ht Hf Hl.
  split; [now apply (resolve_feedback_empty s ch inf ttype)|].
  unfold feedback_stage, clear_canvas.
  unfold bind at 1. unfold bind at 1. unfold gets at 1. rewrite Hd.
  unfold modify at 1. unfold bind at 1. unfold modify at 1.
  unfold bind at 1.
  rewrite (resolve_feedback_empty _ ch inf ttype); [reflexivity|assumption..].
Qed.

(** A forced-choice trial, choice on the informative side: one token
    leaves the outcome list, the trial is reinforced exactly when the
    token is "win", and [uniform] is not called. *)
Theorem informative_forced_outcome s ch inf ttype isp ism l :
  choice s = Some ch ->
  informative_side s = Some inf ->
  String.eqb (Py.split_underscore_0 ch) (Py.lower inf) = true ->
  trial_type s = Some ttype ->
  Py.contains "forced" ttype = true ->
  informative_Splus_color s = Some isp ->
  informative_Sminus_color s = Some ism ->
  forced_I_choice_outcome_list s = Some l ->
  l <> [] ->
  exists token l',
    Py.choice (choice_draws s (choice_reads s)) l = Some token /\
    Permutation l (token :: l') /\
    resolve_feedback s
    = (Ok (if String.eqb token "win" then (true, isp) else (false, ism)),
       set_forced_I_choice_outcome_list (Some l')
         (set_choice_reads (S (choice_reads s)) s)).
Proof. apply informative_forced_run. Qed.

(** An empty outcome list stops the trial: [choice] raises [IndexError]
    before anything is drawn; [feedback_stage] leaves the screen blank
    and schedules nothing, so neither food nor the next trial follows. *)
Theorem forced_outcome_list_empty s ch inf ttype :
  destroyed s = false ->
  choice s = Some ch ->
  informative_side s = Some inf ->
  trial_type s = Some ttype ->
  Py.contains "forced" ttype = true ->
  (if String.eqb (Py.split_underscore_0 ch) (Py.lower inf)
   then forced_I_choice_outcome_list s = Some []
   else forced_NI_choice_outcome_list s = Some []) ->
  resolve_feedback s = (Raise IndexError, s) /\
  feedback_stage s
  = (Raise IndexError, set_trial_stage (Some 1) (set_canvas [] s)).
Proof. apply forced_empty_run. Qed.

(** Sampling without replacement is exact: as many forced-choice trials
    on the informative side as the outcome list has tokens all return,
    exactly as many of them are reinforced as the list has "win"
    tokens, whatever the generator draws, and the list is then empty, so
    that one more such trial raises [IndexError]. *)
Theorem forced_informative_sampling_exact s ch inf ttype isp ism l :
  choice s = Some ch ->
  informative_side s = Some inf ->
  String.eqb (Py.split_underscore_0 ch) (Py.lower inf) = true ->
  trial_type s = Some ttype ->
  Py.contains "forced" ttype = true ->
  informative_Splus_color s = Some isp ->
  informative_Sminus_color s = Some ism ->
  forced_I_choice_outcome_list s = Some l ->
  exists outs s',
    repeat_m (List.length l) resolve_feedback s = (Ok outs, s') /\
    List.length outs = List.length l /\
    List.length (filter fst outs) = count "win" l /\
    forced_I_choice_outcome_list s' = Some [] /\
    uniform_reads s' = uniform_reads s /\
    resolve_feedback s' = (Raise IndexError, s').
Proof.
  remember (List.length l) as n eqn:En. revert s l En.
  induction n as [|n IH]; intros s l En Hc Hi Hs Ht Hf Hp Hm Hl.
  - destruct l; [|discriminate]. exists [], s. cbn.
    repeat split; try assumption.
    apply (resolve_feedback_empty s ch inf ttype); try assumption.
    now rewrite Hs.
  - assert (Hne : l <> []) by (destruct l; [discriminate | congruence]).
    destruct (informative_forced_run s ch inf ttype isp ism l
                Hc Hi Hs Ht Hf Hp Hm Hl Hne) as (token & l' & _ & Hperm & Hr).
    assert (En' : n = List.length l').
    { apply Permutation_length in Hperm. simpl in Hperm. lia. }
    destruct (IH (set_forced_I_choice_outcome_list (Some l')
                    (set_choice_reads (S (choice_reads s)) s))
                l' En' Hc Hi Hs Ht Hf Hp Hm eq_refl)
      as (outs & s' & Hrep & Hlen & Hcnt & Hl' & Hu & He).
    eexists. exists s'. split.
    { cbn [repeat_m]. rewrite (bind_run _ _ _ _ _ Hr).
      rewrite (bind_run _ _ _ _ _ Hrep). reflexivity. }
    split; [simpl; lia|].
    split.
    { rewrite (Permutation_count _ _ "win" (Permutation_sym Hperm)).
      unfold count in *. cbn [filter count_occ].
      destruct (String.eqb_spec token "win") as [->|Hne'].
      - cbn. destruct (string_dec "win" "win"); [|congruence].
        now rewrite Hcnt.
      - cbn. destruct (string_dec token "win"); [congruence|]. exact Hcnt. }
    repeat split; assumption.
Qed.

Lemma informative_unforced_outcome_witness :
  let s := first_trial_chosen [block_starting_free; block_starting_free]
             "right_choice_key" in
  let u := uniform_draws s (uniform_reads s) in
  resolve_feedback s
  = (Ok (if Qle_bool u (informative_prob s)
         then (true, "red") else (false, "green")),
     set_uniform_reads (S (uniform_reads s)) s).
Proof.
  apply (informative_unforced_outcome
           (first_trial_chosen [block_starting_free; block_starting_free]
              "right_choice_key")
           "right_choice_key" "Right" "free_choice" "red" "green");
    vm_compute; reflexivity.
Defined.

Lemma noninformative_unforced_outcome_witness :
  let s := first_trial_chosen [block_starting_free; block_starting_free]
             "left_choice_key" in
  let u1 := uniform_draws s (uniform_reads s) in
  let u2 := uniform_draws s (S (uniform_reads s)) in
  resolve_feedback s
  = (Ok (Qle_bool u1 (noninformative_prob s),
         if Qle_bool u2 (informative_prob s) then "yellow" else "blue"),
     set_uniform_reads (2 + uniform_reads s) s).
Proof.
  apply (noninformative_unforced_outcome
           (first_trial_chosen [block_starting_free; block_starting_free]
              "left_choice_key")
           "left_choice_key" "Right" "free_choice" "yellow" "blue");
    vm_compute; reflexivity.
Defined.

Lemma informative_forced_outcome_witness :
  let s := first_trial_chosen [block_mixed; block_mixed] "right_choice_key" in
  let l := Py.list_mul ["win"] 4 ++ Py.list_mul ["loss"] 16 in
  exists token l',
    Py.choice (choice_draws s (choice_reads s)) l = Some token /\
    Permutation l (token :: l') /\
    resolve_feedback s
    = (Ok (if String.eqb token "win" then (true, "red") else (false, "green")),
       set_forced_I_choice_outcome_list (Some l')
         (set_choice_reads (S (choice_reads s)) s)).
Proof.
  apply (informative_forced_outcome
           (first_trial_chosen [block_mixed; block_mixed] "right_choice_key")
           "right_choice_key" "Right" "forced_choice-informative" "red" "green");
    try (vm_compute; reflexivity).
  discriminate.
Defined.

Lemma noninformative_forced_outcome_witness :
  let s := first_trial_chosen [block_mixed_NI; block_mixed_NI]
             "left_choice_key" in
  let l := Py.list_mul ["win"] 10 ++ Py.list_mul ["loss"] 10 in
  let fl := Py.list_mul ["yellow"] 4 ++ Py.list_mul ["blue"] 16 in
  exists token l' color fl',
    Py.choice (choice_draws s (choice_reads s)) l = Some token /\
    Py.choice (choice_draws s (S (choice_reads s))) fl = Some color /\
    Permutation l (token :: l') /\
    Permutation fl (color :: fl') /\
    resolve_feedback s
    = (Ok (String.eqb token "win", color),
       set_forced_NI_choice_feedback_list (Some fl')
         (set_choice_reads (2 + choice_reads s)
            (set_forced_NI_choice_outcome_list (Some l') s))).
Proof.
  apply (noninformative_forced_outcome
           (first_trial_chosen [block_mixed_NI; block_mixed_NI]
              "left_choice_key")
           "left_choice_key" "Right" "forced_choice-noninformative");
    try (vm_compute; reflexivity); discriminate.
Defined.

Lemma forced_outcome_list_empty_witness :
  let s := set_forced_I_choice_outcome_list (Some [])
             (first_trial_chosen [block_mixed; block_mixed]
                "right_choice_key") in
  resolve_feedback s = (Raise IndexError, s) /\
  feedback_stage s
  = (Raise IndexError, set_trial_stage (Some 1) (set_canvas [] s)).
Proof.
  apply (forced_outcome_list_empty
           (set_forced_I_choice_outcome_list (Some [])
              (first_trial_chosen [block_mixed; block_mixed]
                 "right_choice_key"))
           "right_choice_key" "Right" "forced_choice-informative");
    vm_compute; reflexivity.
Defined.

Lemma forced_informative_sampling_exact_witness :
  let s := first_trial_chosen [block_mixed; block_mixed] "right_choice_key" in
  let l := Py.list_mul ["win"] 4 ++ Py.list_mul ["loss"] 16 in
  exists outs s',
    repeat_m (List.length l) resolve_feedback s = (Ok outs, s') /\
    List.length outs = List.length l /\
    List.length (filter fst outs) = count "win" l /\
    forced_I_choice_outcome_list s' = Some [] /\
    uniform_reads s' = uniform_reads s /\
    resolve_feedback s' = (Raise IndexError, s').
Proof.
  apply (forced_informative_sampling_exact
           (first_trial_chosen [block_mixed; block_mixed] "right_choice_key")
           "right_choice_key" "Right" "forced_choice-informative" "red" "green");
    vm_compute; reflexivity.
Defined.
(** ** The outcome lists and the trial order agree *)

Lemma first_ITI_main_counts s s' :
  training_phase s = 1 ->
  shuffles_of training_option_list (shuffle_tape s) ->
  first_ITI s = (Ok tt, s') ->
  exists order,
    trial_order_list s' = Some order /\
    forall tag, In tag training_tags -> count tag order = 20%nat.
Proof.
  intros E Hs H.
  assert (Hs' : shuffles_of (trial_option_list (training_phase s)) (shuffle_tape s))
    by now rewrite E.
  destruct (first_ITI_blocks s s' (or_intror E) Hs' H)
    as (blocks & Ho & _ & Hn & Hb).
  rewrite E in *. change (1 =? 0) with false in *. cbv iota in *.
  exists (List.concat blocks). split; [assumption|]. intros tag Hin.
  rewrite (count_concat_uniform tag 10%nat), Hn; [reflexivity|].
  eapply Forall_impl; [|exact Hb]. simpl. intros b [Hp _].
  rewrite (Permutation_count _ _ tag Hp).
  now apply count_training_option_list.
Qed.

Lemma read_settings_probabilities :
  preserves (fun s => (informative_prob s, noninformative_prob s)) read_settings.
Proof. solve_preserves. Qed.

Lemma set_trial_order_outcome_lists : preserves outcome_lists set_trial_order.
Proof. solve_preserves. Qed.

Lemma schedule_first_trial_outcome_lists :
  preserves outcome_lists schedule_first_trial.
Proof. solve_preserves. Qed.

Lemma seed_outcome_lists_run s s' :
  seed_outcome_lists s = (Ok tt, s') ->
  exists nsp nsm,
    noninformative_Splus_color s = Some nsp /\
    noninformative_Sminus_color s = Some nsm /\
    outcome_lists s'
    = (Some (Py.list_mul ["win"] (Py.int_of_float (informative_prob s * 20))
             ++ Py.list_mul ["loss"]
                  (Py.int_of_float ((1 - informative_prob s) * 20))),
       Some (Py.list_mul ["win"] (Py.int_of_float (noninformative_prob s * 20))
             ++ Py.list_mul ["loss"]
                  (Py.int_of_float ((1 - noninformative_prob s) * 20))),
       Some (Py.list_mul [nsp] (Py.int_of_float (informative_prob s * 20))
             ++ Py.list_mul [nsm]
                  (Py.int_of_float ((1 - informative_prob s) * 20))),
       Some nsp, Some nsm).
Proof.
  unfold seed_outcome_lists. intros H.
  repeat (inv_step H; try discriminate). cbn in *.
  match goal with E : noninformative_Splus_color _ = Some ?a |- _ =>
    exists a end.
  match goal with E : noninformative_Sminus_color _ = Some ?a |- _ =>
    exists a end.
  repeat split; try assumption.
  unfold outcome_lists. cbn.
  repeat match goal with E : _ = Some _ |- _ => rewrite E; clear E end.
  reflexivity.
Qed.

Lemma first_ITI_main_lists env subj rec dir fr s' :
  first_ITI (init env subj rec dir 1 fr) = (Ok tt, s') ->
  exists nsp nsm,
    outcome_lists s'
    = (Some (repeat "win" 4 ++ repeat "loss" 16),
       Some (repeat "win" 10 ++ repeat "loss" 10),
       Some (repeat nsp 4 ++ repeat nsm 16), Some nsp, Some nsm).
Proof.
  unfold first_ITI. intros H.
  apply bind_Ok in H. destruct H as ([] & s1 & H1 & H).
  apply bind_Ok in H. destruct H as ([] & s2 & H2 & H).
  apply bind_Ok in H. destruct H as ([] & s3 & H3 & H4).
  pose proof (read_settings_probabilities (init env subj rec dir 1 fr)) as Hp.
  rewrite H1 in Hp. cbn in Hp. injection Hp as Hip Hnp.
  pose proof (read_settings_training_phase (init env subj rec dir 1 fr)) as Hph.
  rewrite H1 in Hph. cbn in Hph.
  unfold plan_session in H2. unfold bind at 1 in H2. unfold gets at 1 in H2.
  rewrite Hph in H2. cbn [Z.eqb Pos.eqb] in H2.
  unfold bind, modify at 1 in H2.
  apply seed_outcome_lists_run in H2.
  destruct H2 as (nsp & nsm & _ & _ & Hl).
  cbn [informative_prob noninformative_prob set_trials_per_session] in Hl.
  rewrite Hip, Hnp in Hl.
  exists nsp, nsm.
  pose proof (schedule_first_trial_outcome_lists s3) as Hs. rewrite H4 in Hs.
  pose proof (set_trial_order_outcome_lists s2) as Ho. rewrite H3 in Ho.
  cbn [snd] in Hs, Ho. rewrite Hs, Ho, Hl. reflexivity.
Qed.

(** When [first_ITI] returns in the main phase, the three outcome lists
    have as many tokens as the trial order has forced-choice trials of
    their kind: 20 each, with 4 "win" among the informative outcomes, 10
    among the non-informative ones, and 4 S+ among the 20 colours. *)
Theorem outcome_lists_match_forced_trials env subj rec dir fr s' :
  shuffles_of training_option_list (env_shuffle_tape env) ->
  first_ITI (init env subj rec dir 1 fr) = (Ok tt, s') ->
  exists order l nl fl nsp nsm,
    trial_order_list s' = Some order /\
    forced_I_choice_outcome_list s' = Some l /\
    forced_NI_choice_outcome_list s' = Some nl /\
    forced_NI_choice_feedback_list s' = Some fl /\
    noninformative_Splus_color s' = Some nsp /\
    noninformative_Sminus_color s' = Some nsm /\
    l = repeat "win" 4 ++ repeat "loss" 16 /\
    nl = repeat "win" 10 ++ repeat "loss" 10 /\
    fl = repeat nsp 4 ++ repeat nsm 16 /\
    List.length l = count "forced_choice-informative" order /\
    List.length nl = count "forced_choice-noninformative" order /\
    List.length fl = count "forced_choice-noninformative" order.
Proof.
  intros Hs H.
  destruct (first_ITI_main_lists _ _ _ _ _ _ H) as (nsp & nsm & Hl).
  destruct (first_ITI_main_counts (init env subj rec dir 1 fr) s' eq_refl Hs H)
    as (order & Ho & Hc).
  unfold outcome_lists in Hl. injection Hl as H1 H2 H3 H4 H5.
  exists order, (repeat "win" 4 ++ repeat "loss" 16),
    (repeat "win" 10 ++ repeat "loss" 10), (repeat nsp 4 ++ repeat nsm 16),
    nsp, nsm.
  repeat (split; [assumption || reflexivity|]).
  rewrite !Hc by (unfold training_tags; simpl; auto).
  rewrite !length_app, !repeat_length. auto.
Qed.

Lemma outcome_lists_match_forced_trials_witness :
  let s' := snd (first_ITI (main_session [block_mixed; block_mixed])) in
  exists order l nl fl nsp nsm,
    trial_order_list s' = Some order /\
    forced_I_choice_outcome_list s' = Some l /\
    forced_NI_choice_outcome_list s' = Some nl /\
    forced_NI_choice_feedback_list s' = Some fl /\
    noninformative_Splus_color s' = Some nsp /\
    noninformative_Sminus_color s' = Some nsm /\
    l = repeat "win" 4 ++ repeat "loss" 16 /\
    nl = repeat "win" 10 ++ repeat "loss" 10 /\
    fl = repeat nsp 4 ++ repeat nsm 16 /\
    List.length l = count "forced_choice-informative" order /\
    List.length nl = count "forced_choice-noninformative" order /\
    List.length fl = count "forced_choice-noninformative" order.
Proof.
  apply (outcome_lists_match_forced_trials
           (example_env [block_mixed; block_mixed]) "Zappa" true "Data" "1").
  - repeat constructor; apply perm_check_sound; vm_compute; reflexivity.
  - vm_compute. reflexivity.
Defined.
(** ** More on the sequencer *)

Lemma nth_error_nth_lt (l : list string) i :
  (i < List.length l)%nat -> nth_error l i = Some (nth i l "").
Proof. intros H. now apply nth_error_nth'. Qed.

(** The approval test, exactly: an arrangement is approved when, and
    only when, no four equal consecutive entries start after its first
    entry. *)
Theorem approved_iff_no_later_run4 l :
  approved l = true <-> forall i, (1 <= i)%nat -> ~ run4_at l i.
Proof.
  split.
  - intros Ha i Hi. now apply approved_no_run4.
  - intros H. unfold approved. apply approval_loop_true; [lia|].
    intros i [_ Hi] H3.
    destruct (same_as_three_before l i) eqn:E; [|reflexivity].
    exfalso. apply (H (i - 3)%nat); [lia|].
    unfold same_as_three_before in E.
    apply andb_prop in E. destruct E as [E E3].
    apply andb_prop in E. destruct E as [E1 E2].
    apply String.eqb_eq in E1, E2, E3.
    exists (nth i l "").
    replace (i - 3 + 1)%nat with (i - 2)%nat by lia.
    replace (i - 3 + 2)%nat with (i - 1)%nat by lia.
    replace (i - 3 + 3)%nat with i by lia.
    rewrite !nth_error_nth_lt by lia.
    repeat split; congruence.
Qed.

Lemma fill_trial_order_result (n : nat) tape : forall m acc tps,
  (0 < n)%nat ->
  Forall (fun b => List.length b = n) tape ->
  tps = Z.of_nat (List.length acc + m * n) ->
  option_map fst (fill_trial_order tape tps acc)
  = if (m <=? List.length (filter approved tape))%nat
    then Some (acc ++ List.concat (firstn m (filter approved tape)))
    else None.
Proof.
  induction tape as [|s tape IH]; intros m acc tps Hn Hf ->.
  - simpl. destruct m as [|m]; simpl.
    + rewrite Nat.add_0_r, Z.eqb_refl, app_nil_r. reflexivity.
    + destruct (Z.eqb_spec (Z.of_nat (List.length acc))
                  (Z.of_nat (List.length acc + (n + m * n)))); [lia|reflexivity].
  - inversion Hf as [|? ? Hs Hf']; subst. destruct m as [|m].
    + simpl. rewrite Nat.add_0_r, Z.eqb_refl, app_nil_r. reflexivity.
    + cbn [fill_trial_order filter].
      destruct (Z.eqb_spec (Z.of_nat (List.length acc))
                  (Z.of_nat (List.length acc + S m * List.length s))); [lia|].
      destruct (approved s) eqn:Ea.
      * rewrite (IH m (acc ++ s)); try assumption.
        -- cbn [List.length firstn List.concat].
           change (S m <=? S ?x)%nat with (m <=? x)%nat.
           destruct (m <=? _)%nat; [|reflexivity].
           now rewrite <- app_assoc.
        -- rewrite length_app. f_equal. simpl. lia.
      * now apply IH.
Qed.

Lemma shuffles_of_length opts tape :
  shuffles_of opts tape ->
  Forall (fun b => List.length b = List.length opts) tape.
Proof.
  intros H. apply Forall_forall. intros b Hb.
  symmetry. apply Permutation_length. eapply shuffles_of_In; eassumption.
Qed.

(** When the shuffle loop returns: exactly when the arrangements offered
    hold at least as many approved ones as the session has blocks, and
    the order is then the first approved ones, in the order they came;
    arrangements that fail the test are skipped and leave no trace. *)
Theorem trial_order_loop_returns opts tape (k : nat) :
  opts <> [] ->
  shuffles_of opts tape ->
  option_map fst
    (fill_trial_order tape (Z.of_nat (k * List.length opts)) [])
  = if (k <=? List.length (filter approved tape))%nat
    then Some (List.concat (firstn k (filter approved tape)))
    else None.
Proof.
  intros Hne Hs.
  rewrite (fill_trial_order_result (List.length opts) tape k []).
  - reflexivity.
  - destruct opts; [congruence | simpl; lia].
  - now apply shuffles_of_length.
  - reflexivity.
Qed.

Lemma trial_order_loop_returns_witness :
  shuffles_of training_option_list
    [training_option_list; block_mixed; training_option_list;
     block_ending_free] /\
  option_map fst
    (fill_trial_order
       [training_option_list; block_mixed; training_option_list;
        block_ending_free]
       (Z.of_nat (2 * List.length training_option_list)) [])
  = if (2 <=? List.length
                (filter approved
                   [training_option_list; block_mixed; training_option_list;
                    block_ending_free]))%nat
    then Some (List.concat
                 (firstn 2
                    (filter approved
                       [training_option_list; block_mixed;
                        training_option_list; block_ending_free])))
    else None.
Proof.
  cbv zeta.
  assert (Hs : shuffles_of training_option_list
                 [training_option_list; block_mixed; training_option_list;
                  block_ending_free]).
  { repeat constructor; apply perm_check_sound; vm_compute; reflexivity. }
  split; [exact Hs|].
  apply (trial_order_loop_returns training_option_list); [discriminate | exact Hs].
Defined.
(** ** The keys of a trial ([initial_links_stage], [build_keys]) *)

(** X14. In a calibrated main-phase session, [initial_links_stage]
    returns, sets the trial stage to 0, schedules no timer, and puts on
    the screen exactly the keys of the trial's type: the informative key
    for a forced or rejection trial on the informative option, the other
    key for the non-informative ones, both for a free choice, and the
    rejection key on rejection trials; once the trial has been rejected,
    only the key of the option that was not offered. *)
Theorem initial_links_shows_trial_keys s side isp ism nsp nsm ttype :
  training_phase s = 1 ->
  destroyed s = false ->
  calibrated s side isp ism nsp nsm ->
  trial_type s = Some ttype ->
  In ttype training_tags ->
  initial_links_stage s = (Ok tt, snd (initial_links_stage s)) /\
  trial_stage (snd (initial_links_stage s)) = Some 0 /\
  shown_keys (snd (initial_links_stage s))
  = (if rejected_trial s then keys_after_rejection side ttype
     else initial_keys side ttype) /\
  timers (snd (initial_links_stage s)) = timers s.
Proof.
  intros Hp Hd (Hside & Hi & Hn & H1 & H2 & H3 & H4 & Hdict) Ht Hin.
  destruct (rejected_trial s) eqn:Er;
  destruct s; cbn in *; subst;
  destruct Hside as [-> | ->];
    repeat (destruct Hin as [<- | Hin]; [| ]); try contradiction;
    vm_compute; repeat split.
Qed.

Lemma box_within_inside x y a b :
  box_within a b = true -> inside x y a = true -> inside x y b = true.
Proof.
  unfold box_within, inside. intros H1 H2.
  repeat (apply andb_prop in H1; destruct H1 as [H1 ?]).
  repeat (apply andb_prop in H2; destruct H2 as [H2 ?]).
  rewrite !andb_true_iff, !Z.leb_le in *. lia.
Qed.

Lemma item_at_uncovered x y cv : forall above it,
  Forall (fun a => inside x y a = false) above ->
  item_at x y cv = Some it -> In it (uncovered_items above cv).
Proof.
  unfold item_at.
  induction cv as [|c cv IH]; intros above it Ha; simpl; [discriminate|].
  destruct (inside x y c) eqn:Ec.
  - intros [= <-]. apply in_or_app. left.
    destruct (existsb (box_within c) above) eqn:Ex; [|now left].
    apply existsb_exists in Ex. destruct Ex as (a & Hin & Hw).
    rewrite Forall_forall in Ha. specialize (Ha a Hin).
    rewrite (box_within_inside x y c a Hw Ec) in Ha. discriminate.
  - intros H. apply in_or_app. right. apply IH; [|exact H].
    apply Forall_app. split; [assumption|]. now constructor.
Qed.

Lemma dedup_in x l : In x l -> In x (dedup l).
Proof.
  induction l as [|y l IH]; simpl; [tauto|].
  intros [->|H].
  - destruct (Py.list_in x l) eqn:E; [|now left].
    apply IH. unfold Py.list_in in E. apply existsb_exists in E.
    destruct E as (z & Hz & Ez). apply String.eqb_eq in Ez. now subst.
  - destruct (Py.list_in y l); [auto | right; auto].
Qed.

(** A click belongs to the background or to one of the clickable keys. *)
Lemma click_reaches_clickable x y s it :
  item_at x y (canvas s) = Some it ->
  item_tag it = "bkgrd" \/ In (item_tag it) (clickable_keys s).
Proof.
  intros H. apply (item_at_uncovered x y _ []) in H; [|constructor].
  destruct (String.eqb_spec (item_tag it) "bkgrd") as [E|E]; [now left|right].
  unfold clickable_keys. apply -> in_rev. apply dedup_in.
  apply filter_In. split.
  - now apply in_map.
  - apply negb_true_iff. now apply String.eqb_neq.
Qed.

(** ** The rejection key ([key_press], lines 929-951) *)

(** X15. A rejection trial of a calibrated main-phase session. The
    trial starts with one choice key and the rejection key, both
    clickable. The first peck on the rejection key logs one row, sets
    [rejected_trial], covers the choice key (the rejection key alone
    stays clickable), makes no choice and schedules
    [initial_links_stage] after [rejection_FI_duration]. A second peck
    on the rejection key changes nothing but the log. When the timer
    fires, only the key of the other option is shown, without the
    rejection key, and no further timer is scheduled. *)
Theorem rejection_key_protocol s side isp ism nsp nsm ttype st ts fr x y x' y' :
  training_phase s = 1 ->
  destroyed s = false ->
  calibrated s side isp ism nsp nsm ->
  trial_type s = Some ttype ->
  ttype = "rejection-informative" \/ ttype = "rejection-noninformative" ->
  rejected_trial s = false ->
  start_time s = Some st -> trial_start s = Some ts ->
  choice_key_FR s = Some fr ->
  let s1 := snd (initial_links_stage s) in
  let s2 := snd (key_press (x, y) "rejection_key" s1) in
  let s3 := snd (key_press (x', y') "rejection_key" s2) in
  let s4 := snd (initial_links_stage s2) in
  clickable_keys s1 = initial_keys side ttype /\
  rejected_trial s2 = true /\
  timers s2 = timers s ++ [(rejection_FI_duration s, CbInitialLinksStage)] /\
  clickable_keys s2 = ["rejection_key"] /\
  choice s2 = choice s /\ trial_stage s2 = Some 0 /\
  outside_log s3 = outside_log s2 /\
  shown_keys s4 = keys_after_rejection side ttype /\
  rejected_trial s4 = true /\ timers s4 = timers s2 /\
  match data_row s1 (Some (x, y)) (ttype ++ "_peck") "rejection_key_peck"
          (clock s1 (S (clock_reads s1))) (clock s1 (S (S (clock_reads s1))))
  with
  | Some row => session_data_frame s2 = session_data_frame s ++ [row]
  | None => False
  end.
Proof.
  intros Hp Hd (Hside & Hi & Hn & H1 & H2 & H3 & H4 & Hdict) Ht Hty Hr
    Hst Hts Hfr.
  destruct s; cbn in *; subst.
  destruct Hside as [-> | ->]; destruct Hty as [-> | ->];
    lazy -[Py.round_5 Qminus Qdiv Qplus Qmult inject_Z]; repeat split.
Qed.

Lemma initial_links_shows_trial_keys_witness :
  let s := first_trial_pending [block_rejection_first; block_rejection_first] in
  initial_links_stage s = (Ok tt, snd (initial_links_stage s)) /\
  trial_stage (snd (initial_links_stage s)) = Some 0 /\
  shown_keys (snd (initial_links_stage s))
  = (if rejected_trial s
     then keys_after_rejection "Right" "rejection-informative"
     else initial_keys "Right" "rejection-informative") /\
  timers (snd (initial_links_stage s)) = timers s.
Proof.
  apply (initial_links_shows_trial_keys
           (first_trial_pending [block_rejection_first; block_rejection_first])
           "Right" "red" "green" "yellow" "blue" "rejection-informative");
    try (vm_compute; reflexivity).
  - vm_compute. repeat split; try reflexivity. right; reflexivity.
  - vm_compute. tauto.
Defined.

Lemma rejection_key_protocol_witness :
  let s := first_trial_pending [block_rejection_first; block_rejection_first] in
  let s1 := snd (initial_links_stage s) in
  let s2 := snd (key_press (400, 300) "rejection_key" s1) in
  let s3 := snd (key_press (401, 301) "rejection_key" s2) in
  let s4 := snd (initial_links_stage s2) in
  clickable_keys s1 = ["right_choice_key"; "rejection_key"] /\
  rejected_trial s2 = true /\
  timers s2 = timers s ++ [(rejection_FI_duration s, CbInitialLinksStage)] /\
  clickable_keys s2 = ["rejection_key"] /\
  choice s2 = choice s /\ trial_stage s2 = Some 0 /\
  outside_log s3 = outside_log s2 /\
  shown_keys s4 = ["left_choice_key"] /\
  rejected_trial s4 = true /\ timers s4 = timers s2 /\
  match data_row s1 (Some (400, 300)) "rejection-informative_peck"
          "rejection_key_peck"
          (clock s1 (S (clock_reads s1))) (clock s1 (S (S (clock_reads s1))))
  with
  | Some row => session_data_frame s2 = session_data_frame s ++ [row]
  | None => False
  end.
Proof.
  apply (rejection_key_protocol
           (first_trial_pending [block_rejection_first; block_rejection_first])
           "Right" "red" "green" "yellow" "blue" "rejection-informative"
           0%Q 1%Q 1 400 300 401 301);
    try (vm_compute; reflexivity).
  - vm_compute. repeat split; try reflexivity. right; reflexivity.
  - left; reflexivity.
Defined.
(** ** Pecks during the rejection interval *)

Lemma item_at_some x y it cv :
  In it cv -> inside x y it = true -> exists it', item_at x y cv = Some it'.
Proof.
  intros Hin Hit. unfold item_at.
  destruct (find (inside x y) cv) as [it'|] eqn:E; [eauto|].
  rewrite (find_none _ _ E it Hin) in Hit. discriminate.
Qed.

(** The delivery of a click to the handler bound to the tag of the item
    under it. *)
Lemma step_click x y s it h :
  destroyed s = false ->
  item_at x y (canvas s) = Some it ->
  Py.dict_get (item_tag it) (tag_binds s) = Some h ->
  forall s', run_handler h x y s = (Ok tt, s') -> step (Click x y) s = s'.
Proof.
  intros Hd Hit Hh s' Hrun. unfold step. rewrite Hd.
  unfold dispatch, bind, gets. rewrite Hit, Hh, Hrun. reflexivity.
Qed.

(** The state a first peck on the rejection key leaves, and what the two
    handlers that can still be reached do in it. *)
Lemma rejected_state_handlers s side isp ism nsp nsm ttype st ts fr x y x' y' :
  training_phase s = 1 ->
  destroyed s = false ->
  calibrated s side isp ism nsp nsm ->
  trial_type s = Some ttype ->
  ttype = "rejection-informative" \/ ttype = "rejection-noninformative" ->
  rejected_trial s = false ->
  start_time s = Some st -> trial_start s = Some ts ->
  choice_key_FR s = Some fr ->
  let s2 := snd (key_press (x, y) "rejection_key"
                   (snd (initial_links_stage s))) in
  destroyed s2 = false /\
  clickable_keys s2 = ["rejection_key"] /\
  In (mkItem "bkgrd" 0 0 mainscreen_width mainscreen_height) (canvas s2) /\
  Py.dict_get "bkgrd" (tag_binds s2) = Some (HWriteData "background_peck") /\
  Py.dict_get "rejection_key" (tag_binds s2)
  = Some (HKeyPress "rejection_key") /\
  (exists row,
     write_data (Some (x', y')) "background_peck" s2
     = (Ok tt, snd (write_data (Some (x', y')) "background_peck" s2)) /\
     outside_log (snd (write_data (Some (x', y')) "background_peck" s2))
     = outside_log s2 /\
     session_data_frame (snd (write_data (Some (x', y')) "background_peck" s2))
     = session_data_frame s2 ++ [row] /\
     row_location_event row = Some "background_peck") /\
  (exists row,
     key_press (x', y') "rejection_key" s2
     = (Ok tt, snd (key_press (x', y') "rejection_key" s2)) /\
     outside_log (snd (key_press (x', y') "rejection_key" s2))
     = outside_log s2 /\
     session_data_frame (snd (key_press (x', y') "rejection_key" s2))
     = session_data_frame s2 ++ [row] /\
     row_location_event row = Some (ttype ++ "_peck")%string).
Proof.
  intros Hp Hd (Hside & Hi & Hn & H1 & H2 & H3 & H4 & Hdict) Ht Hty Hr
    Hst Hts Hfr.
  destruct s; cbn in *; subst.
  destruct Hside as [-> | ->]; destruct Hty as [-> | ->];
    lazy -[Py.round_5 Qminus Qdiv Qplus Qmult inject_Z];
    repeat split; auto 10;
    eexists; repeat split.
Qed.

(** X16. While the rejection interval runs, a peck cannot make a choice:
    wherever the screen is pecked, the event loop only logs one row, for
    the background or for the rejection key; the choice, the stage, the
    timers, the keys and the counters stay as they are and no exception
    is raised. *)
Theorem rejection_interval_pecks_only_logged
  s side isp ism nsp nsm ttype st ts fr x y x' y' :
  training_phase s = 1 ->
  destroyed s = false ->
  calibrated s side isp ism nsp nsm ->
  trial_type s = Some ttype ->
  ttype = "rejection-informative" \/ ttype = "rejection-noninformative" ->
  rejected_trial s = false ->
  start_time s = Some st -> trial_start s = Some ts ->
  choice_key_FR s = Some fr ->
  0 <= x' <= mainscreen_width -> 0 <= y' <= mainscreen_height ->
  let s2 := snd (key_press (x, y) "rejection_key"
                   (snd (initial_links_stage s))) in
  let s3 := step (Click x' y') s2 in
  outside_log s3 = outside_log s2 /\
  exists row,
    session_data_frame s3 = session_data_frame s2 ++ [row] /\
    (row_location_event row = Some "background_peck" \/
     row_location_event row = Some (ttype ++ "_peck")%string).
Proof.
  intros Hp Hd Hcal Ht Hty Hr Hst Hts Hfr Hx Hy s2 s3.
  destruct (rejected_state_handlers s side isp ism nsp nsm ttype st ts fr
              x y x' y' Hp Hd Hcal Ht Hty Hr Hst Hts Hfr)
    as (Hd2 & Hck & Hbg & Hb1 & Hb2 & (r1 & Hw1 & Hw2 & Hw3 & Hw4)
        & (r2 & Hk1 & Hk2 & Hk3 & Hk4)).
  fold s2 in Hd2, Hck, Hbg, Hb1, Hb2, Hw1, Hw2, Hw3, Hk1, Hk2, Hk3.
  destruct (item_at_some x' y' _ _ Hbg) as [it Hit].
  { unfold inside. cbn. rewrite !andb_true_iff, !Z.leb_le. lia. }
  destruct (click_reaches_clickable x' y' s2 it Hit) as [Htag|Htag].
  - assert (E : s3 = snd (write_data (Some (x', y')) "background_peck" s2)).
    { apply (step_click x' y' s2 it (HWriteData "background_peck")); auto.
      now rewrite Htag. }
    rewrite E. split; [assumption|]. exists r1. auto.
  - rewrite Hck in Htag. destruct Htag as [Htag|[]].
    assert (E : s3 = snd (key_press (x', y') "rejection_key" s2)).
    { apply (step_click x' y' s2 it (HKeyPress "rejection_key")); auto.
      now rewrite <- Htag. }
    rewrite E. split; [assumption|]. exists r2. auto.
Qed.

Lemma rejection_interval_pecks_only_logged_witness :
  let s := first_trial_pending [block_rejection_first; block_rejection_first] in
  let s2 := snd (key_press (400, 300) "rejection_key"
                   (snd (initial_links_stage s))) in
  let s3 := step (Click 600 300) s2 in
  outside_log s3 = outside_log s2 /\
  exists row,
    session_data_frame s3 = session_data_frame s2 ++ [row] /\
    (row_location_event row = Some "background_peck" \/
     row_location_event row = Some "rejection-informative_peck").
Proof.
  apply (rejection_interval_pecks_only_logged
           (first_trial_pending [block_rejection_first; block_rejection_first])
           "Right" "red" "green" "yellow" "blue" "rejection-informative"
           0%Q 1%Q 1 400 300 600 300);
    try (vm_compute; reflexivity).
  - vm_compute. repeat split; try reflexivity. right; reflexivity.
  - left; reflexivity.
  - unfold mainscreen_width; lia.
  - unfold mainscreen_height; lia.
Defined.
(** ** Closed forms of the methods of a trial *)

Lemma clear_canvas_run s :
  destroyed s = false -> clear_canvas s = (Ok tt, set_canvas [] s).
Proof. intros H. unfold clear_canvas, bind, gets. now rewrite H. Qed.

(** In a calibrated session the peck on any stimulus key has an
    experimental reading: no branch of lines 1081-1097 falls through. *)
Lemma translate_outcome_calibrated s side isp ism nsp nsm key :
  calibrated s side isp ism nsp nsm ->
  In key stimulus_keys ->
  exists e, translate_outcome (key ++ "_peck") s = (Ok (Some e), s).
Proof.
  intros (Hside & Hi & Hn & H1 & H2 & H3 & H4 & Hdict) Hin.
  destruct s; cbn in *; subst.
  destruct Hside as [-> | ->];
    repeat (destruct Hin as [<- | Hin]; [| ]); try contradiction;
    unfold translate_outcome, bind, attr, need, ret;
    repeat (cbn;
            first [ rewrite String.eqb_refl
                  | match goal with
                    | |- context [String.eqb ?a ?b] =>
                        is_var a; is_var b; destruct (String.eqb a b)
                    end ]);
    cbn; eexists; reflexivity.
Qed.

Lemma data_row_Some s event outcome exp now t st ts fr stage ttype :
  start_time s = Some st -> trial_stage s = Some stage ->
  trial_start s = Some ts -> choice_key_FR s = Some fr ->
  trial_type s = Some ttype ->
  exists row, data_row s event outcome exp now t = Some row /\
              row_location_event row = Some outcome /\
              row_experimental_event row = Some exp /\
              row_reinforcers row = Some (reinforcers_provided s).
Proof.
  intros H1 H2 H3 H4 H5. unfold data_row. rewrite H1, H2, H3, H4, H5.
  eexists. repeat split.
Qed.

(** [provide_food]: the row is written before the counter moves. *)
Lemma provide_food_run s row d :
  destroyed s = false ->
  data_row s None "reinforcer_provided" "reinforcer_provided"
    (clock s (S (clock_reads s))) (clock s (S (S (clock_reads s)))) = Some row ->
  hopper_duration s = Some d ->
  provide_food s
  = (Ok tt,
     set_timers (timers s ++ [(d, CbITI)])
       (set_hopper_on true
          (set_canvas (food_canvas s d)
             (set_reinforcers_provided (reinforcers_provided s + 1)
                (logged row (set_canvas [] s)))))).
Proof.
  intros Hd Hrow Hh. unfold provide_food.
  rewrite (bind_run _ _ _ _ _ (clear_canvas_run s Hd)).
  rewrite (bind_run _ _ _ _ _
             (write_data_run None "reinforcer_provided" (set_canvas [] s)
                "reinforcer_provided" row
                (translate_outcome_plain "reinforcer_provided" _
                   eq_refl eq_refl eq_refl) Hrow)).
  fold (logged row (set_canvas [] s)).
  set (s2 := logged row (set_canvas [] s)).
  rewrite (bind_run (gets reinforcers_provided) _ s2 _ _ eq_refl).
  rewrite (bind_run (modify _) _ s2 _ _ eq_refl).
  set (s3 := set_reinforcers_provided _ s2).
  rewrite (bind_run (gets subject_ID) _ s3 _ _ eq_refl).
  change (subject_ID s3) with (subject_ID s).
  unfold food_canvas.
  destruct (String.eqb (subject_ID s) "TEST").
  - assert (Hh3 : attr hopper_duration s3 = (Ok d, s3)).
    { unfold attr. change (hopper_duration s3) with (hopper_duration s).
      now rewrite Hh. }
    rewrite (bind_run (bind (attr hopper_duration) _) _ s3 tt
               (set_canvas (text_item (text_bbox s 400 300 (food_text d))
                            :: canvas s3) s3)).
    2:{ rewrite (bind_run _ _ _ _ _ Hh3). reflexivity. }
    set (s4 := set_canvas _ s3).
    rewrite (bind_run (change_hopper_state true) _ s4 _ _ eq_refl).
    set (s5 := set_hopper_on true s4).
    assert (Hh5 : attr hopper_duration s5 = (Ok d, s5)).
    { unfold attr. change (hopper_duration s5) with (hopper_duration s).
      now rewrite Hh. }
    rewrite (bind_run _ _ _ _ _ Hh5).
    reflexivity.
  - rewrite (bind_run (ret tt) _ s3 _ _ eq_refl).
    rewrite (bind_run (change_hopper_state true) _ s3 _ _ eq_refl).
    set (s5 := set_hopper_on true s3).
    assert (Hh5 : attr hopper_duration s5 = (Ok d, s5)).
    { unfold attr. change (hopper_duration s5) with (hopper_duration s).
      now rewrite Hh. }
    rewrite (bind_run _ _ _ _ _ Hh5).
    reflexivity.
Qed.

(** The key of a pre-training trial ([initial_links_stage] in phase 0). *)
Lemma pretraining_links s tag side isp ism nsp nsm :
  training_phase s = 0 ->
  destroyed s = false ->
  calibrated s side isp ism nsp nsm ->
  trial_type s = Some tag ->
  In tag pretraining_tags ->
  exists cv binds,
    initial_links_stage s
    = (Ok tt, set_tag_binds binds (set_canvas cv (set_trial_stage (Some 0) s)))
    /\ rev (dedup (filter (fun t => negb (String.eqb t "bkgrd"))
                     (map item_tag cv))) = [tag].
Proof.
  intros Hp Hd (Hside & Hi & Hn & H1 & H2 & H3 & H4 & Hdict) Ht Hin.
  destruct s; cbn in *; subst.
  destruct Hside as [-> | ->];
    repeat (destruct Hin as [<- | Hin]; [| ]); try contradiction;
    eexists; eexists; (split; [lazy; reflexivity | reflexivity]).
Qed.

Lemma stimulus_key_not_rejection key :
  In key stimulus_keys -> Py.contains "rejection" key = false.
Proof.
  intros Hin.
  repeat (destruct Hin as [<- | Hin]; [vm_compute; reflexivity|]).
  contradiction.
Qed.

Lemma outside_log_field {A} (f : MainScreen -> A) s1 s :
  (forall s0, f (outside_log s0) = f s0) ->
  outside_log s1 = outside_log s -> f s1 = f s.
Proof. intros H E. rewrite <- (H s1), <- (H s). now rewrite E. Qed.

Ltac log_field E f :=
  let H := fresh "Hf" in
  pose proof (outside_log_field f _ _ (fun _ => eq_refl) E) as H.

Lemma pretraining_trial_outside_log s1 s tag side isp ism nsp nsm st ts d :
  outside_log s1 = outside_log s ->
  pretraining_trial s tag side isp ism nsp nsm st ts d ->
  pretraining_trial s1 tag side isp ism nsp nsm st ts d.
Proof.
  intros E. unfold pretraining_trial, calibrated.
  log_field E training_phase. log_field E destroyed.
  log_field E informative_side. log_field E noninformative_side.
  log_field E informative_Splus_color. log_field E informative_Sminus_color.
  log_field E noninformative_Splus_color.
  log_field E noninformative_Sminus_color. log_field E key_color_dict.
  log_field E trial_type. log_field E start_time. log_field E trial_start.
  log_field E trial_stage. log_field E hopper_duration.
  congruence.
Qed.

(** A peck on the key of a pre-training trial: the peck is logged (not
    the one on the rejection key), the ratio counts down, and the test
    on the ratio chooses between food and the key again. *)
Lemma key_press_pretraining s ev tag side isp ism nsp nsm st ts d fr :
  pretraining_trial s tag side isp ism nsp nsm st ts d ->
  choice_key_FR s = Some fr ->
  exists s1,
    outside_log s1 = outside_log s /\
    key_press ev tag s
    = (if fr - 1 =? 0 then provide_food else initial_links_stage)
        (set_choice_key_FR (Some (fr - 1)) s1).
Proof.
  intros (Hp & Hd & Hcal & Ht & Hin & Hst & Hts & Hsg & Hh) Hfr.
  assert (Hcase : tag = "rejection_key" \/ In tag stimulus_keys).
  { unfold pretraining_tags, stimulus_keys in *. simpl in *. intuition. }
  unfold key_press. destruct Hcase as [-> | Hk].
  - exists (set_stdout (stdout s ++ ["ERROR"]) s). split; [reflexivity|].
    unfold bind, gets, attr, modify, print. cbn. rewrite Ht. cbn.
    rewrite Hp. cbn. rewrite Hfr. cbn. reflexivity.
  - rewrite (stimulus_key_not_rejection tag Hk). cbn [negb].
    destruct (translate_outcome_calibrated s side isp ism nsp nsm tag Hcal Hk)
      as [e He].
    destruct (data_row_Some s (Some ev) (tag ++ "_peck") e
                (clock s (S (clock_reads s))) (clock s (S (S (clock_reads s))))
                st ts fr 0 tag Hst Hsg Hts Hfr Ht) as (row & Hrow & _).
    exists (logged row s). split; [reflexivity|].
    rewrite (bind_run _ _ _ _ _ (write_data_run _ _ s e row He Hrow)).
    fold (logged row s).
    unfold bind, gets, attr, modify. cbn. rewrite Hp. cbn. rewrite Hfr. cbn.
    reflexivity.
Qed.

Lemma pretraining_trial_set_FR s v tag side isp ism nsp nsm st ts d :
  pretraining_trial s tag side isp ism nsp nsm st ts d ->
  pretraining_trial (set_choice_key_FR v s) tag side isp ism nsp nsm st ts d.
Proof. exact (fun H => H). Qed.

(** A peck that does not complete the ratio. *)
Lemma pretraining_peck_short s ev tag side isp ism nsp nsm st ts d fr :
  pretraining_trial s tag side isp ism nsp nsm st ts d ->
  choice_key_FR s = Some fr ->
  fr <> 1 ->
  exists s',
    key_press ev tag s = (Ok tt, s') /\
    choice_key_FR s' = Some (fr - 1) /\
    reinforcers_provided s' = reinforcers_provided s /\
    hopper_on s' = hopper_on s /\ timers s' = timers s /\
    shown_keys s' = [tag] /\
    food_canvas s' d = food_canvas s d /\
    pretraining_trial s' tag side isp ism nsp nsm st ts d.
Proof.
  intros Hpre Hfr Hne.
  destruct (key_press_pretraining s ev tag side isp ism nsp nsm st ts d fr
              Hpre Hfr) as (s1 & E & ->).
  destruct (Z.eqb_spec (fr - 1) 0) as [?|_]; [lia|].
  pose proof (pretraining_trial_outside_log _ _ _ _ _ _ _ _ _ _ _ E Hpre)
    as Hpre1.
  destruct Hpre1 as (Hp & Hd & Hcal & Ht & Hin & Hst & Hts & Hsg & Hh).
  destruct (pretraining_links (set_choice_key_FR (Some (fr - 1)) s1)
              tag side isp ism nsp nsm Hp Hd Hcal Ht Hin)
    as (cv & binds & Hrun & Hkeys).
  eexists. split; [exact Hrun|].
  log_field E reinforcers_provided. log_field E hopper_on.
  log_field E timers. log_field E subject_ID. log_field E text_bbox.
  unfold shown_keys, pretraining_trial, food_canvas. cbn.
  rewrite Hf2, Hf3.
  repeat split; try assumption; apply Hcal.
Qed.

(** The peck that completes the ratio. *)
Lemma pretraining_peck_last s ev tag side isp ism nsp nsm st ts d :
  pretraining_trial s tag side isp ism nsp nsm st ts d ->
  choice_key_FR s = Some 1 ->
  exists s' row,
    key_press ev tag s = (Ok tt, s') /\
    choice_key_FR s' = Some 0 /\
    reinforcers_provided s' = reinforcers_provided s + 1 /\
    hopper_on s' = true /\ canvas s' = food_canvas s d /\
    timers s' = timers s ++ [(d, CbITI)] /\
    last (session_data_frame s') [] = row /\
    row_location_event row = Some "reinforcer_provided" /\
    row_reinforcers row = Some (reinforcers_provided s).
Proof.
  intros Hpre Hfr.
  destruct (key_press_pretraining s ev tag side isp ism nsp nsm st ts d 1
              Hpre Hfr) as (s1 & E & ->).
  change (1 - 1 =? 0) with true. cbv iota.
  pose proof (pretraining_trial_outside_log _ _ _ _ _ _ _ _ _ _ _ E Hpre)
    as Hpre1.
  destruct Hpre1 as (Hp & Hd & Hcal & Ht & Hin & Hst & Hts & Hsg & Hh).
  set (s2 := set_choice_key_FR (Some (1 - 1)) s1).
  destruct (data_row_Some s2 None "reinforcer_provided" "reinforcer_provided"
              (clock s2 (S (clock_reads s2)))
              (clock s2 (S (S (clock_reads s2))))
              st ts 0 0 tag Hst Hsg Hts eq_refl Ht)
    as (row & Hrow & Hloc & _ & Hcount).
  exists (set_timers (timers s2 ++ [(d, CbITI)])
            (set_hopper_on true
               (set_canvas (food_canvas s2 d)
                  (set_reinforcers_provided (reinforcers_provided s2 + 1)
                     (logged row (set_canvas [] s2)))))), row.
  split; [exact (provide_food_run s2 row d Hd Hrow Hh)|].
  log_field E reinforcers_provided. log_field E timers.
  log_field E subject_ID. log_field E text_bbox.
  split; [reflexivity|]. split; [cbn; congruence|].
  split; [reflexivity|].
  split; [unfold food_canvas; cbn; now rewrite Hf1, Hf2|].
  split; [cbn; congruence|].
  split; [cbn; apply last_last|]. split; [exact Hloc|].
  rewrite Hcount. cbn. congruence.
Qed.

(** ** The fixed ratio of pre-training ([key_press], lines 921-926) *)

Lemma pecks_short_run tag side isp ism nsp nsm st ts d events :
  forall s fr,
  pretraining_trial s tag side isp ism nsp nsm st ts d ->
  choice_key_FR s = Some fr ->
  fr <= 0 \/ Z.of_nat (List.length events) < fr ->
  exists s',
    pecks events tag s = (Ok tt, s') /\
    choice_key_FR s' = Some (fr - Z.of_nat (List.length events)) /\
    reinforcers_provided s' = reinforcers_provided s /\
    hopper_on s' = hopper_on s /\ timers s' = timers s /\
    food_canvas s' d = food_canvas s d /\
    pretraining_trial s' tag side isp ism nsp nsm st ts d.
Proof.
  induction events as [|ev events IH]; intros s fr Hpre Hfr Hlt.
  - exists s. cbn. rewrite Z.sub_0_r. repeat split; assumption || apply Hpre.
  - assert (Hne : fr <> 1) by (cbn [List.length] in Hlt; lia).
    destruct (pretraining_peck_short s ev tag side isp ism nsp nsm st ts d fr
                Hpre Hfr Hne)
      as (s1 & Hrun & Hfr1 & Hr1 & Hh1 & Ht1 & _ & Hc1 & Hpre1).
    destruct (IH s1 (fr - 1) Hpre1 Hfr1)
      as (s' & Hrun' & Hfr' & Hr' & Hh' & Ht' & Hc' & Hpre').
    { cbn [List.length] in Hlt. lia. }
    exists s'. unfold pecks in *. cbn [for_each].
    rewrite (bind_run _ _ _ _ _ Hrun).
    split; [exact Hrun'|].
    split; [rewrite Hfr'; f_equal; cbn [List.length]; lia|].
    split; [congruence|]. split; [congruence|]. split; [congruence|].
    split; [congruence|]. exact Hpre'.
Qed.


(** X18. With a fixed ratio of at least one, the peck that completes the
    ratio, and no earlier one, is reinforced: the screen is cleared (a
    test session shows the text of line 977 on it), the hopper is
    raised, the reinforcer is counted, and the next inter-trial interval
    is scheduled after [hopper_duration]. *)
Theorem pretraining_ratio_met_gives_food
  s tag side isp ism nsp nsm st ts d fr events ev :
  pretraining_trial s tag side isp ism nsp nsm st ts d ->
  choice_key_FR s = Some fr ->
  1 <= fr ->
  Z.of_nat (List.length events) = fr - 1 ->
  exists s1 s',
    pecks events tag s = (Ok tt, s1) /\
    reinforcers_provided s1 = reinforcers_provided s /\
    hopper_on s1 = hopper_on s /\ timers s1 = timers s /\
    key_press ev tag s1 = (Ok tt, s') /\
    reinforcers_provided s' = reinforcers_provided s + 1 /\
    hopper_on s' = true /\ canvas s' = food_canvas s d /\
    timers s' = timers s ++ [(d, CbITI)].
Proof.
  intros Hpre Hfr H1 Hlen.
  destruct (pecks_short_run tag side isp ism nsp nsm st ts d events s fr
              Hpre Hfr) as (s1 & Hrun & Hfr1 & Hr1 & Hh1 & Ht1 & Hc1 & Hpre1).
  { right. lia. }
  assert (Hfr1' : choice_key_FR s1 = Some 1) by (rewrite Hfr1; f_equal; lia).
  destruct (pretraining_peck_last s1 ev tag side isp ism nsp nsm st ts d
              Hpre1 Hfr1')
    as (s' & row & Hrun' & _ & Hr' & Hh' & Hc' & Ht' & _).
  exists s1, s'. repeat split; try assumption; congruence.
Qed.

(** X19. [provide_food] writes its row before it counts the reinforcer:
    the row of the event "reinforcer_provided" carries the number of
    reinforcers given before this one. The call clears the screen (a
    test session shows the text of line 977 on it), raises the hopper
    and schedules the inter-trial interval after [hopper_duration]. *)
Theorem reinforcer_row_precedes_count s st ts fr stage ttype d :
  destroyed s = false ->
  start_time s = Some st -> trial_stage s = Some stage ->
  trial_start s = Some ts -> choice_key_FR s = Some fr ->
  trial_type s = Some ttype ->
  hopper_duration s = Some d ->
  exists s' row,
    provide_food s = (Ok tt, s') /\
    session_data_frame s' = session_data_frame s ++ [row] /\
    row_location_event row = Some "reinforcer_provided" /\
    row_experimental_event row = Some "reinforcer_provided" /\
    row_reinforcers row = Some (reinforcers_provided s) /\
    reinforcers_provided s' = reinforcers_provided s + 1 /\
    hopper_on s' = true /\ canvas s' = food_canvas s d /\
    timers s' = timers s ++ [(d, CbITI)].
Proof.
  intros Hd Hst Hsg Hts Hfr Ht Hh.
  destruct (data_row_Some s None "reinforcer_provided" "reinforcer_provided"
              (clock s (S (clock_reads s))) (clock s (S (S (clock_reads s))))
              st ts fr stage ttype Hst Hsg Hts Hfr Ht)
    as (row & Hrow & Hloc & Hexp & Hcount).
  eexists. exists row.
  split; [exact (provide_food_run s row d Hd Hrow Hh)|].
  repeat split; assumption.
Qed.


Lemma pretraining_ratio_met_gives_food_witness :
  let s := pretraining_left_trial "3" in
  let events := [(200, 300); (210, 310)] in
  exists s1 s',
    pecks events "left_choice_key" s = (Ok tt, s1) /\
    reinforcers_provided s1 = reinforcers_provided s /\
    hopper_on s1 = hopper_on s /\ timers s1 = timers s /\
    key_press (220, 320) "left_choice_key" s1 = (Ok tt, s') /\
    reinforcers_provided s' = reinforcers_provided s + 1 /\
    hopper_on s' = true /\ canvas s' = food_canvas s 3000 /\
    timers s' = timers s ++ [(3000, CbITI)].
Proof.
  apply (pretraining_ratio_met_gives_food (pretraining_left_trial "3")
           "left_choice_key" "Right" "red" "green" "yellow" "blue"
           0%Q 1%Q 3000 3 [(200, 300); (210, 310)] (220, 320)).
  - unfold pretraining_trial, calibrated.
    repeat split; try (vm_compute; reflexivity).
    + right; reflexivity.
    + right; left; reflexivity.
  - vm_compute; reflexivity.
  - lia.
  - reflexivity.
Defined.

Lemma reinforcer_row_precedes_count_witness :
  let s := test_left_trial "1" in
  exists s' row,
    provide_food s = (Ok tt, s') /\
    session_data_frame s' = session_data_frame s ++ [row] /\
    row_location_event row = Some "reinforcer_provided" /\
    row_experimental_event row = Some "reinforcer_provided" /\
    row_reinforcers row = Some (reinforcers_provided s) /\
    reinforcers_provided s' = reinforcers_provided s + 1 /\
    hopper_on s' = true /\ canvas s' = food_canvas s 3000 /\
    timers s' = timers s ++ [(3000, CbITI)].
Proof.
  apply (reinforcer_row_precedes_count (test_left_trial "1")
           0%Q 1%Q 1 0 "left_choice_key" 3000);
    vm_compute; reflexivity.
Defined.
